(** * git_chron_job: the commit-date reporter, embedded and verified

    The program (src/git_chron_job.py) validates a repository path, runs
    [git log], parses every output line as an ISO instant, converts it to
    US Pacific time with pytz, sorts the instants and prints a report.

    The embedding keeps the program's shape: the filesystem, the [git]
    subprocess and the machine's local zone form a [World]; standard output
    is a [Stdout], which says of every text whether it can be encoded;
    printing, path queries and process launches are recorded as a trace of
    events; Python exceptions are a result type threaded through a small
    monad, and the two [try] blocks of the source are [try_catch] with the
    source's handlers.  The library calls the program makes
    ([str.splitlines], [str.strip], [str.replace],
    [datetime.fromisoformat], [datetime.astimezone], [datetime.strftime],
    [list.sort], [pytz.timezone], [print]) are embedded next to it.

    Every function of the program is embedded twice: [f_on out], on any
    standard output [out], is the function as the source has it; [f] is
    [f_on accepting], the function on a standard output that can encode
    every text (UTF-8 with strings that hold no lone surrogate).

    What the model leaves out: code points above 255 in strings, a standard
    output that is closed while the program runs, and interrupts from
    outside (signals).  One [World] is one snapshot: the filesystem does
    not change between the two path checks. *)

From Stdlib Require Import ZArith List String Ascii Bool Lia DecimalString.
From Stdlib Require Import Permutation Sorted.
Import ListNotations.
Local Open Scope string_scope.
Local Open Scope Z_scope.

(** ** Python strings

    A [str] is modelled as a [string] over code points 0..255. *)

Module Str.

Definition ord (c : ascii) : nat := nat_of_ascii c.
Definition chr (n : nat) : ascii := ascii_of_nat n.

Definition LF : ascii := chr 10.
Definition CR : ascii := chr 13.

Definition is_empty (s : string) : bool :=
  match s with EmptyString => true | String _ _ => false end.

(** The line boundaries of [str.splitlines]. *)
Definition is_linebreak (c : ascii) : bool :=
  let n := ord c in
  ((10 <=? n) && (n <=? 13) || (28 <=? n) && (n <=? 30) || (n =? 133))%nat.

(** The characters [str.strip] removes ([str.isspace]). *)
Definition isspace (c : ascii) : bool :=
  let n := ord c in
  ((9 <=? n) && (n <=? 13) || (28 <=? n) && (n <=? 32)
   || (n =? 133) || (n =? 160))%nat.

Definition isdigit (c : ascii) : bool :=
  let n := ord c in ((48 <=? n) && (n <=? 57))%nat.

(** [splitlines]: [cur] is the line being read, [after_cr] tells that the
    previous character was a carriage return, so that a line feed that
    follows it belongs to the same boundary. *)
Fixpoint splitlines_go (s cur : string) (after_cr : bool) : list string :=
  match s with
  | EmptyString => if is_empty cur then [] else [cur]
  | String c rest =>
      if after_cr && Ascii.eqb c LF then splitlines_go rest cur false
      else if is_linebreak c then cur :: splitlines_go rest "" (Ascii.eqb c CR)
      else splitlines_go rest (cur ++ String c "") false
  end.

Definition splitlines (s : string) : list string := splitlines_go s "" false.

Fixpoint lstrip (s : string) : string :=
  match s with
  | EmptyString => ""
  | String c rest => if isspace c then lstrip rest else s
  end.

Fixpoint rstrip (s : string) : string :=
  match s with
  | EmptyString => ""
  | String c rest =>
      let rest' := rstrip rest in
      if isspace c && is_empty rest' then "" else String c rest'
  end.

Definition strip (s : string) : string := rstrip (lstrip s).

(** [s.replace(old, new)] for a one-character [old]. *)
Fixpoint replace (old : ascii) (new s : string) : string :=
  match s with
  | EmptyString => ""
  | String c rest =>
      if Ascii.eqb c old then new ++ replace old new rest
      else String c (replace old new rest)
  end.

Fixpoint endswith_char (s : string) (c : ascii) : bool :=
  match s with
  | EmptyString => false
  | String d EmptyString => Ascii.eqb d c
  | String _ rest => endswith_char rest c
  end.

Fixpoint contains_char (s : string) (c : ascii) : bool :=
  match s with
  | EmptyString => false
  | String d rest => Ascii.eqb d c || contains_char rest c
  end.

(** Decimal digits, most significant first. *)
Fixpoint parse_digits (s : string) (acc : Z) : option Z :=
  match s with
  | EmptyString => Some acc
  | String c rest =>
      if isdigit c then parse_digits rest (10 * acc + (Z.of_nat (ord c) - 48))
      else None
  end.

(** Exactly [n] digits of [s] from position [pos]. *)
Definition digits_at (n pos : nat) (s : string) : option Z :=
  let t := substring pos n s in
  if (String.length t =? n)%nat then parse_digits t 0 else None.

Definition char_at (pos : nat) (s : string) : option ascii := String.get pos s.

Definition digit_char (d : Z) : ascii := chr (Z.to_nat (48 + d mod 10)).

(** [n] written with exactly [width] digits (the low ones). *)
Fixpoint zero_padded (width : nat) (n : Z) : string :=
  match width with
  | O => ""
  | S w => zero_padded w (n / 10) ++ String (digit_char n) ""
  end.

(** [str(n)] for an integer [n]. *)
Definition of_nat (n : nat) : string := NilZero.string_of_uint (Nat.to_uint n).
Definition of_Z (n : Z) : string := NilZero.string_of_int (Z.to_int n).

Definition hex_digit (d : nat) : ascii :=
  if (d <? 10)%nat then chr (48 + d) else chr (87 + d).

(** [repr(s)]: quotes chosen as Python does, control and non-printable
    characters escaped. *)
Definition repr_char (q c : ascii) : string :=
  let n := ord c in
  if Ascii.eqb c q || (n =? 92)%nat then String (chr 92) (String c "")
  else if (n =? 9)%nat then "\t"
  else if (n =? 10)%nat then "\n"
  else if (n =? 13)%nat then "\r"
  else if ((n <? 32) || (127 <=? n) && (n <=? 160) || (n =? 173))%nat then
    String (chr 92) (String "x" (String (hex_digit (n / 16))
                                   (String (hex_digit (n mod 16)) "")))
  else String c "".

Fixpoint repr_body (q : ascii) (s : string) : string :=
  match s with
  | EmptyString => ""
  | String c rest => repr_char q c ++ repr_body q rest
  end.

Definition repr (s : string) : string :=
  let dq := chr 34 in
  let q := if contains_char s "'" && negb (contains_char s dq)
           then dq else "'"%char in
  String q (repr_body q s ++ String q "").

End Str.


(** ** Exceptions and fallible values

    The exception classes the program can meet.  All but [SystemExit] are
    subclasses of [Exception]; [CalledProcessError] carries the exit status
    and the captured output, the others their message ([str(e)]). *)

Inductive exn : Type :=
| CalledProcessError (returncode : Z) (output : string)
| ValueError (msg : string)
| TypeError (msg : string)
| OverflowError (msg : string)
| OSError (msg : string)
| KeyError (msg : string)
| SystemExit (code : Z).

Inductive result (A : Type) : Type :=
| Ok (a : A)
| Raise (e : exn).

Arguments Ok {A} a.
Arguments Raise {A} e.

Definition result_bind {A B} (r : result A) (k : A -> result B) : result B :=
  match r with
  | Ok a => k a
  | Raise e => Raise e
  end.

Definition option_bind {A B} (o : option A) (k : A -> option B) : option B :=
  match o with
  | Some a => k a
  | None => None
  end.

Notation "'let!' x ':=' e 'in' k" := (result_bind e (fun x => k))
  (at level 10, x pattern, e at level 100, k at level 200).
Notation "'let?' x ':=' e 'in' k" := (option_bind e (fun x => k))
  (at level 10, x pattern, e at level 100, k at level 200).

Definition guard (b : bool) : option unit := if b then Some tt else None.

(** ** The datetime library

    A [datetime] is kept as the count of microseconds of its wall-clock
    fields since 0001-01-01 00:00:00 (ordinal 1), which is how the library
    itself does arithmetic on it, together with its [tzinfo]; the calendar
    fields are recovered with the library's own ordinal conversions. *)

Module Datetime.

Record tzinfo : Type := mk_tzinfo {
  utcoffset : Z;      (* microseconds east of UTC *)
  dst : Z;            (* microseconds of daylight saving in effect *)
  tzname : string
}.

Record datetime : Type := mk_datetime {
  wall : Z;
  tz : option tzinfo
}.

Definition tzinfo_eqb (a b : tzinfo) : bool :=
  (utcoffset a =? utcoffset b) && (dst a =? dst b)
  && String.eqb (tzname a) (tzname b).

Definition MAXORDINAL : Z := 3652059.
Definition US_PER_SECOND : Z := 1000000.
Definition US_PER_DAY : Z := 86400 * US_PER_SECOND.
Definition MAX_WALL : Z := MAXORDINAL * US_PER_DAY.

Definition is_leap (year : Z) : bool :=
  (year mod 4 =? 0) && (negb (year mod 100 =? 0) || (year mod 400 =? 0)).

Definition days_before_year (year : Z) : Z :=
  let y := year - 1 in y * 365 + y / 4 - y / 100 + y / 400.

Definition DAYS_IN_MONTH : list Z :=
  [0; 31; 28; 31; 30; 31; 30; 31; 31; 30; 31; 30; 31].

Definition DAYS_BEFORE_MONTH : list Z :=
  [0; 0; 31; 59; 90; 120; 151; 181; 212; 243; 273; 304; 334].

Definition days_in_month (year month : Z) : Z :=
  if (month =? 2) && is_leap year then 29
  else nth (Z.to_nat month) DAYS_IN_MONTH 0.

Definition days_before_month (year month : Z) : Z :=
  nth (Z.to_nat month) DAYS_BEFORE_MONTH 0
  + (if (2 <? month) && is_leap year then 1 else 0).

Definition ymd2ord (year month day : Z) : Z :=
  days_before_year year + days_before_month year month + day.

Definition DI400Y : Z := days_before_year 401.
Definition DI100Y : Z := days_before_year 101.
Definition DI4Y : Z := days_before_year 5.

Definition ord2ymd (ordinal : Z) : Z * Z * Z :=
  let n := ordinal - 1 in
  let n400 := n / DI400Y in
  let n := n mod DI400Y in
  let year := n400 * 400 + 1 in
  let n100 := n / DI100Y in
  let n := n mod DI100Y in
  let n4 := n / DI4Y in
  let n := n mod DI4Y in
  let n1 := n / 365 in
  let n := n mod 365 in
  let year := year + n100 * 100 + n4 * 4 + n1 in
  if (n1 =? 4) || (n100 =? 4) then (year - 1, 12, 31)
  else
    let leapyear := (n1 =? 3) && (negb (n4 =? 24) || (n100 =? 3)) in
    let month := Z.shiftr (n + 50) 5 in
    let preceding := nth (Z.to_nat month) DAYS_BEFORE_MONTH 0
                     + (if (2 <? month) && leapyear then 1 else 0) in
    if n <? preceding then
      let month := month - 1 in
      let preceding := preceding
                       - (nth (Z.to_nat month) DAYS_IN_MONTH 0
                          + (if (month =? 2) && leapyear then 1 else 0)) in
      (year, month, n - preceding + 1)
    else (year, month, n - preceding + 1).

(** The wall-clock count of valid calendar fields. *)
Definition wall_of_fields (year month day hour minute second microsecond : Z) : Z :=
  (ymd2ord year month day - 1) * US_PER_DAY
  + ((hour * 60 + minute) * 60 + second) * US_PER_SECOND + microsecond.

Definition toordinal (d : datetime) : Z := wall d / US_PER_DAY + 1.
Definition year (d : datetime) : Z := fst (fst (ord2ymd (toordinal d))).
Definition month (d : datetime) : Z := snd (fst (ord2ymd (toordinal d))).
Definition day (d : datetime) : Z := snd (ord2ymd (toordinal d)).
Definition hour (d : datetime) : Z := (wall d mod US_PER_DAY) / (3600 * US_PER_SECOND).
Definition minute (d : datetime) : Z := (wall d / (60 * US_PER_SECOND)) mod 60.
Definition second (d : datetime) : Z := (wall d / US_PER_SECOND) mod 60.
Definition microsecond (d : datetime) : Z := wall d mod US_PER_SECOND.

(** Monday is 0. *)
Definition weekday (d : datetime) : Z := (toordinal d + 6) mod 7.

(** [self + timedelta(microseconds=delta)]: the result must stay within
    the years 1..9999. *)
Definition add_timedelta (d : datetime) (delta : Z) : result datetime :=
  let w := wall d + delta in
  if (0 <=? w) && (w <? MAX_WALL) then Ok (mk_datetime w (tz d))
  else Raise (OverflowError "date value out of range").

Definition replace_tzinfo (d : datetime) (t : option tzinfo) : datetime :=
  mk_datetime (wall d) t.

(** *** [datetime.fromisoformat]

    The grammar of [datetime.isoformat()]:
    [YYYY-MM-DD[*HH[:MM[:SS[.fff[fff]]]][+HH:MM[:SS[.ffffff]]]]], where [*]
    is any one character.  This is what the function accepts in the Python
    versions that need the trailing [Z] rewritten, as the program does. *)

Definition expect (c : ascii) (pos : nat) (s : string) : option unit :=
  let? d := Str.char_at pos s in guard (Ascii.eqb d c).

Definition parse_isoformat_date (s : string) : option (Z * Z * Z) :=
  let? y := Str.digits_at 4 0 s in
  let? _ := expect "-" 4 s in
  let? m := Str.digits_at 2 5 s in
  let? _ := expect "-" 7 s in
  let? d := Str.digits_at 2 8 s in
  Some (y, m, d).

(** [HH[:MM[:SS[.fff[fff]]]]], as hour, minute, second, microsecond. *)
Definition parse_hh_mm_ss_ff (t : string) : option (Z * Z * Z * Z) :=
  let n := String.length t in
  let? h := Str.digits_at 2 0 t in
  if (n =? 2)%nat then Some (h, 0, 0, 0) else
  let? _ := expect ":" 2 t in
  let? m := Str.digits_at 2 3 t in
  if (n =? 5)%nat then Some (h, m, 0, 0) else
  let? _ := expect ":" 5 t in
  let? s := Str.digits_at 2 6 t in
  if (n =? 8)%nat then Some (h, m, s, 0) else
  let? _ := expect "." 8 t in
  if (n =? 12)%nat then
    let? f := Str.digits_at 3 9 t in Some (h, m, s, f * 1000)
  else if (n =? 15)%nat then
    let? f := Str.digits_at 6 9 t in Some (h, m, s, f)
  else None.

(** Position of the first [+] or [-], the sign of the offset. *)
Fixpoint find_sign (t : string) (pos : nat) : option (nat * ascii) :=
  match t with
  | EmptyString => None
  | String c rest =>
      if Ascii.eqb c "+" || Ascii.eqb c "-" then Some (pos, c)
      else find_sign rest (S pos)
  end.

(** The time part: the clock fields and, when a sign is present, the
    offset in microseconds. *)
Definition parse_isoformat_time (t : string)
  : option (Z * Z * Z * Z * option Z) :=
  match find_sign t 0 with
  | None =>
      let? (h, m, s, f) := parse_hh_mm_ss_ff t in Some (h, m, s, f, None)
  | Some (pos, sign) =>
      let timestr := substring 0 pos t in
      let tzstr := substring (S pos) (String.length t - S pos) t in
      let? (h, m, s, f) := parse_hh_mm_ss_ff timestr in
      let n := String.length tzstr in
      let? _ := guard ((n =? 5) || (n =? 8) || (n =? 15))%nat in
      let? (th, tm, ts, tf) := parse_hh_mm_ss_ff tzstr in
      let off := ((th * 60 + tm) * 60 + ts) * US_PER_SECOND + tf in
      Some (h, m, s, f, Some (if Ascii.eqb sign "-" then - off else off))
  end.

Definition utc : tzinfo := mk_tzinfo 0 0 "UTC".

(** The name of a fixed-offset zone: [UTC], then the offset as
    [+HH:MM[:SS[.ffffff]]]. *)
Definition name_from_offset (off : Z) : string :=
  if off =? 0 then "UTC"
  else
    let sign := if off <? 0 then "-" else "+" in
    let delta := Z.abs off in
    let hours := delta / (3600 * US_PER_SECOND) in
    let minutes := (delta / (60 * US_PER_SECOND)) mod 60 in
    let seconds := (delta / US_PER_SECOND) mod 60 in
    let microseconds := delta mod US_PER_SECOND in
    let hm := "UTC" ++ sign ++ Str.zero_padded 2 hours ++ ":"
              ++ Str.zero_padded 2 minutes in
    if negb (microseconds =? 0) then
      hm ++ ":" ++ Str.zero_padded 2 seconds ++ "." ++ Str.zero_padded 6 microseconds
    else if negb (seconds =? 0) then hm ++ ":" ++ Str.zero_padded 2 seconds
    else hm.

(** [repr(timedelta(microseconds=us))]: the normalised days, seconds and
    microseconds, those that are not zero. *)
Definition timedelta_repr (us : Z) : string :=
  let days := us / US_PER_DAY in
  let seconds := (us mod US_PER_DAY) / US_PER_SECOND in
  let microseconds := us mod US_PER_SECOND in
  let args :=
    List.app (if days =? 0 then [] else ["days=" ++ Str.of_Z days])
      (List.app (if seconds =? 0 then [] else ["seconds=" ++ Str.of_Z seconds])
         (if microseconds =? 0 then []
          else ["microseconds=" ++ Str.of_Z microseconds])) in
  "datetime.timedelta("
  ++ (match args with [] => "0" | _ => concat ", " args end) ++ ")".

(** [timezone(timedelta(microseconds=off))]. *)
Definition timezone (off : Z) : result tzinfo :=
  if off =? 0 then Ok utc
  else if (- US_PER_DAY <? off) && (off <? US_PER_DAY)
  then Ok (mk_tzinfo off 0 (name_from_offset off))
  else Raise (ValueError
    ("offset must be a timedelta strictly between -timedelta(hours=24) and timedelta(hours=24), not "
     ++ timedelta_repr off ++ ".")).

Definition check (b : bool) (msg : string) : result unit :=
  if b then Ok tt else Raise (ValueError msg).

(** The constructor's range checks, in its order. *)
Definition new_datetime (y m d hh mm ss us : Z) (t : option tzinfo)
  : result datetime :=
  let! _ := check ((1 <=? y) && (y <=? 9999))
                  ("year " ++ Str.of_Z y ++ " is out of range") in
  let! _ := check ((1 <=? m) && (m <=? 12)) "month must be in 1..12" in
  let! _ := check ((1 <=? d) && (d <=? days_in_month y m))
                  "day is out of range for month" in
  let! _ := check ((0 <=? hh) && (hh <=? 23)) "hour must be in 0..23" in
  let! _ := check ((0 <=? mm) && (mm <=? 59)) "minute must be in 0..59" in
  let! _ := check ((0 <=? ss) && (ss <=? 59)) "second must be in 0..59" in
  Ok (mk_datetime (wall_of_fields y m d hh mm ss us) t).

Definition invalid_isoformat (s : string) : exn :=
  ValueError ("Invalid isoformat string: " ++ Str.repr s).

Definition parse_isoformat (s : string)
  : option (Z * Z * Z * (Z * Z * Z * Z * option Z)) :=
  let? (y, m, d) := parse_isoformat_date (substring 0 10 s) in
  if (String.length s =? 10)%nat then Some (y, m, d, (0, 0, 0, 0, None))
  else
    let? _ := Str.char_at 10 s in
    let? t := parse_isoformat_time (substring 11 (String.length s - 11) s) in
    Some (y, m, d, t).

Definition fromisoformat (date_string : string) : result datetime :=
  match parse_isoformat date_string with
  | None => Raise (invalid_isoformat date_string)
  | Some (y, m, d, (hh, mm, ss, us, off)) =>
      let! t := match off with
                | None => Ok None
                | Some o => let! z := timezone o in Ok (Some z)
                end in
      new_datetime y m d hh mm ss us t
  end.

(** *** [datetime.astimezone]

    [self.astimezone(tz)]: subtract the offset of [self] to reach UTC, then
    let the target zone place the instant ([tz.fromutc]).  A naive [self]
    is read in the machine's local zone: [local_zone] gives its offset at a
    wall-clock time, or the exception of the platform that cannot tell.
    Either subtraction or placement can leave the years 1..9999, which
    raises [OverflowError]. *)
Definition astimezone (local_zone : Z -> result Z) (self : datetime)
    (fromutc : datetime -> result datetime) : result datetime :=
  let! offset :=
    match tz self with
    | Some t => Ok (utcoffset t)
    | None => local_zone (wall self)
    end in
  let! utc_time := add_timedelta self (- offset) in
  fromutc (replace_tzinfo utc_time (Some utc)).

(** *** Comparison

    Two aware datetimes with the same [tzinfo], or with equal offsets, are
    compared on their wall-clock fields, others on their UTC instants; a
    naive and an aware one cannot be ordered. *)
Definition lt (a b : datetime) : result bool :=
  match tz a, tz b with
  | None, None => Ok (wall a <? wall b)
  | Some ta, Some tb =>
      if tzinfo_eqb ta tb || (utcoffset ta =? utcoffset tb)
      then Ok (wall a <? wall b)
      else Ok (wall a - utcoffset ta <? wall b - utcoffset tb)
  | _, _ => Raise (TypeError "can't compare offset-naive and offset-aware datetimes")
  end.

(** *** [list.sort]

    A stable sort that only asks [x < y]: each element goes in front of the
    first element of the sorted prefix that is greater than it. *)
Fixpoint insert (x : datetime) (sorted : list datetime) : result (list datetime) :=
  match sorted with
  | [] => Ok [x]
  | y :: rest =>
      let! b := lt x y in
      if b then Ok (x :: y :: rest)
      else let! rest' := insert x rest in Ok (y :: rest')
  end.

Fixpoint sort_into (l sorted : list datetime) : result (list datetime) :=
  match l with
  | [] => Ok sorted
  | x :: rest => let! sorted' := insert x sorted in sort_into rest sorted'
  end.

Definition sort (l : list datetime) : result (list datetime) := sort_into l [].

(** *** [strftime] *)

Definition DAY_NAMES : list string :=
  ["Monday"; "Tuesday"; "Wednesday"; "Thursday"; "Friday"; "Saturday"; "Sunday"].

(** [%Y] is the year as the C library writes it, without padding: a year
    below 1000 has fewer than four digits. *)
Definition directive (c : ascii) (d : datetime) : string :=
  if Ascii.eqb c "A" then nth (Z.to_nat (weekday d)) DAY_NAMES ""
  else if Ascii.eqb c "Y" then Str.of_Z (year d)
  else if Ascii.eqb c "m" then Str.zero_padded 2 (month d)
  else if Ascii.eqb c "d" then Str.zero_padded 2 (day d)
  else if Ascii.eqb c "H" then Str.zero_padded 2 (hour d)
  else if Ascii.eqb c "M" then Str.zero_padded 2 (minute d)
  else if Ascii.eqb c "S" then Str.zero_padded 2 (second d)
  else if Ascii.eqb c "Z" then match tz d with Some t => tzname t | None => "" end
  else if Ascii.eqb c "%" then "%"
  else String "%" (String c "").

Fixpoint strftime (fmt : string) (d : datetime) : string :=
  match fmt with
  | EmptyString => ""
  | String "%" (String c rest) => directive c d ++ strftime rest d
  | String c rest => String c (strftime rest d)
  end.

End Datetime.

(** ** pytz

    A [DstTzInfo] zone holds the UTC instants at which its rules change and
    the zone in force from each of them; pytz builds both lists from the
    32-bit block of the compiled tz database, whose first entry stands at
    the lower limit of that block, and puts the zone's first standard time
    in front for all earlier instants. *)

Module Pytz.
Import Datetime.

Record DstTzInfo : Type := mk_zone {
  zone : string;
  utc_transition_times : list Z;
  transition_info : list tzinfo
}.

(** [bisect.bisect_right] on a sorted list: the number of entries that are
    not after [x]. *)
Fixpoint bisect_right (a : list Z) (x : Z) : nat :=
  match a with
  | [] => O
  | t :: rest => if x <? t then O else S (bisect_right rest x)
  end.

(** [tz.fromutc(dt)]: find the rule in force at the UTC time [dt], shift
    the wall clock by its offset and attach it. *)
Definition fromutc (z : DstTzInfo) (dt : datetime) : result datetime :=
  let dt := replace_tzinfo dt None in
  let idx := Nat.pred (bisect_right (utc_transition_times z) (wall dt)) in
  let inf := nth idx (transition_info z) utc in
  let! local := add_timedelta dt (utcoffset inf) in
  Ok (replace_tzinfo local (Some inf)).

Definition seconds (n : Z) : Z := n * US_PER_SECOND.

Definition LMT : tzinfo := mk_tzinfo (seconds (-28380)) 0 "LMT".
Definition PST : tzinfo := mk_tzinfo (seconds (-28800)) 0 "PST".
Definition PDT : tzinfo := mk_tzinfo (seconds (-25200)) (seconds 3600) "PDT".
Definition PWT : tzinfo := mk_tzinfo (seconds (-25200)) (seconds 3600) "PWT".
Definition PPT : tzinfo := mk_tzinfo (seconds (-25200)) (seconds 3600) "PPT".

(** A naive UTC time, as pytz writes its transition instants. *)
Definition d (year month day hour minute second : Z) : Z :=
  wall_of_fields year month day hour minute second 0.

(** The transitions of America/Los_Angeles. *)
Definition Los_Angeles_transitions : list (Z * tzinfo) := [
  (d 1 1 1 0 0 0, LMT);
  (d 1901 12 13 20 45 52, PST);
  (d 1918 3 31 10 0 0, PDT);
  (d 1918 10 27 9 0 0, PST);
  (d 1919 3 30 10 0 0, PDT);
  (d 1919 10 26 9 0 0, PST);
  (d 1942 2 9 10 0 0, PWT);
  (d 1945 8 14 23 0 0, PPT);
  (d 1945 9 30 9 0 0, PST);
  (d 1948 3 14 10 1 0, PDT);
  (d 1949 1 1 9 0 0, PST);
  (d 1950 4 30 9 0 0, PDT);
  (d 1950 9 24 9 0 0, PST);
  (d 1951 4 29 9 0 0, PDT);
  (d 1951 9 30 9 0 0, PST);
  (d 1952 4 27 9 0 0, PDT);
  (d 1952 9 28 9 0 0, PST);
  (d 1953 4 26 9 0 0, PDT);
  (d 1953 9 27 9 0 0, PST);
  (d 1954 4 25 9 0 0, PDT);
  (d 1954 9 26 9 0 0, PST);
  (d 1955 4 24 9 0 0, PDT);
  (d 1955 9 25 9 0 0, PST);
  (d 1956 4 29 9 0 0, PDT);
  (d 1956 9 30 9 0 0, PST);
  (d 1957 4 28 9 0 0, PDT);
  (d 1957 9 29 9 0 0, PST);
  (d 1958 4 27 9 0 0, PDT);
  (d 1958 9 28 9 0 0, PST);
  (d 1959 4 26 9 0 0, PDT);
  (d 1959 9 27 9 0 0, PST);
  (d 1960 4 24 9 0 0, PDT);
  (d 1960 9 25 9 0 0, PST);
  (d 1961 4 30 9 0 0, PDT);
  (d 1961 9 24 9 0 0, PST);
  (d 1962 4 29 9 0 0, PDT);
  (d 1962 10 28 9 0 0, PST);
  (d 1963 4 28 9 0 0, PDT);
  (d 1963 10 27 9 0 0, PST);
  (d 1964 4 26 9 0 0, PDT);
  (d 1964 10 25 9 0 0, PST);
  (d 1965 4 25 9 0 0, PDT);
  (d 1965 10 31 9 0 0, PST);
  (d 1966 4 24 9 0 0, PDT);
  (d 1966 10 30 9 0 0, PST);
  (d 1967 4 30 10 0 0, PDT);
  (d 1967 10 29 9 0 0, PST);
  (d 1968 4 28 10 0 0, PDT);
  (d 1968 10 27 9 0 0, PST);
  (d 1969 4 27 10 0 0, PDT);
  (d 1969 10 26 9 0 0, PST);
  (d 1970 4 26 10 0 0, PDT);
  (d 1970 10 25 9 0 0, PST);
  (d 1971 4 25 10 0 0, PDT);
  (d 1971 10 31 9 0 0, PST);
  (d 1972 4 30 10 0 0, PDT);
  (d 1972 10 29 9 0 0, PST);
  (d 1973 4 29 10 0 0, PDT);
  (d 1973 10 28 9 0 0, PST);
  (d 1974 1 6 10 0 0, PDT);
  (d 1974 10 27 9 0 0, PST);
  (d 1975 2 23 10 0 0, PDT);
  (d 1975 10 26 9 0 0, PST);
  (d 1976 4 25 10 0 0, PDT);
  (d 1976 10 31 9 0 0, PST);
  (d 1977 4 24 10 0 0, PDT);
  (d 1977 10 30 9 0 0, PST);
  (d 1978 4 30 10 0 0, PDT);
  (d 1978 10 29 9 0 0, PST);
  (d 1979 4 29 10 0 0, PDT);
  (d 1979 10 28 9 0 0, PST);
  (d 1980 4 27 10 0 0, PDT);
  (d 1980 10 26 9 0 0, PST);
  (d 1981 4 26 10 0 0, PDT);
  (d 1981 10 25 9 0 0, PST);
  (d 1982 4 25 10 0 0, PDT);
  (d 1982 10 31 9 0 0, PST);
  (d 1983 4 24 10 0 0, PDT);
  (d 1983 10 30 9 0 0, PST);
  (d 1984 4 29 10 0 0, PDT);
  (d 1984 10 28 9 0 0, PST);
  (d 1985 4 28 10 0 0, PDT);
  (d 1985 10 27 9 0 0, PST);
  (d 1986 4 27 10 0 0, PDT);
  (d 1986 10 26 9 0 0, PST);
  (d 1987 4 5 10 0 0, PDT);
  (d 1987 10 25 9 0 0, PST);
  (d 1988 4 3 10 0 0, PDT);
  (d 1988 10 30 9 0 0, PST);
  (d 1989 4 2 10 0 0, PDT);
  (d 1989 10 29 9 0 0, PST);
  (d 1990 4 1 10 0 0, PDT);
  (d 1990 10 28 9 0 0, PST);
  (d 1991 4 7 10 0 0, PDT);
  (d 1991 10 27 9 0 0, PST);
  (d 1992 4 5 10 0 0, PDT);
  (d 1992 10 25 9 0 0, PST);
  (d 1993 4 4 10 0 0, PDT);
  (d 1993 10 31 9 0 0, PST);
  (d 1994 4 3 10 0 0, PDT);
  (d 1994 10 30 9 0 0, PST);
  (d 1995 4 2 10 0 0, PDT);
  (d 1995 10 29 9 0 0, PST);
  (d 1996 4 7 10 0 0, PDT);
  (d 1996 10 27 9 0 0, PST);
  (d 1997 4 6 10 0 0, PDT);
  (d 1997 10 26 9 0 0, PST);
  (d 1998 4 5 10 0 0, PDT);
  (d 1998 10 25 9 0 0, PST);
  (d 1999 4 4 10 0 0, PDT);
  (d 1999 10 31 9 0 0, PST);
  (d 2000 4 2 10 0 0, PDT);
  (d 2000 10 29 9 0 0, PST);
  (d 2001 4 1 10 0 0, PDT);
  (d 2001 10 28 9 0 0, PST);
  (d 2002 4 7 10 0 0, PDT);
  (d 2002 10 27 9 0 0, PST);
  (d 2003 4 6 10 0 0, PDT);
  (d 2003 10 26 9 0 0, PST);
  (d 2004 4 4 10 0 0, PDT);
  (d 2004 10 31 9 0 0, PST);
  (d 2005 4 3 10 0 0, PDT);
  (d 2005 10 30 9 0 0, PST);
  (d 2006 4 2 10 0 0, PDT);
  (d 2006 10 29 9 0 0, PST);
  (d 2007 3 11 10 0 0, PDT);
  (d 2007 11 4 9 0 0, PST);
  (d 2008 3 9 10 0 0, PDT);
  (d 2008 11 2 9 0 0, PST);
  (d 2009 3 8 10 0 0, PDT);
  (d 2009 11 1 9 0 0, PST);
  (d 2010 3 14 10 0 0, PDT);
  (d 2010 11 7 9 0 0, PST);
  (d 2011 3 13 10 0 0, PDT);
  (d 2011 11 6 9 0 0, PST);
  (d 2012 3 11 10 0 0, PDT);
  (d 2012 11 4 9 0 0, PST);
  (d 2013 3 10 10 0 0, PDT);
  (d 2013 11 3 9 0 0, PST);
  (d 2014 3 9 10 0 0, PDT);
  (d 2014 11 2 9 0 0, PST);
  (d 2015 3 8 10 0 0, PDT);
  (d 2015 11 1 9 0 0, PST);
  (d 2016 3 13 10 0 0, PDT);
  (d 2016 11 6 9 0 0, PST);
  (d 2017 3 12 10 0 0, PDT);
  (d 2017 11 5 9 0 0, PST);
  (d 2018 3 11 10 0 0, PDT);
  (d 2018 11 4 9 0 0, PST);
  (d 2019 3 10 10 0 0, PDT);
  (d 2019 11 3 9 0 0, PST);
  (d 2020 3 8 10 0 0, PDT);
  (d 2020 11 1 9 0 0, PST);
  (d 2021 3 14 10 0 0, PDT);
  (d 2021 11 7 9 0 0, PST);
  (d 2022 3 13 10 0 0, PDT);
  (d 2022 11 6 9 0 0, PST);
  (d 2023 3 12 10 0 0, PDT);
  (d 2023 11 5 9 0 0, PST);
  (d 2024 3 10 10 0 0, PDT);
  (d 2024 11 3 9 0 0, PST);
  (d 2025 3 9 10 0 0, PDT);
  (d 2025 11 2 9 0 0, PST);
  (d 2026 3 8 10 0 0, PDT);
  (d 2026 11 1 9 0 0, PST);
  (d 2027 3 14 10 0 0, PDT);
  (d 2027 11 7 9 0 0, PST);
  (d 2028 3 12 10 0 0, PDT);
  (d 2028 11 5 9 0 0, PST);
  (d 2029 3 11 10 0 0, PDT);
  (d 2029 11 4 9 0 0, PST);
  (d 2030 3 10 10 0 0, PDT);
  (d 2030 11 3 9 0 0, PST);
  (d 2031 3 9 10 0 0, PDT);
  (d 2031 11 2 9 0 0, PST);
  (d 2032 3 14 10 0 0, PDT);
  (d 2032 11 7 9 0 0, PST);
  (d 2033 3 13 10 0 0, PDT);
  (d 2033 11 6 9 0 0, PST);
  (d 2034 3 12 10 0 0, PDT);
  (d 2034 11 5 9 0 0, PST);
  (d 2035 3 11 10 0 0, PDT);
  (d 2035 11 4 9 0 0, PST);
  (d 2036 3 9 10 0 0, PDT);
  (d 2036 11 2 9 0 0, PST);
  (d 2037 3 8 10 0 0, PDT);
  (d 2037 11 1 9 0 0, PST)
].

Definition America_Los_Angeles : DstTzInfo :=
  mk_zone "America/Los_Angeles"
          (map fst Los_Angeles_transitions)
          (map snd Los_Angeles_transitions).

(** [pytz.timezone(name)]; the program only asks for one zone. *)
Definition timezone (name : string) : result DstTzInfo :=
  if String.eqb name "America/Los_Angeles" then Ok America_Los_Angeles
  else Raise (KeyError (Str.repr name)).

End Pytz.

(** ** The world and the effects of the program

    What the program can observe: which paths exist, what a launched
    process does, and the local zone of the machine.  What it does is
    recorded, in order, as a trace of events. *)

Inductive proc_outcome : Type :=
| Exited (status : Z) (output : string)   (* ran; combined stdout and stderr *)
| LaunchError (msg : string)              (* could not be started: an OSError *)
| DecodeError (msg : string).             (* output is not text: a ValueError *)

(** How the platform fails to tell the local zone at a wall-clock time:
    the year leaves the calendar when the time is shifted ([ValueError]),
    or the timestamp is outside what the C library converts
    ([OverflowError], [OSError]). *)
Inductive zone_failure : Type :=
| YearOutOfRange (msg : string)
| TimestampOutOfRange (msg : string)
| PlatformError (msg : string).

Definition zone_exception (f : zone_failure) : exn :=
  match f with
  | YearOutOfRange msg => ValueError msg
  | TimestampOutOfRange msg => OverflowError msg
  | PlatformError msg => OSError msg
  end.

Record World : Type := mk_world {
  fs_exists : string -> bool;
  run_process : list string -> proc_outcome;
  local_offset : Z -> option Z;
  local_failure : Z -> zone_failure
}.

(** The local zone as [datetime.astimezone] asks for it. *)
Definition local_zone (w : World) (wall : Z) : result Z :=
  match local_offset w wall with
  | Some o => Ok o
  | None => Raise (zone_exception (local_failure w wall))
  end.

Inductive event : Type :=
| Print (text : string)          (* print(text): the text and a newline *)
| PathExists (path : string)     (* os.path.exists(path) *)
| Spawn (argv : list string).    (* a subprocess launched with argv *)

(** A computation emits events and ends with a value or an exception. *)
Definition M (A : Type) : Type := (list event * result A)%type.

Definition ret {A} (a : A) : M A := ([], Ok a).

Definition raise {A} (e : exn) : M A := ([], Raise e).

Definition bind {A B} (m : M A) (k : A -> M B) : M B :=
  match m with
  | (t, Ok a) => let (t', r) := k a in ((t ++ t')%list, r)
  | (t, Raise e) => (t, Raise e)
  end.

Definition lift {A} (r : result A) : M A := ([], r).

(** [try: m except e: handler e]. *)
Definition try_catch {A} (m : M A) (handler : exn -> M A) : M A :=
  match m with
  | (t, Ok a) => (t, Ok a)
  | (t, Raise e) => let (t', r) := handler e in ((t ++ t')%list, r)
  end.

Notation "x <- c1 ;; c2" := (bind c1 (fun x => c2))
  (at level 61, c1 at next level, right associativity).
Notation "c1 ;; c2" := (bind c1 (fun _ => c2))
  (at level 61, right associativity).

(** Standard output, seen through its encoder: for a text, nothing when
    the text can be written, the message of the [UnicodeEncodeError]
    otherwise. *)
Definition Stdout : Type := string -> option string.

(** A standard output that can encode every text. *)
Definition accepting : Stdout := fun _ => None.

(** [print(text)]: the text is encoded as a whole before anything is
    written, so a text that cannot be encoded leaves no output.
    [UnicodeEncodeError] is a [ValueError]. *)
Definition print (out : Stdout) (text : string) : M unit :=
  match out text with
  | None => ([Print text], Ok tt)
  | Some msg => ([], Raise (ValueError msg))
  end.

Fixpoint for_each {A} (l : list A) (body : A -> M unit) : M unit :=
  match l with
  | [] => ret tt
  | x :: rest => body x ;; for_each rest body
  end.

(** What reaches standard output. *)
Fixpoint stdout (t : list event) : list string :=
  match t with
  | [] => []
  | Print text :: rest => text :: stdout rest
  | _ :: rest => stdout rest
  end.

Definition newline : string := String Str.LF "".

Fixpoint stdout_text (printed : list string) : string :=
  match printed with
  | [] => ""
  | text :: rest => text ++ newline ++ stdout_text rest
  end.

Fixpoint spawned (t : list event) : list (list string) :=
  match t with
  | [] => []
  | Spawn argv :: rest => argv :: spawned rest
  | _ :: rest => spawned rest
  end.

Module os_path.

Definition exists_ (w : World) (path : string) : M bool :=
  ([PathExists path], Ok (fs_exists w path)).

Definition startswith_sep (b : string) : bool :=
  match b with String c _ => Ascii.eqb c "/" | EmptyString => false end.

(** [os.path.join(a, b)] on a POSIX system. *)
Definition join (a b : string) : string :=
  if startswith_sep b then b
  else if Str.is_empty a || Str.endswith_char a "/" then a ++ b
  else a ++ "/" ++ b.

End os_path.

Module subprocess.

(** [check_output(argv, stderr=STDOUT, universal_newlines=True)]. *)
Definition check_output (w : World) (argv : list string) : M string :=
  ([Spawn argv],
   match run_process w argv with
   | Exited status output =>
       if status =? 0 then Ok output
       else Raise (CalledProcessError status output)
   | LaunchError msg => Raise (OSError msg)
   | DecodeError msg => Raise (ValueError msg)
   end).

End subprocess.

(** ** The program: src/git_chron_job.py *)

(** The body of the [for] loop of [get_commit_log], over the lines that
    remain, with [parsed_dates] as collected so far. *)
Fixpoint parse_lines_on (out : Stdout) (w : World) (pst : Pytz.DstTzInfo)
    (lines : list string) (parsed_dates : list Datetime.datetime)
  : M (list Datetime.datetime) :=
  match lines with
  | [] => ret parsed_dates
  | date_str :: rest =>
      if Str.is_empty (Str.strip date_str) then
        parse_lines_on out w pst rest parsed_dates
      else
        parsed_dates <-
          try_catch
            (utc_time <- lift (Datetime.fromisoformat
                                 (Str.replace "Z" "+00:00" date_str)) ;;
             pst_time <- lift (Datetime.astimezone (local_zone w) utc_time
                                                   (Pytz.fromutc pst)) ;;
             ret (parsed_dates ++ [pst_time])%list)
            (fun e =>
               match e with
               | ValueError msg =>
                   print out ("Warning: Could not parse date '" ++ date_str
                              ++ "': " ++ msg) ;;
                   ret parsed_dates
               | _ => raise e
               end) ;;
        parse_lines_on out w pst rest parsed_dates
  end.

Definition git_log_argv (repo_path : string) : list string :=
  ["git"; "-C"; repo_path; "log"; "--pretty=format:%cd"; "--date=iso-strict"].

Definition rule : string := concat "" (repeat "-" 60).

Definition report_header (repo_path : string) : string :=
  "Commit dates and times (PST) for repository at '" ++ repo_path ++ "':".

Definition report_line (pst_time : Datetime.datetime) : string :=
  Datetime.strftime "%A, %Y-%m-%d %H:%M:%S %Z" pst_time.

(** The body of the outer [try]. *)
Definition get_commit_log_try_on (out : Stdout) (w : World)
    (repo_path : string) : M (option (list Datetime.datetime)) :=
  log_output <- subprocess.check_output w (git_log_argv repo_path) ;;
  pst <- lift (Pytz.timezone "America/Los_Angeles") ;;
  parsed_dates <- parse_lines_on out w pst (Str.splitlines log_output) [] ;;
  match parsed_dates with
  | [] =>
      print out ("Warning: No valid commit dates found in repository '"
                 ++ repo_path ++ "'") ;;
      ret None
  | _ :: _ =>
      parsed_dates <- lift (Datetime.sort parsed_dates) ;;
      print out (newline ++ report_header repo_path) ;;
      print out rule ;;
      for_each parsed_dates
               (fun pst_time => print out (report_line pst_time)) ;;
      print out rule ;;
      print out ("Total commits: " ++ Str.of_nat (List.length parsed_dates)) ;;
      ret (Some parsed_dates)
  end.

(** The [except] clauses of the outer [try], in their order. *)
Definition get_commit_log_except_on (out : Stdout) (e : exn)
  : M (option (list Datetime.datetime)) :=
  match e with
  | CalledProcessError _ output =>
      print out ("Error running git command: " ++ output) ;; ret None
  | SystemExit _ => raise e
  | ValueError msg | TypeError msg | OverflowError msg | OSError msg
  | KeyError msg =>
      print out ("Unexpected error: " ++ msg) ;; ret None
  end.

Definition get_commit_log_on (out : Stdout) (w : World) (repo_path : string)
  : M (option (list Datetime.datetime)) :=
  found <- os_path.exists_ w repo_path ;;
  if negb found then
    print out ("Error: Path '" ++ repo_path ++ "' does not exist.") ;;
    ret None
  else
    found <- os_path.exists_ w (os_path.join repo_path ".git") ;;
    if negb found then
      print out ("Error: '" ++ repo_path ++ "' is not a valid Git repository.") ;;
      ret None
    else
      try_catch (get_commit_log_try_on out w repo_path)
                (get_commit_log_except_on out).

Definition usage : string := "Usage: python3 git_chron_job.py <path_to_git_repo>".

(** [main], on [sys.argv]; [sys.exit(1)] raises [SystemExit]. *)
Definition main_on (out : Stdout) (w : World) (argv : list string) : M unit :=
  if negb (List.length argv =? 2)%nat then
    print out usage ;; raise (SystemExit 1)
  else
    let repo_path := nth 1 argv "" in
    get_commit_log_on out w repo_path ;; ret tt.

(** The exit status of the interpreter: 0 when the script returns, the
    code of an uncaught [SystemExit], 1 after any other uncaught
    exception. *)
Definition exit_status (r : result unit) : Z :=
  match r with
  | Ok _ => 0
  | Raise (SystemExit code) => code
  | Raise _ => 1
  end.

Definition run_script_on (out : Stdout) (w : World) (argv : list string)
  : list event * Z :=
  let (t, r) := main_on out w argv in (t, exit_status r).

(** ** The program on a standard output that encodes every text *)

Definition parse_lines : World -> Pytz.DstTzInfo -> list string ->
    list Datetime.datetime -> M (list Datetime.datetime) :=
  parse_lines_on accepting.

Definition get_commit_log_try : World -> string ->
    M (option (list Datetime.datetime)) :=
  get_commit_log_try_on accepting.

Definition get_commit_log_except : exn -> M (option (list Datetime.datetime)) :=
  get_commit_log_except_on accepting.

Definition get_commit_log : World -> string ->
    M (option (list Datetime.datetime)) :=
  get_commit_log_on accepting.

Definition main : World -> list string -> M unit := main_on accepting.

Definition run_script : World -> list string -> list event * Z :=
  run_script_on accepting.

(** * Specification vocabulary *)

Import Datetime.

(** The UTC instant of a datetime, in microseconds. *)
Definition instant (x : datetime) : Z :=
  wall x - match tz x with Some t => utcoffset t | None => 0 end.

Definition aware (x : datetime) : Prop := tz x <> None.

(** Earliest first, equal instants allowed. *)
Definition chronological : list datetime -> Prop :=
  StronglySorted (fun a b => instant a <= instant b).

(** The zone the program converts to. *)
Definition pacific : Pytz.DstTzInfo := Pytz.America_Los_Angeles.

(** The rule of a zone in force at a UTC wall-clock time. *)
Definition in_force (z : Pytz.DstTzInfo) (utc_wall : Z) : tzinfo :=
  nth (Nat.pred (Pytz.bisect_right (Pytz.utc_transition_times z) utc_wall))
      (Pytz.transition_info z) utc.

(** The offset [astimezone] takes for its argument. *)
Definition source_offset (w : World) (x : datetime) : option Z :=
  match tz x with
  | Some t => Some (utcoffset t)
  | None => local_offset w (wall x)
  end.

(** What the inner [try] computes for one line: parse, then convert. *)
Definition convert (w : World) (pst : Pytz.DstTzInfo) (date_str : string)
  : result datetime :=
  let! utc_time := fromisoformat (Str.replace "Z" "+00:00" date_str) in
  astimezone (local_zone w) utc_time (Pytz.fromutc pst).

Definition blank (date_str : string) : bool := Str.is_empty (Str.strip date_str).

Definition parse_warning (date_str msg : string) : string :=
  "Warning: Could not parse date '" ++ date_str ++ "': " ++ msg.

Definition no_dates_warning (repo_path : string) : string :=
  "Warning: No valid commit dates found in repository '" ++ repo_path ++ "'".

(** The loop as a fold, in the words of the specification: successes are
    collected in order, failures go to the warnings, blank lines to
    neither. *)
Definition accepted (w : World) (lines : list string) : list datetime :=
  flat_map (fun l => if blank l then []
                     else match convert w pacific l with
                          | Ok x => [x]
                          | Raise _ => []
                          end) lines.

Definition warnings (w : World) (lines : list string) : list string :=
  flat_map (fun l => if blank l then []
                     else match convert w pacific l with
                          | Raise (ValueError msg) => [parse_warning l msg]
                          | _ => []
                          end) lines.

(** A line the loop gets past: blank, converted, or refused by the parser. *)
Definition tolerated (w : World) (l : string) : Prop :=
  blank l = true \/ (exists x, convert w pacific l = Ok x)
  \/ (exists msg, convert w pacific l = Raise (ValueError msg)).

(** A line, of whatever form, that the loop turns into a timestamp. *)
Definition yields_timestamp (w : World) (l : string) : Prop :=
  blank l = false /\ exists x, convert w pacific l = Ok x.

(** A line that the parser refuses. *)
Definition malformed_line (w : World) (l : string) : Prop :=
  blank l = false /\ exists msg, convert w pacific l = Raise (ValueError msg).

(** The path is a repository as far as the program checks. *)
Definition is_repository (w : World) (repo_path : string) : Prop :=
  fs_exists w repo_path = true
  /\ fs_exists w (os_path.join repo_path ".git") = true.

(** The events of the two path checks of a repository. *)
Definition path_checks (repo_path : string) : list event :=
  [PathExists repo_path; PathExists (os_path.join repo_path ".git")].

(** The texts printed for the report of [dates]. *)
Definition report (repo_path : string) (dates : list datetime) : list string :=
  (newline ++ report_header repo_path) :: rule
  :: List.app (map report_line dates)
              [rule; "Total commits: " ++ Str.of_nat (List.length dates)].

(** What [check_output] raises, by the outcome of the process. *)
Definition launch_failure (o : proc_outcome) : option exn :=
  match o with
  | Exited status output =>
      if status =? 0 then None else Some (CalledProcessError status output)
  | LaunchError msg => Some (OSError msg)
  | DecodeError msg => Some (ValueError msg)
  end.

(** The exceptions of a conversion that the inner handler does not
    catch: a time outside the calendar, and a local zone that the platform
    cannot tell. *)
Definition passes_inner_handler (e : exn) : Prop :=
  (exists msg, e = OverflowError msg) \/ (exists msg, e = OSError msg).

(** The outer [try] body ends in one of four ways. *)
Inductive try_outcome (w : World) (repo_path : string)
  : M (option (list datetime)) -> Prop :=
| launch_failed (e : exn) :
    launch_failure (run_process w (git_log_argv repo_path)) = Some e ->
    try_outcome w repo_path ([Spawn (git_log_argv repo_path)], Raise e)
| conversion_failed (output : string) (e : exn) (ws : list string) :
    run_process w (git_log_argv repo_path) = Exited 0 output ->
    Forall (fun s => exists l m, In l (Str.splitlines output) /\ s = parse_warning l m) ws ->
    passes_inner_handler e ->
    try_outcome w repo_path
      (Spawn (git_log_argv repo_path) :: map Print ws, Raise e)
| nothing_recovered (output : string) :
    run_process w (git_log_argv repo_path) = Exited 0 output ->
    Forall (tolerated w) (Str.splitlines output) ->
    accepted w (Str.splitlines output) = [] ->
    try_outcome w repo_path
      ((Spawn (git_log_argv repo_path) :: map Print (warnings w (Str.splitlines output))
        ++ [Print (no_dates_warning repo_path)])%list, Ok None)
| reported (output : string) (sorted : list datetime) :
    run_process w (git_log_argv repo_path) = Exited 0 output ->
    Forall (tolerated w) (Str.splitlines output) ->
    accepted w (Str.splitlines output) <> [] ->
    sort (accepted w (Str.splitlines output)) = Ok sorted ->
    Permutation (accepted w (Str.splitlines output)) sorted ->
    chronological sorted ->
    try_outcome w repo_path
      ((Spawn (git_log_argv repo_path) :: map Print (warnings w (Str.splitlines output))
        ++ map Print (report repo_path sorted))%list, Ok (Some sorted)).

(** What the handlers of the outer [try] print for an exception; nothing
    for one they do not catch. *)
Definition failure_message (e : exn) : option string :=
  match e with
  | CalledProcessError _ output => Some ("Error running git command: " ++ output)
  | SystemExit _ => None
  | ValueError msg | TypeError msg | OverflowError msg | OSError msg
  | KeyError msg => Some ("Unexpected error: " ++ msg)
  end.

Definition not_found_message (repo_path : string) : string :=
  "Error: Path '" ++ repo_path ++ "' does not exist.".

Definition not_a_repository_message (repo_path : string) : string :=
  "Error: '" ++ repo_path ++ "' is not a valid Git repository.".

(** The messages that go with a "no data" result. *)
Definition diagnostic (repo_path text : string) : Prop :=
  text = not_found_message repo_path
  \/ text = not_a_repository_message repo_path
  \/ (exists output, text = "Error running git command: " ++ output)
  \/ text = no_dates_warning repo_path
  \/ (exists msg, text = "Unexpected error: " ++ msg).

(** A local zone that is UTC at every time. *)
Definition utc_local_offset (wall : Z) : option Z := Some 0.

Definition utc_local_failure (wall : Z) : zone_failure :=
  TimestampOutOfRange "timestamp out of range for platform time_t".

(** A machine whose only repository is /repo, where [git log] prints
    [output] and the local zone is UTC at every time. *)
Definition demo_world (output : string) : World :=
  mk_world (fun path => String.eqb path "/repo" || String.eqb path "/repo/.git")
           (fun _ => Exited 0 output)
           utc_local_offset utc_local_failure.

(** The same machine with a [git] that fails. *)
Definition broken_git_world : World :=
  mk_world (fun path => String.eqb path "/repo" || String.eqb path "/repo/.git")
           (fun _ => Exited 128 "fatal: bad revision")
           utc_local_offset utc_local_failure.

Fixpoint unlines (lines : list string) : string :=
  match lines with
  | [] => ""
  | [l] => l
  | l :: rest => l ++ newline ++ unlines rest
  end.

(** The claim on valid lines in its own words: a list of [n] timestamps,
    earliest first. *)
Definition returns_sorted (w : World) (repo_path : string) (n : nat) : Prop :=
  exists t dates,
    get_commit_log w repo_path = (t, Ok (Some dates))
    /\ List.length dates = n /\ chronological dates.

Definition abbreviation (x : datetime) : string :=
  match tz x with Some t => tzname t | None => "" end.

(** A commit line in the words of the report's description:
    [<weekday name>, <YYYY-MM-DD> <HH:MM:SS> <abbreviation>], the year with
    four digits. *)
Definition stated_line (x : datetime) : string :=
  nth (Z.to_nat (weekday x)) DAY_NAMES "" ++ ", "
  ++ Str.zero_padded 4 (year x) ++ "-" ++ Str.zero_padded 2 (month x) ++ "-"
  ++ Str.zero_padded 2 (day x) ++ " "
  ++ Str.zero_padded 2 (hour x) ++ ":" ++ Str.zero_padded 2 (minute x) ++ ":"
  ++ Str.zero_padded 2 (second x) ++ " " ++ abbreviation x.

(** The report in the words of its description: header, rule, one line per
    commit, rule, count. *)
Definition stated_report (repo_path : string) (dates : list datetime)
  : list string :=
  report_header repo_path :: rule
  :: List.app (map stated_line dates)
              [rule; "Total commits: " ++ Str.of_nat (List.length dates)].

(** A commit line as the program writes it: the same, but the year as a
    plain number, without leading zeros. *)
Definition formatted (x : datetime) : string :=
  nth (Z.to_nat (weekday x)) DAY_NAMES "" ++ ", "
  ++ Str.of_Z (year x) ++ "-" ++ Str.zero_padded 2 (month x) ++ "-"
  ++ Str.zero_padded 2 (day x) ++ " "
  ++ Str.zero_padded 2 (hour x) ++ ":" ++ Str.zero_padded 2 (minute x) ++ ":"
  ++ Str.zero_padded 2 (second x) ++ " " ++ abbreviation x.

Definition pacific_rules : list tzinfo :=
  [Pytz.LMT; Pytz.PST; Pytz.PDT; Pytz.PWT; Pytz.PPT].

Definition is_parse_warning (text : string) : bool :=
  String.prefix "Warning: Could not parse date '" text.

Definition is_warning (text : string) : bool := String.prefix "Warning: " text.

(** *** The United States daylight-saving rule, stated on its own

    Day of the month of the [n]-th Sunday of a month, and of its last
    Sunday. *)
Definition nth_sunday (year month n : Z) : Z :=
  let first_weekday := (ymd2ord year month 1 + 6) mod 7 in
  1 + (6 - first_weekday) mod 7 + 7 * (n - 1).

Definition last_sunday (year month : Z) : Z :=
  let last := days_in_month year month in
  let last_weekday := (ymd2ord year month last + 6) mod 7 in
  last - (last_weekday + 1) mod 7.

(** Daylight time begins at 02:00 standard time, 10:00 UTC on the Pacific
    coast: on the last Sunday of April from 1967, on 6 January in 1974 and
    23 February in 1975, on the first Sunday of April from 1987 and on the
    second Sunday of March from 2007. *)
Definition us_dst_start (year : Z) : Z :=
  if year =? 1974 then Pytz.d 1974 1 6 10 0 0
  else if year =? 1975 then Pytz.d 1975 2 23 10 0 0
  else if year <? 1987 then Pytz.d year 4 (last_sunday year 4) 10 0 0
  else if year <? 2007 then Pytz.d year 4 (nth_sunday year 4 1) 10 0 0
  else Pytz.d year 3 (nth_sunday year 3 2) 10 0 0.

(** It ends at 02:00 daylight time, 09:00 UTC: on the last Sunday of
    October, and from 2007 on the first Sunday of November. *)
Definition us_dst_end (year : Z) : Z :=
  if year <? 2007 then Pytz.d year 10 (last_sunday year 10) 9 0 0
  else Pytz.d year 11 (nth_sunday year 11 1) 9 0 0.

(** *** America/Los_Angeles in the tz database, stated on its own

    The zone of the tz database (file northamerica): local mean time,
    7:52:58 behind UTC, until 1883-11-18 20:00 UTC; then Pacific time under
    the rules of the United States, from 1946 to 1966 under those of
    California.  The rules, written at their UTC instants: daylight time
    from the last Sunday of March to the last Sunday of October in 1918
    and 1919; war time from 9 February 1942, renamed peace time on
    14 August 1945 at 23:00 UTC, until 30 September 1945; in California
    daylight time from 14 March 1948 to 1 January 1949, and from 1950 to
    1966 from the last Sunday of April to the last Sunday of September
    (of October from 1962); from 1967 the rules of [us_dst_start] and
    [us_dst_end], which go on for every later year. *)
Definition LMT_tzdb : tzinfo := mk_tzinfo (Pytz.seconds (-28378)) 0 "LMT".

(** The rule in force when the UTC year [year] begins. *)
Definition tzdb_year_start (year : Z) : tzinfo :=
  if year <=? 1883 then LMT_tzdb
  else if (1943 <=? year) && (year <=? 1945) then Pytz.PWT
  else if year =? 1949 then Pytz.PDT
  else Pytz.PST.

(** The changes of rule within the UTC year [year], in order. *)
Definition tzdb_changes (year : Z) : list (Z * tzinfo) :=
  if year <? 1883 then []
  else if year =? 1883 then [(Pytz.d 1883 11 18 20 0 0, Pytz.PST)]
  else if year <? 1918 then []
  else if year <=? 1919 then
    [(Pytz.d year 3 (last_sunday year 3) 10 0 0, Pytz.PDT);
     (Pytz.d year 10 (last_sunday year 10) 9 0 0, Pytz.PST)]
  else if year =? 1942 then [(Pytz.d 1942 2 9 10 0 0, Pytz.PWT)]
  else if year =? 1945 then
    [(Pytz.d 1945 8 14 23 0 0, Pytz.PPT); (Pytz.d 1945 9 30 9 0 0, Pytz.PST)]
  else if year =? 1948 then [(Pytz.d 1948 3 14 10 1 0, Pytz.PDT)]
  else if year =? 1949 then [(Pytz.d 1949 1 1 9 0 0, Pytz.PST)]
  else if year <? 1950 then []
  else if year <=? 1961 then
    [(Pytz.d year 4 (last_sunday year 4) 9 0 0, Pytz.PDT);
     (Pytz.d year 9 (last_sunday year 9) 9 0 0, Pytz.PST)]
  else if year <=? 1966 then
    [(Pytz.d year 4 (last_sunday year 4) 9 0 0, Pytz.PDT);
     (Pytz.d year 10 (last_sunday year 10) 9 0 0, Pytz.PST)]
  else [(us_dst_start year, Pytz.PDT); (us_dst_end year, Pytz.PST)].

(** The rule in force at [u] when [r] is in force before the changes. *)
Fixpoint rule_after (r : tzinfo) (changes : list (Z * tzinfo)) (u : Z) : tzinfo :=
  match changes with
  | [] => r
  | (t, r') :: rest => if u <? t then r else rule_after r' rest u
  end.

(** The rule of the tz database at the UTC time [u] of the year [year]. *)
Definition tzdb_rule (year u : Z) : tzinfo :=
  rule_after (tzdb_year_start year) (tzdb_changes year) u.

Definition in_utc_year (year u : Z) : Prop :=
  Pytz.d year 1 1 0 0 0 <= u < Pytz.d (year + 1) 1 1 0 0 0.

(** The stretch of time over which the table of the program has the
    transitions of the tz database: from its first transition to the
    beginning of daylight time in 2038. *)
Definition table_begin : Z := Pytz.d 1901 12 13 20 45 52.
Definition table_end : Z := us_dst_start 2038.

Definition in_table (u : Z) : Prop := table_begin <= u < table_end.

(** The table gives [r] on all of [lo, hi): it gives [r] at [lo] and does
    not change before [hi]. *)
Definition same_rule_on (lo hi : Z) (r : tzinfo) : bool :=
  let times := Pytz.utc_transition_times pacific in
  (Pytz.bisect_right times lo =? Pytz.bisect_right times (hi - 1))%nat
  && tzinfo_eqb (in_force pacific lo) r.

(** The same, on the part of [lo, hi) that lies in the table's stretch. *)
Definition same_rule_in_table (lo hi : Z) (r : tzinfo) : bool :=
  let lo' := Z.max lo table_begin in
  let hi' := Z.min hi table_end in
  if lo' <? hi' then same_rule_on lo' hi' r else true.

(** The table agrees with [r] up to the first change, and with each
    change up to the next one or to [hi]. *)
Fixpoint table_follows (lo : Z) (r : tzinfo) (changes : list (Z * tzinfo))
    (hi : Z) : bool :=
  match changes with
  | [] => same_rule_in_table lo hi r
  | (t, r') :: rest =>
      same_rule_in_table lo t r && table_follows t r' rest hi
  end.

Definition table_follows_tzdb (year : Z) : bool :=
  table_follows (Pytz.d year 1 1 0 0 0) (tzdb_year_start year)
                (tzdb_changes year) (Pytz.d (year + 1) 1 1 0 0 0).

(** *** Commit dates as [git log --date=iso-strict] writes them

    [YYYY-MM-DDTHH:MM:SS] followed by [Z] or by a signed [HH:MM] offset. *)
Record commit_date : Type := mk_commit_date {
  cd_year : Z; cd_month : Z; cd_day : Z;
  cd_hour : Z; cd_minute : Z; cd_second : Z;
  cd_offset : option (bool * Z * Z)    (* west of UTC?, hours, minutes *)
}.

Definition well_formed (c : commit_date) : Prop :=
  1 <= cd_year c <= 9999 /\ 1 <= cd_month c <= 12
  /\ 1 <= cd_day c <= days_in_month (cd_year c) (cd_month c)
  /\ 0 <= cd_hour c <= 23 /\ 0 <= cd_minute c <= 59 /\ 0 <= cd_second c <= 59
  /\ match cd_offset c with
     | None => True
     | Some (_, h, m) => 0 <= h <= 23 /\ 0 <= m <= 59
     end.

Definition iso_offset (o : option (bool * Z * Z)) : string :=
  match o with
  | None => "Z"
  | Some (west, h, m) =>
      (if west then "-" else "+") ++ Str.zero_padded 2 h ++ ":" ++ Str.zero_padded 2 m
  end.

Definition iso_strict (c : commit_date) : string :=
  Str.zero_padded 4 (cd_year c) ++ "-" ++ Str.zero_padded 2 (cd_month c) ++ "-"
  ++ Str.zero_padded 2 (cd_day c) ++ "T"
  ++ Str.zero_padded 2 (cd_hour c) ++ ":" ++ Str.zero_padded 2 (cd_minute c) ++ ":"
  ++ Str.zero_padded 2 (cd_second c) ++ iso_offset (cd_offset c).

(** The offset a commit date denotes, in microseconds east of UTC. *)
Definition offset_us (o : option (bool * Z * Z)) : Z :=
  match o with
  | None => 0
  | Some (west, h, m) =>
      let off := (h * 60 + m) * 60 * US_PER_SECOND in
      if west then - off else off
  end.

(** The instant a commit date denotes. *)
Definition commit_instant (c : commit_date) : Z :=
  wall_of_fields (cd_year c) (cd_month c) (cd_day c)
                 (cd_hour c) (cd_minute c) (cd_second c) 0
  - offset_us (cd_offset c).

(** A line in that format, with its fields in range. *)
Definition strict_line (l : string) : Prop :=
  exists c, well_formed c /\ l = iso_strict c.

(** A wall-clock count within the years 1..9999. *)
Definition in_calendar (wall : Z) : Prop := 0 <= wall < MAX_WALL.

(** The instant of a commit date has a place in the calendar, in UTC and
    on the Pacific clock. *)
Definition representable (c : commit_date) : Prop :=
  in_calendar (commit_instant c)
  /\ in_calendar (commit_instant c
                  + utcoffset (in_force pacific (commit_instant c))).

(** A line in that format whose instant is representable. *)
Definition representable_line (l : string) : Prop :=
  exists c, well_formed c /\ representable c /\ l = iso_strict c.

(** What the parser asks of the character of a decimal digit. *)
Record digit_like (c : ascii) (v : Z) : Prop := mk_digit_like {
  dl_isdigit : Str.isdigit c = true;
  dl_isspace : Str.isspace c = false;
  dl_value : Z.of_nat (Str.ord c) - 48 = v mod 10;
  dl_not_Z : Ascii.eqb c "Z" = false;
  dl_not_plus : Ascii.eqb c "+" = false;
  dl_not_minus : Ascii.eqb c "-" = false
}.

(** The offset of a commit date after [Z] has been rewritten. *)
Definition iso_offset_rewritten (o : option (bool * Z * Z)) : string :=
  match o with
  | None => "+00:00"
  | Some _ => iso_offset o
  end.

(** *** Vocabulary of the further properties *)

Definition nonblank (date_str : string) : bool := negb (blank date_str).

(** The texts the report is made of, and no diagnostic is. *)
Definition report_text (repo_path text : string) : Prop :=
  text = newline ++ report_header repo_path
  \/ text = rule
  \/ (exists x, text = report_line x)
  \/ (exists n, text = "Total commits: " ++ Str.of_nat n).

(** A text that starts as the program's warnings and errors do. *)
Definition is_diagnostic_text (text : string) : bool :=
  String.prefix "Warning: " text || String.prefix "Error" text
  || String.prefix "Unexpected error: " text.

(** The machine of [demo_world] without [git] on its path. *)
Definition no_git_world : World :=
  mk_world (fun path => String.eqb path "/repo" || String.eqb path "/repo/.git")
           (fun _ => LaunchError "[Errno 2] No such file or directory: 'git'")
           utc_local_offset utc_local_failure.

(** *** Standard outputs *)

Fixpoint non_ascii_run (s : string) : nat :=
  match s with
  | EmptyString => O
  | String c rest =>
      if (Str.ord c <? 128)%nat then O else S (non_ascii_run rest)
  end.

(** The error of the ASCII codec for the first run of characters of [s]
    it cannot encode, [pos] characters into the text. *)
Fixpoint ascii_encode_error (s : string) (pos : nat) : option string :=
  match s with
  | EmptyString => None
  | String c rest =>
      if (Str.ord c <? 128)%nat then ascii_encode_error rest (S pos)
      else
        Some (match non_ascii_run rest with
              | O =>
                  "'ascii' codec can't encode character '\x"
                  ++ String (Str.hex_digit (Str.ord c / 16))
                       (String (Str.hex_digit (Str.ord c mod 16)) "")
                  ++ "' in position " ++ Str.of_nat pos
              | S n =>
                  "'ascii' codec can't encode characters in position "
                  ++ Str.of_nat pos ++ "-" ++ Str.of_nat (pos + S n)
              end ++ ": ordinal not in range(128)")
  end.

(** A standard output with the ASCII encoding and strict errors. *)
Definition ascii_stdout : Stdout := fun text => ascii_encode_error text 0.

(** A path with one letter outside ASCII (U+00E9). *)
Definition accented_path : string := "/caf" ++ String (Str.chr 233) "".

(** The machine of [demo_world] with the local zone as the library finds
    it: to tell the zone of a time it also looks one day back, so that for
    a time within the first day of year 1 it fails on the year before. *)
Definition first_day_world : World :=
  mk_world (fun path => String.eqb path "/repo" || String.eqb path "/repo/.git")
           (fun _ => Exited 0 "")
           (fun wall => if wall <? US_PER_DAY then None else Some 0)
           (fun _ => YearOutOfRange "year 0 is out of range").

(** * Verification *)


Lemma tzinfo_eqb_utcoffset (a b : tzinfo) :
  tzinfo_eqb a b = true -> utcoffset a = utcoffset b.
Proof.
  unfold tzinfo_eqb. intros H.
  apply andb_true_iff in H as [H _].
  apply andb_true_iff in H as [H _].
  now apply Z.eqb_eq.
Qed.

(** On aware datetimes [<] is the order of the instants. *)
Lemma lt_aware (a b : datetime) :
  aware a -> aware b -> lt a b = Ok (instant a <? instant b).
Proof.
  unfold aware, lt, instant. intros Ha Hb.
  destruct (tz a) as [ta|]; [|congruence].
  destruct (tz b) as [tb|]; [|congruence].
  destruct (tzinfo_eqb ta tb || (utcoffset ta =? utcoffset tb)) eqn:E;
    [|reflexivity].
  assert (E' : utcoffset ta = utcoffset tb).
  { apply orb_true_iff in E as [E|E];
      [now apply tzinfo_eqb_utcoffset | now apply Z.eqb_eq]. }
  rewrite E'. f_equal.
  destruct (Z.ltb_spec (wall a) (wall b)), (Z.ltb_spec (wall a - utcoffset tb) (wall b - utcoffset tb));
    try reflexivity; lia.
Qed.

Lemma insert_aware (x : datetime) (sorted : list datetime) :
  aware x -> Forall aware sorted ->
  exists l, insert x sorted = Ok l /\ Permutation (x :: sorted) l
            /\ (chronological sorted -> chronological l).
Proof.
  intros Hx Hs. induction Hs as [|y rest Hy Hrest IH]; simpl.
  - exists [x]. repeat split; auto. intros _. repeat constructor.
  - rewrite (lt_aware x y Hx Hy). simpl.
    destruct (Z.ltb_spec (instant x) (instant y)) as [Hlt|Hge].
    + exists (x :: y :: rest). repeat split; auto.
      intros Hc. constructor; [exact Hc|].
      inversion Hc as [|? ? _ Hall]; subst.
      constructor; [lia|].
      eapply Forall_impl; [|exact Hall]. simpl. intros; lia.
    + destruct IH as (l & -> & Hperm & Hsorted). simpl.
      exists (y :: l). repeat split.
      * rewrite perm_swap. now constructor.
      * intros Hc. inversion Hc as [|? ? Hc' Hall]; subst.
        constructor; [apply Hsorted, Hc'|].
        eapply Permutation_Forall; [exact Hperm|].
        constructor; [lia | exact Hall].
Qed.

Lemma sort_into_aware (l sorted : list datetime) :
  Forall aware l -> Forall aware sorted -> chronological sorted ->
  exists r, sort_into l sorted = Ok r /\ Permutation (sorted ++ l) r
            /\ chronological r.
Proof.
  intros Hl. revert sorted.
  induction Hl as [|x rest Hx Hrest IH]; intros sorted Hs Hc; simpl.
  - exists sorted. rewrite app_nil_r. auto.
  - destruct (insert_aware x sorted Hx Hs) as (s' & -> & Hperm & Hsorted). simpl.
    destruct (IH s') as (r & Hr & Hperm' & Hc').
    + eapply Permutation_Forall; [exact Hperm|]. now constructor.
    + auto.
    + exists r. repeat split; auto.
      rewrite <- Hperm', <- Hperm. simpl.
      apply Permutation_sym, Permutation_middle.
Qed.

(** [sort] succeeds on aware datetimes and puts them in chronological
    order. *)
Lemma sort_aware (l : list datetime) :
  Forall aware l ->
  exists r, sort l = Ok r /\ Permutation l r /\ chronological r.
Proof.
  intros Hl. destruct (sort_into_aware l [] Hl) as (r & Hr & Hp & Hc).
  - constructor.
  - constructor.
  - exists r. auto.
Qed.

(** ** The monad *)

Lemma bind_ok {A B} (t : list event) (a : A) (k : A -> M B) :
  bind (t, Ok a) k = ((t ++ fst (k a))%list, snd (k a)).
Proof. simpl. now destruct (k a). Qed.

Lemma bind_lift_ok {A B} (a : A) (k : A -> M B) : bind (lift (Ok a)) k = k a.
Proof. unfold lift. simpl. now destruct (k a). Qed.

Lemma bind_lift_raise {A B} (e : exn) (k : A -> M B) :
  bind (lift (Raise e)) k = ([], Raise e).
Proof. reflexivity. Qed.

Lemma bind_print {B} (text : string) (k : unit -> M B) :
  bind (print accepting text) k = (Print text :: fst (k tt), snd (k tt)).
Proof. unfold print. simpl. now destruct (k tt). Qed.

Lemma stdout_app (t1 t2 : list event) :
  stdout (t1 ++ t2) = (stdout t1 ++ stdout t2)%list.
Proof.
  induction t1 as [|[text|path|argv] t1 IH]; simpl; auto. now rewrite IH.
Qed.

Lemma stdout_prints (l : list string) : stdout (map Print l) = l.
Proof. induction l; simpl; congruence. Qed.

Lemma spawned_app (t1 t2 : list event) :
  spawned (t1 ++ t2) = (spawned t1 ++ spawned t2)%list.
Proof.
  induction t1 as [|[text|path|argv] t1 IH]; simpl; auto. now rewrite IH.
Qed.

Lemma spawned_prints (l : list string) : spawned (map Print l) = [].
Proof. induction l; simpl; congruence. Qed.

Lemma for_each_print {A} (f : A -> string) (l : list A) :
  for_each l (fun x => print accepting (f x)) = (map Print (map f l), Ok tt).
Proof.
  induction l as [|x l IH]; simpl; [reflexivity|].
  rewrite IH. reflexivity.
Qed.

(** ** Parsing and conversion of one line *)

Lemma fromisoformat_raises (s : string) (e : exn) :
  fromisoformat s = Raise e -> exists msg, e = ValueError msg.
Proof.
  unfold fromisoformat, invalid_isoformat.
  destruct (parse_isoformat s) as [[[[y m] d] [[[[hh mm] ss] us] off]]|];
    [|intros [= <-]; eauto].
  assert (Hnew : forall t, new_datetime y m d hh mm ss us t = Raise e ->
                           exists msg, e = ValueError msg).
  { intros t. unfold new_datetime, check.
    repeat match goal with
           | |- context [if ?b then _ else _] => destruct b; simpl
           end; intros [= <-]; eauto. }
  destruct off as [o|]; cbn [result_bind]; [|apply Hnew].
  unfold timezone.
  destruct (o =? 0); cbn [result_bind]; [apply Hnew|].
  destruct (_ && _); cbn [result_bind]; [apply Hnew|].
  intros [= <-]; eauto.
Qed.

Lemma add_timedelta_ok (x r : datetime) (delta : Z) :
  add_timedelta x delta = Ok r ->
  wall r = wall x + delta /\ tz r = tz x /\ 0 <= wall r < MAX_WALL.
Proof.
  unfold add_timedelta.
  destruct (Z.leb_spec 0 (wall x + delta)), (Z.ltb_spec (wall x + delta) MAX_WALL);
    simpl; intros [= <-]; simpl; auto.
Qed.

Lemma add_timedelta_raises (x : datetime) (delta : Z) (e : exn) :
  add_timedelta x delta = Raise e -> exists msg, e = OverflowError msg.
Proof.
  unfold add_timedelta.
  destruct (_ && _); intros [= <-]; eauto.
Qed.

(** [fromutc] gives the wall clock of the rule in force, and that rule. *)
Lemma fromutc_ok (z : Pytz.DstTzInfo) (dt r : datetime) :
  Pytz.fromutc z dt = Ok r ->
  tz r = Some (in_force z (wall dt))
  /\ wall r = wall dt + utcoffset (in_force z (wall dt))
  /\ 0 <= wall r < MAX_WALL.
Proof.
  unfold Pytz.fromutc, in_force. simpl.
  destruct (add_timedelta _ _) as [local|e] eqn:E; simpl; [|discriminate].
  intros [= <-]. apply add_timedelta_ok in E as (Hw & _ & Hr). simpl in *.
  auto.
Qed.

Lemma fromutc_raises (z : Pytz.DstTzInfo) (dt : datetime) (e : exn) :
  Pytz.fromutc z dt = Raise e -> exists msg, e = OverflowError msg.
Proof.
  unfold Pytz.fromutc.
  destruct (add_timedelta _ _) as [local|e'] eqn:E; simpl; [discriminate|].
  intros [= <-]. now apply add_timedelta_raises in E.
Qed.

Lemma astimezone_ok (w : World) (z : Pytz.DstTzInfo) (x r : datetime) :
  astimezone (local_zone w) x (Pytz.fromutc z) = Ok r ->
  exists off, source_offset w x = Some off
    /\ tz r = Some (in_force z (wall x - off))
    /\ wall r = wall x - off + utcoffset (in_force z (wall x - off))
    /\ 0 <= wall x - off < MAX_WALL
    /\ 0 <= wall r < MAX_WALL.
Proof.
  unfold astimezone, source_offset.
  destruct (tz x) as [t|].
  - simpl. destruct (add_timedelta x _) as [u|e] eqn:E; simpl; [|discriminate].
    intros H. apply fromutc_ok in H. apply add_timedelta_ok in E.
    simpl in H. exists (utcoffset t).
    replace (wall x - utcoffset t) with (wall u) by lia. intuition.
  - unfold local_zone.
    destruct (local_offset w (wall x)) as [o|]; simpl; [|discriminate].
    destruct (add_timedelta x _) as [u|e] eqn:E; simpl; [|discriminate].
    intros H. apply fromutc_ok in H. apply add_timedelta_ok in E.
    simpl in H. exists o.
    replace (wall x - o) with (wall u) by lia. intuition.
Qed.

Lemma astimezone_raises (w : World) (z : Pytz.DstTzInfo) (x : datetime) (e : exn) :
  astimezone (local_zone w) x (Pytz.fromutc z) = Raise e ->
  (exists msg, e = ValueError msg /\ tz x = None) \/ passes_inner_handler e.
Proof.
  unfold astimezone, passes_inner_handler.
  destruct (tz x) as [t|]; simpl.
  - destruct (add_timedelta x _) as [u|e'] eqn:E; simpl.
    + intros H. right. left. now apply fromutc_raises in H.
    + intros [= <-]. right. left. now apply add_timedelta_raises in E.
  - unfold local_zone.
    destruct (local_offset w (wall x)) as [o|]; simpl.
    + destruct (add_timedelta x _) as [u|e'] eqn:E; simpl.
      * intros H. right. left. now apply fromutc_raises in H.
      * intros [= <-]. right. left. now apply add_timedelta_raises in E.
    + intros [= <-]. destruct (local_failure w (wall x)); simpl; eauto.
Qed.

(** An aware time can only fail to convert by leaving the calendar. *)
Lemma astimezone_aware_raises (w : World) (z : Pytz.DstTzInfo) (x : datetime)
    (t : tzinfo) (e : exn) :
  tz x = Some t ->
  astimezone (local_zone w) x (Pytz.fromutc z) = Raise e ->
  exists msg, e = OverflowError msg.
Proof.
  intros Ht. unfold astimezone. rewrite Ht. simpl.
  destruct (add_timedelta x _) as [u|e'] eqn:E; simpl.
  - apply fromutc_raises.
  - intros [= <-]. now apply add_timedelta_raises in E.
Qed.

(** A converted line is aware, carries the rule in force at its instant,
    and its instant is the one the line denotes. *)
Lemma convert_ok (w : World) (z : Pytz.DstTzInfo) (l : string) (r : datetime) :
  convert w z l = Ok r ->
  aware r /\ 0 <= instant r < MAX_WALL
  /\ tz r = Some (in_force z (instant r))
  /\ wall r = instant r + utcoffset (in_force z (instant r)).
Proof.
  unfold convert.
  destruct (fromisoformat _) as [x|e]; simpl; [|discriminate].
  intros H. apply astimezone_ok in H as (off & _ & Htz & Hw & Hu & _).
  unfold aware, instant. rewrite Htz.
  replace (wall r - utcoffset (in_force z (wall x - off))) with (wall x - off) by lia.
  repeat split; auto; try lia. congruence.
Qed.

Lemma convert_raises (w : World) (z : Pytz.DstTzInfo) (l : string) (e : exn) :
  convert w z l = Raise e ->
  (exists msg, e = ValueError msg) \/ passes_inner_handler e.
Proof.
  unfold convert.
  destruct (fromisoformat _) as [x|e'] eqn:E; simpl.
  - intros H. apply astimezone_raises in H as [(msg & -> & _)|H]; eauto.
  - intros [= <-]. left. now apply fromisoformat_raises in E.
Qed.

(** ** The loop over the output lines *)

Lemma parse_lines_cons (w : World) (pst : Pytz.DstTzInfo) (l : string)
    (rest : list string) (acc : list datetime) :
  parse_lines w pst (l :: rest) acc =
  if blank l then parse_lines w pst rest acc
  else match convert w pst l with
       | Ok x => parse_lines w pst rest (acc ++ [x])
       | Raise (ValueError msg) =>
           (Print (parse_warning l msg) :: fst (parse_lines w pst rest acc),
            snd (parse_lines w pst rest acc))
       | Raise e => ([], Raise e)
       end.
Proof.
  unfold blank, convert, parse_warning, parse_lines. simpl parse_lines_on.
  destruct (Str.is_empty (Str.strip l)); [reflexivity|].
  destruct (fromisoformat _) as [x|e]; simpl.
  - destruct (astimezone _ _ _) as [y|e]; simpl.
    + now destruct (parse_lines_on accepting w pst rest (acc ++ [y])).
    + destruct e; simpl; try reflexivity.
      now destruct (parse_lines_on accepting w pst rest acc).
  - destruct e; simpl; try reflexivity.
    now destruct (parse_lines_on accepting w pst rest acc).
Qed.

(** When every line is tolerated the loop is the fold of the
    specification. *)
Lemma parse_lines_tolerated (w : World) (lines : list string) (acc : list datetime) :
  Forall (tolerated w) lines ->
  parse_lines w pacific lines acc
  = (map Print (warnings w lines), Ok (acc ++ accepted w lines)%list).
Proof.
  intros H. revert acc.
  induction H as [|l rest Hl Hrest IH]; intros acc.
  - simpl. now rewrite app_nil_r.
  - rewrite parse_lines_cons. unfold warnings, accepted. simpl flat_map.
    fold (warnings w rest). fold (accepted w rest).
    destruct (blank l) eqn:B; [apply IH|].
    destruct Hl as [Hb|[[x Hx]|[msg Hm]]]; [congruence| |].
    + rewrite Hx, IH. simpl. now rewrite <- app_assoc.
    + rewrite Hm, IH. reflexivity.
Qed.

(** The loop ends normally only if every line was tolerated. *)
Lemma parse_lines_returns (w : World) (lines : list string)
    (acc r : list datetime) (t : list event) :
  parse_lines w pacific lines acc = (t, Ok r) -> Forall (tolerated w) lines.
Proof.
  revert acc t. induction lines as [|l rest IH]; intros acc t; [constructor|].
  rewrite parse_lines_cons. unfold tolerated at 1.
  destruct (blank l) eqn:B.
  - intros H. constructor; [now left | eapply IH, H].
  - destruct (convert w pacific l) as [x|e] eqn:E.
    + intros H. constructor; [right; left; eauto | eapply IH, H].
    + destruct e; try discriminate.
      destruct (parse_lines w pacific rest acc) as [t' r'] eqn:P. simpl.
      intros [= <- ->]. constructor; [right; right; eauto | eapply IH, P].
Qed.

(** Whatever the lines, the loop prints nothing but parse warnings, and
    the only exceptions that leave it are those the inner handler does
    not catch. *)
Lemma parse_lines_trace (w : World) (lines : list string) (acc : list datetime) :
  exists ws,
    fst (parse_lines w pacific lines acc) = map Print ws
    /\ Forall (fun s => exists l msg, In l lines /\ s = parse_warning l msg) ws
    /\ (forall e, snd (parse_lines w pacific lines acc) = Raise e ->
                  passes_inner_handler e).
Proof.
  revert acc. induction lines as [|l rest IH]; intros acc.
  - exists []. simpl. repeat split; [constructor | discriminate].
  - rewrite parse_lines_cons.
    assert (Hweak : forall ws,
      Forall (fun s => exists l0 msg, In l0 rest /\ s = parse_warning l0 msg) ws ->
      Forall (fun s => exists l0 msg, In l0 (l :: rest) /\ s = parse_warning l0 msg) ws).
    { intros ws. apply Forall_impl. intros s (l0 & msg & Hin & ->).
      exists l0, msg. split; [now right | reflexivity]. }
    destruct (blank l).
    { destruct (IH acc) as (ws & H1 & H2 & H3). exists ws. auto. }
    destruct (convert w pacific l) as [x|e] eqn:E.
    { destruct (IH (acc ++ [x])%list) as (ws & H1 & H2 & H3). exists ws. auto. }
    destruct (convert_raises _ _ _ _ E) as [[msg ->]|He].
    + destruct (IH acc) as (ws & H1 & H2 & H3).
      exists (parse_warning l msg :: ws). simpl. rewrite H1.
      repeat split; auto.
      constructor; [|auto]. exists l, msg. split; [now left | reflexivity].
    + exists [].
      destruct He as [[msg ->]|[msg ->]]; cbn [fst snd map];
        (split; [reflexivity|]; split; [constructor|]; intros e' [= <-];
         unfold passes_inner_handler; eauto).
Qed.

Lemma accepted_aware (w : World) (lines : list string) :
  Forall aware (accepted w lines).
Proof.
  unfold accepted. induction lines as [|l rest IH]; simpl; [constructor|].
  apply Forall_app. split; [|exact IH].
  destruct (blank l); [constructor|].
  destruct (convert w pacific l) as [x|e] eqn:E; [|constructor].
  constructor; [|constructor]. now apply convert_ok in E.
Qed.

Lemma accepted_converted (w : World) (lines : list string) (x : datetime) :
  In x (accepted w lines) ->
  exists l, In l lines /\ blank l = false /\ convert w pacific l = Ok x.
Proof.
  unfold accepted. rewrite in_flat_map. intros (l & Hin & Hx).
  exists l. destruct (blank l); [destruct Hx|].
  destruct (convert w pacific l) as [y|e]; [|destruct Hx].
  destruct Hx as [<-|[]]. auto.
Qed.

(** Lines that all yield a timestamp are all accepted, and none is warned
    about. *)
Lemma accepted_valid (w : World) (lines : list string) :
  Forall (yields_timestamp w) lines ->
  List.length (accepted w lines) = List.length lines /\ warnings w lines = [].
Proof.
  unfold accepted, warnings.
  induction 1 as [|l rest [Hb [x Hx]] Hrest [IH1 IH2]]; simpl; [auto|].
  rewrite Hb, Hx. simpl. rewrite IH1, IH2. auto.
Qed.

Lemma valid_tolerated (w : World) (l : string) :
  yields_timestamp w l -> tolerated w l.
Proof. intros [_ H]. right. now left. Qed.

Lemma malformed_tolerated (w : World) (l : string) :
  malformed_line w l -> tolerated w l.
Proof. intros [_ H]. right. now right. Qed.

(** ** The whole operation *)

Lemma print_report (repo_path : string) (dates : list datetime) :
  (print accepting (newline ++ report_header repo_path) ;;
   print accepting rule ;;
   for_each dates (fun pst_time => print accepting (report_line pst_time)) ;;
   print accepting rule ;;
   print accepting ("Total commits: " ++ Str.of_nat (List.length dates)) ;;
   ret (Some dates))
  = (map Print (report repo_path dates), Ok (Some dates)).
Proof.
  unfold report. rewrite !bind_print, for_each_print. simpl.
  rewrite map_app. reflexivity.
Qed.

(** The body of the outer [try] once [git] has exited with status 0. *)
Lemma get_commit_log_try_exit0 (w : World) (repo_path output : string) :
  run_process w (git_log_argv repo_path) = Exited 0 output ->
  get_commit_log_try w repo_path =
  match parse_lines w pacific (Str.splitlines output) [] with
  | (t, Raise e) => (Spawn (git_log_argv repo_path) :: t, Raise e)
  | (t, Ok []) =>
      (Spawn (git_log_argv repo_path) :: t ++ [Print (no_dates_warning repo_path)],
       Ok None)
  | (t, Ok (x :: rest)) =>
      match sort (x :: rest) with
      | Ok sorted =>
          (Spawn (git_log_argv repo_path) :: t ++ map Print (report repo_path sorted),
           Ok (Some sorted))
      | Raise e => (Spawn (git_log_argv repo_path) :: t, Raise e)
      end
  end%list.
Proof.
  intros Hrun.
  unfold get_commit_log_try, get_commit_log_try_on, subprocess.check_output.
  change (parse_lines_on accepting) with parse_lines.
  rewrite Hrun. change (0 =? 0) with true. cbv iota.
  rewrite bind_ok.
  change (Pytz.timezone "America/Los_Angeles") with (Ok pacific).
  rewrite bind_lift_ok.
  destruct (parse_lines w pacific (Str.splitlines output) []) as [t [[|x rest]|e]].
  - rewrite bind_ok, bind_print. simpl. reflexivity.
  - rewrite bind_ok.
    destruct (sort (x :: rest)) as [sorted|e].
    + rewrite bind_lift_ok, print_report. simpl. reflexivity.
    + rewrite bind_lift_raise. simpl. now rewrite app_nil_r.
  - reflexivity.
Qed.

(** On a repository the two path checks pass and the [try] runs. *)
Lemma get_commit_log_repository (w : World) (repo_path : string) :
  is_repository w repo_path ->
  get_commit_log w repo_path =
  ((path_checks repo_path
    ++ fst (try_catch (get_commit_log_try w repo_path) get_commit_log_except))%list,
   snd (try_catch (get_commit_log_try w repo_path) get_commit_log_except)).
Proof.
  intros [H1 H2]. unfold get_commit_log, get_commit_log_on, os_path.exists_.
  change (get_commit_log_try_on accepting) with get_commit_log_try.
  change (get_commit_log_except_on accepting) with get_commit_log_except.
  rewrite bind_ok, H1. cbv beta iota delta [negb].
  rewrite bind_ok, H2. cbv beta iota delta [negb].
  simpl fst. simpl snd.
  destruct (try_catch _ _) as [t r]. reflexivity.
Qed.

(** With a successful [git] and tolerated lines: the warnings, then
    either the empty-history warning or the report of the sorted dates. *)
Lemma get_commit_log_tolerated (w : World) (repo_path output : string) :
  is_repository w repo_path ->
  run_process w (git_log_argv repo_path) = Exited 0 output ->
  Forall (tolerated w) (Str.splitlines output) ->
  let lines := Str.splitlines output in
  let before := (path_checks repo_path ++ Spawn (git_log_argv repo_path)
                 :: map Print (warnings w lines))%list in
  match accepted w lines with
  | [] => get_commit_log w repo_path
          = ((before ++ [Print (no_dates_warning repo_path)])%list, Ok None)
  | _ :: _ =>
      exists sorted,
        sort (accepted w lines) = Ok sorted
        /\ Permutation (accepted w lines) sorted
        /\ chronological sorted
        /\ get_commit_log w repo_path
           = ((before ++ map Print (report repo_path sorted))%list, Ok (Some sorted))
  end.
Proof.
  intros Hrepo Hrun Htol lines before.
  rewrite (get_commit_log_repository _ _ Hrepo).
  rewrite (get_commit_log_try_exit0 _ _ _ Hrun).
  rewrite (parse_lines_tolerated _ _ _ Htol). fold lines. simpl app.
  destruct (accepted w lines) as [|x rest] eqn:A.
  - reflexivity.
  - destruct (sort_aware (x :: rest)) as (sorted & Hs & Hp & Hc).
    { rewrite <- A. apply accepted_aware. }
    exists sorted. rewrite Hs. repeat split; auto.
Qed.

Lemma get_commit_log_missing (w : World) (repo_path : string) :
  fs_exists w repo_path = false ->
  get_commit_log w repo_path
  = ([PathExists repo_path;
      Print ("Error: Path '" ++ repo_path ++ "' does not exist.")], Ok None).
Proof.
  intros H. unfold get_commit_log, get_commit_log_on, os_path.exists_.
  rewrite bind_ok, H. reflexivity.
Qed.

Lemma get_commit_log_not_repository (w : World) (repo_path : string) :
  fs_exists w repo_path = true ->
  fs_exists w (os_path.join repo_path ".git") = false ->
  get_commit_log w repo_path
  = ((path_checks repo_path
      ++ [Print ("Error: '" ++ repo_path ++ "' is not a valid Git repository.")])%list,
     Ok None).
Proof.
  intros H1 H2. unfold get_commit_log, get_commit_log_on, os_path.exists_.
  rewrite bind_ok, H1. cbv beta iota delta [negb].
  rewrite bind_ok, H2. reflexivity.
Qed.

Lemma get_commit_log_try_launch_failure (w : World) (repo_path : string) (e : exn) :
  launch_failure (run_process w (git_log_argv repo_path)) = Some e ->
  get_commit_log_try w repo_path = ([Spawn (git_log_argv repo_path)], Raise e).
Proof.
  unfold launch_failure, get_commit_log_try, get_commit_log_try_on,
    subprocess.check_output.
  destruct (run_process w (git_log_argv repo_path)) as [status output|msg|msg].
  - destruct (status =? 0); [discriminate|]. now intros [= <-].
  - now intros [= <-].
  - now intros [= <-].
Qed.

Lemma launch_failure_none (o : proc_outcome) :
  launch_failure o = None -> exists output, o = Exited 0 output.
Proof.
  destruct o as [status output|msg|msg]; simpl; try discriminate.
  destruct (Z.eqb_spec status 0); [subst; eauto | discriminate].
Qed.

(** The loop's result is never refused by [sort]. *)
Lemma sort_parsed (w : World) (lines : list string) (t : list event)
    (dates : list datetime) :
  parse_lines w pacific lines [] = (t, Ok dates) ->
  dates = accepted w lines
  /\ t = map Print (warnings w lines)
  /\ exists sorted, sort dates = Ok sorted /\ Permutation dates sorted
                    /\ chronological sorted.
Proof.
  intros H. pose proof (parse_lines_returns _ _ _ _ _ H) as Htol.
  rewrite (parse_lines_tolerated _ _ _ Htol) in H. simpl in H.
  injection H as <- <-. repeat split; auto.
  apply sort_aware, accepted_aware.
Qed.

Lemma get_commit_log_try_outcome (w : World) (repo_path : string) :
  try_outcome w repo_path (get_commit_log_try w repo_path).
Proof.
  destruct (launch_failure (run_process w (git_log_argv repo_path))) as [e|] eqn:L.
  - rewrite (get_commit_log_try_launch_failure _ _ _ L). now constructor.
  - apply launch_failure_none in L as [output Hrun].
    rewrite (get_commit_log_try_exit0 _ _ _ Hrun).
    destruct (parse_lines w pacific (Str.splitlines output) []) as [t [dates|e]] eqn:P.
    + pose proof (parse_lines_returns _ _ _ _ _ P) as Htol.
      destruct (sort_parsed _ _ _ _ P) as (-> & -> & sorted & Hs & Hp & Hc).
      destruct (accepted w (Str.splitlines output)) as [|x rest] eqn:A.
      * cbv iota. now apply nothing_recovered.
      * rewrite Hs. rewrite <- A in Hs, Hp. apply reported; auto. congruence.
    + destruct (parse_lines_trace w (Str.splitlines output) []) as (ws & H1 & H2 & H3).
      rewrite P in H1, H3. simpl in H1, H3.
      subst t. apply conversion_failed with (output := output); auto.
Qed.

(** On a repository the outcome of the [try] decides the result. *)
Lemma get_commit_log_handled (w : World) (repo_path : string) (t : list event)
    (e : exn) (text : string) :
  is_repository w repo_path ->
  get_commit_log_try w repo_path = (t, Raise e) ->
  failure_message e = Some text ->
  get_commit_log w repo_path
  = ((path_checks repo_path ++ t ++ [Print text])%list, Ok None).
Proof.
  intros Hrepo Htry Hmsg.
  rewrite (get_commit_log_repository _ _ Hrepo), Htry.
  destruct e; simpl in Hmsg; try discriminate; injection Hmsg as <-; reflexivity.
Qed.

Lemma get_commit_log_returned (w : World) (repo_path : string) (t : list event)
    (r : option (list datetime)) :
  is_repository w repo_path ->
  get_commit_log_try w repo_path = (t, Ok r) ->
  get_commit_log w repo_path = ((path_checks repo_path ++ t)%list, Ok r).
Proof.
  intros Hrepo Htry.
  now rewrite (get_commit_log_repository _ _ Hrepo), Htry.
Qed.

(** The [try] body never raises what the handlers would let through. *)
Lemma get_commit_log_try_raises (w : World) (repo_path : string)
    (t : list event) (e : exn) :
  get_commit_log_try w repo_path = (t, Raise e) ->
  exists text, failure_message e = Some text.
Proof.
  intros H. pose proof (get_commit_log_try_outcome w repo_path) as O.
  rewrite H in O. inversion O as [e' L|output e' ws Hrun Hws He| |]; subst.
  - destruct (run_process w (git_log_argv repo_path)) as [status output|msg|msg];
      simpl in L.
    + destruct (status =? 0); [discriminate|]. injection L as <-. simpl. eauto.
    + injection L as <-. simpl. eauto.
    + injection L as <-. simpl. eauto.
  - destruct He as [[msg ->]|[msg ->]]; simpl; eauto.
Qed.

Lemma is_repository_dec (w : World) (repo_path : string) :
  fs_exists w repo_path = false
  \/ (fs_exists w repo_path = true
      /\ fs_exists w (os_path.join repo_path ".git") = false)
  \/ is_repository w repo_path.
Proof.
  unfold is_repository.
  destruct (fs_exists w repo_path); auto.
  destruct (fs_exists w (os_path.join repo_path ".git")); auto.
Qed.

(** [get_commit_log] always returns. *)
Lemma get_commit_log_total (w : World) (repo_path : string) :
  exists t r, get_commit_log w repo_path = (t, Ok r).
Proof.
  destruct (is_repository_dec w repo_path) as [H|[[H1 H2]|H]].
  - rewrite (get_commit_log_missing _ _ H). eauto.
  - rewrite (get_commit_log_not_repository _ _ H1 H2). eauto.
  - destruct (get_commit_log_try w repo_path) as [t [r|e]] eqn:T.
    + rewrite (get_commit_log_returned _ _ _ _ H T). eauto.
    + destruct (get_commit_log_try_raises _ _ _ _ T) as [text Hm].
      rewrite (get_commit_log_handled _ _ _ _ _ H T Hm). eauto.
Qed.

(** A successful call, taken apart. *)
Lemma get_commit_log_some (w : World) (repo_path : string) (t : list event)
    (dates : list datetime) :
  get_commit_log w repo_path = (t, Ok (Some dates)) ->
  exists output,
    is_repository w repo_path
    /\ run_process w (git_log_argv repo_path) = Exited 0 output
    /\ Forall (tolerated w) (Str.splitlines output)
    /\ accepted w (Str.splitlines output) <> []
    /\ sort (accepted w (Str.splitlines output)) = Ok dates
    /\ Permutation (accepted w (Str.splitlines output)) dates
    /\ chronological dates
    /\ t = (path_checks repo_path ++ Spawn (git_log_argv repo_path)
            :: map Print (warnings w (Str.splitlines output))
            ++ map Print (report repo_path dates))%list.
Proof.
  destruct (is_repository_dec w repo_path) as [H|[[H1 H2]|H]].
  - rewrite (get_commit_log_missing _ _ H). discriminate.
  - rewrite (get_commit_log_not_repository _ _ H1 H2). discriminate.
  - pose proof (get_commit_log_try_outcome w repo_path) as O.
    destruct (get_commit_log_try w repo_path) as [t' [r|e]] eqn:T.
    + rewrite (get_commit_log_returned _ _ _ _ H T). intros [= <- ->].
      inversion O as [| | |output sorted Hrun Htol Hne Hs Hp Hc]; subst.
      exists output. repeat split; auto; apply H.
    + destruct (get_commit_log_try_raises _ _ _ _ T) as [text Hm].
      rewrite (get_commit_log_handled _ _ _ _ _ H T Hm). discriminate.
Qed.

(** A call that found no data, taken apart: its last print is a
    diagnostic. *)
Lemma get_commit_log_none (w : World) (repo_path : string) (t : list event) :
  get_commit_log w repo_path = (t, Ok None) ->
  exists before text,
    stdout t = (before ++ [text])%list /\ diagnostic repo_path text.
Proof.
  unfold diagnostic.
  destruct (is_repository_dec w repo_path) as [H|[[H1 H2]|H]].
  - rewrite (get_commit_log_missing _ _ H). intros [= <-].
    exists [], (not_found_message repo_path). split; [reflexivity | now left].
  - rewrite (get_commit_log_not_repository _ _ H1 H2). intros [= <-].
    exists [], (not_a_repository_message repo_path).
    split; [reflexivity | right; now left].
  - pose proof (get_commit_log_try_outcome w repo_path) as O.
    destruct (get_commit_log_try w repo_path) as [t' [r|e]] eqn:T.
    + rewrite (get_commit_log_returned _ _ _ _ H T). intros [= <- ->].
      inversion O as [| |output Hrun Htol Hacc|]; subst.
      exists (warnings w (Str.splitlines output)), (no_dates_warning repo_path).
      split; [|do 3 right; now left].
      simpl. now rewrite stdout_app, stdout_prints.
    + destruct (get_commit_log_try_raises _ _ _ _ T) as [text Hm].
      rewrite (get_commit_log_handled _ _ _ _ _ H T Hm). intros [= <-].
      exists (stdout t'), text. split.
      * simpl. now rewrite stdout_app.
      * destruct e; simpl in Hm; try discriminate; injection Hm as <-;
          [right; right; left; eexists; reflexivity
          | do 4 right; eexists; reflexivity ..].
Qed.

(** ** The Pacific zone table *)

Lemma bisect_right_le (a : list Z) (x : Z) :
  (Pytz.bisect_right a x <= List.length a)%nat.
Proof.
  induction a as [|t rest IH]; simpl; [lia|].
  destruct (x <? t); lia.
Qed.

Lemma tzinfo_eqb_eq (a b : tzinfo) : tzinfo_eqb a b = true -> a = b.
Proof.
  destruct a as [oa da na], b as [ob db nb]. unfold tzinfo_eqb. simpl.
  intros H. apply andb_true_iff in H as [H Hn].
  apply andb_true_iff in H as [Ho Hd].
  apply Z.eqb_eq in Ho, Hd. apply String.eqb_eq in Hn. congruence.
Qed.

(** Whatever the instant, the rule in force is one of the zone's five. *)
Lemma in_force_pacific (u : Z) : In (in_force pacific u) pacific_rules.
Proof.
  assert (Hall : forallb (fun i => existsb (tzinfo_eqb i) pacific_rules)
                         (Pytz.transition_info pacific) = true)
    by (vm_compute; reflexivity).
  rewrite forallb_forall in Hall.
  assert (Hin : In (in_force pacific u) (Pytz.transition_info pacific)).
  { unfold in_force. apply nth_In.
    pose proof (bisect_right_le (Pytz.utc_transition_times pacific) u) as Hle.
    assert (Hlen : List.length (Pytz.utc_transition_times pacific) = 187%nat)
      by (vm_compute; reflexivity).
    assert (Hlen' : List.length (Pytz.transition_info pacific) = 187%nat)
      by (vm_compute; reflexivity).
    lia. }
  apply Hall in Hin. apply existsb_exists in Hin as (r & Hr & Heq).
  apply tzinfo_eqb_eq in Heq. now subst.
Qed.

Lemma append_empty (s : string) : s ++ "" = s.
Proof. induction s as [|c s IH]; simpl; congruence. Qed.

Lemma report_line_formatted (x : datetime) : report_line x = formatted x.
Proof.
  unfold formatted. rewrite <- (append_empty (abbreviation x)). reflexivity.
Qed.

Lemma weekday_name (x : datetime) :
  In (nth (Z.to_nat (weekday x)) DAY_NAMES "") DAY_NAMES.
Proof.
  apply nth_In. unfold weekday.
  pose proof (Z.mod_pos_bound (toordinal x + 6) 7 ltac:(lia)).
  change (List.length DAY_NAMES) with 7%nat. lia.
Qed.

Lemma rule_is_60_dashes :
  rule = "------------------------------------------------------------"
  /\ String.length rule = 60%nat.
Proof. split; reflexivity. Qed.

Lemma stdout_text_report (repo_path : string) (dates : list datetime) :
  stdout_text (report repo_path dates)
  = newline ++ stdout_text
                 (report_header repo_path :: rule
                  :: List.app (map report_line dates)
                       [rule; "Total commits: " ++ Str.of_nat (List.length dates)]).
Proof.
  unfold report.
  change (stdout_text ((newline ++ report_header repo_path) :: ?l))
    with ((newline ++ report_header repo_path) ++ newline ++ stdout_text l).
  reflexivity.
Qed.

(** ** The table and the tz database *)

Lemma bisect_right_mono (a : list Z) (x y : Z) :
  x <= y -> (Pytz.bisect_right a x <= Pytz.bisect_right a y)%nat.
Proof.
  intros Hxy. induction a as [|t rest IH]; simpl; [lia|].
  destruct (Z.ltb_spec x t), (Z.ltb_spec y t); lia.
Qed.

Lemma same_rule_on_sound (lo hi u : Z) (r : tzinfo) :
  same_rule_on lo hi r = true -> lo <= u < hi -> in_force pacific u = r.
Proof.
  unfold same_rule_on. intros H Hu.
  apply andb_true_iff in H as [Hk Hr].
  apply Nat.eqb_eq in Hk. apply tzinfo_eqb_eq in Hr.
  rewrite <- Hr. unfold in_force. f_equal. f_equal.
  pose proof (bisect_right_mono (Pytz.utc_transition_times pacific) lo u ltac:(lia)).
  pose proof (bisect_right_mono (Pytz.utc_transition_times pacific) u (hi - 1) ltac:(lia)).
  lia.
Qed.

Lemma same_rule_in_table_sound (lo hi u : Z) (r : tzinfo) :
  same_rule_in_table lo hi r = true -> lo <= u < hi -> in_table u ->
  in_force pacific u = r.
Proof.
  unfold same_rule_in_table, in_table. intros H Hu Ht.
  destruct (Z.ltb_spec (Z.max lo table_begin) (Z.min hi table_end)) as [_|Hle];
    [|lia].
  apply (same_rule_on_sound _ _ _ _ H). lia.
Qed.

Lemma table_follows_sound (changes : list (Z * tzinfo)) (lo hi u : Z)
    (r : tzinfo) :
  table_follows lo r changes hi = true -> lo <= u < hi -> in_table u ->
  in_force pacific u = rule_after r changes u.
Proof.
  revert lo r. induction changes as [|[t r'] rest IH]; intros lo r H Hu Ht.
  - now apply (same_rule_in_table_sound lo hi).
  - simpl in H. apply andb_true_iff in H as [H1 H2]. simpl.
    destruct (Z.ltb_spec u t) as [Hlt|Hge].
    + apply (same_rule_in_table_sound lo t); [exact H1 | lia | exact Ht].
    + apply (IH t r' H2); [lia | exact Ht].
Qed.

Lemma table_follows_tzdb_all :
  forallb table_follows_tzdb (map Z.of_nat (seq 1901 138)) = true.
Proof. vm_compute. reflexivity. Qed.

Lemma year_start (year : Z) :
  Pytz.d year 1 1 0 0 0 = days_before_year year * US_PER_DAY.
Proof.
  unfold Pytz.d, wall_of_fields, ymd2ord, days_before_month.
  change (nth (Z.to_nat 1) DAYS_BEFORE_MONTH 0) with 0.
  change (2 <? 1) with false. cbn [andb]. lia.
Qed.

(** The years that meet the table's stretch. *)
Lemma in_table_year (year u : Z) :
  in_utc_year year u -> in_table u -> 1901 <= year <= 2038.
Proof.
  unfold in_utc_year, in_table. rewrite !year_start.
  assert (Hb : table_begin = 59988113152000000) by (vm_compute; reflexivity).
  assert (He : table_end = 64287770400000000) by (vm_compute; reflexivity).
  rewrite Hb, He. unfold days_before_year, US_PER_DAY, US_PER_SECOND.
  intros H1 H2. Z.to_euclidean_division_equations. lia.
Qed.

(** Within its stretch the table gives, at every instant, the rule of the
    tz database, whatever the daylight-saving transitions around it. *)
Lemma pacific_follows_tzdb (year u : Z) :
  in_utc_year year u -> in_table u ->
  in_force pacific u = tzdb_rule year u.
Proof.
  intros Hu Ht.
  pose proof (in_table_year _ _ Hu Ht) as Hy.
  pose proof table_follows_tzdb_all as Hall. rewrite forallb_forall in Hall.
  assert (Hin : In year (map Z.of_nat (seq 1901 138))).
  { apply in_map_iff. exists (Z.to_nat year). split; [lia|].
    apply in_seq. lia. }
  apply Hall in Hin.
  apply (table_follows_sound _ _ _ _ _ Hin); assumption.
Qed.

Lemma bisect_right_all (a : list Z) (x : Z) :
  Forall (fun t => t <= x) a -> Pytz.bisect_right a x = List.length a.
Proof.
  induction 1 as [|t rest Ht _ IH]; simpl; [reflexivity|].
  destruct (Z.ltb_spec x t); [lia | now rewrite IH].
Qed.

(** Outside its stretch the table has nothing of the tz database: local
    mean time before its first transition, standard time after its last
    one. *)
Lemma pacific_before_table (u : Z) :
  u < table_begin -> in_force pacific u = Pytz.LMT.
Proof.
  intros Hu. unfold in_force.
  change (Pytz.utc_transition_times pacific)
    with (Pytz.d 1 1 1 0 0 0 :: table_begin
          :: tl (tl (Pytz.utc_transition_times pacific))).
  cbn [Pytz.bisect_right].
  destruct (Z.ltb_spec u (Pytz.d 1 1 1 0 0 0)); [reflexivity|].
  destruct (Z.ltb_spec u table_begin); [reflexivity | lia].
Qed.

Lemma pacific_after_table (u : Z) :
  Pytz.d 2037 11 1 9 0 0 <= u -> in_force pacific u = Pytz.PST.
Proof.
  intros Hu. unfold in_force.
  rewrite bisect_right_all; [vm_compute; reflexivity|].
  assert (Hall : forallb (fun t => t <=? Pytz.d 2037 11 1 9 0 0)
                         (Pytz.utc_transition_times pacific) = true)
    by (vm_compute; reflexivity).
  rewrite forallb_forall in Hall. apply Forall_forall.
  intros t Hin. apply Hall, Z.leb_le in Hin. lia.
Qed.

(** A single line that converts gives a single timestamp. *)
Lemma single_line_result (w : World) (repo_path output l : string) (x : datetime) :
  is_repository w repo_path ->
  run_process w (git_log_argv repo_path) = Exited 0 output ->
  Str.splitlines output = [l] ->
  blank l = false ->
  convert w pacific l = Ok x ->
  exists t, get_commit_log w repo_path = (t, Ok (Some [x])).
Proof.
  intros Hrepo Hrun Hlines Hb Hx.
  assert (Htol : Forall (tolerated w) (Str.splitlines output)).
  { rewrite Hlines. constructor; [|constructor]. right. left. eauto. }
  pose proof (get_commit_log_tolerated _ _ _ Hrepo Hrun Htol) as H.
  cbv zeta in H. rewrite Hlines in H.
  unfold accepted in H. cbn [flat_map] in H. rewrite Hb, Hx in H.
  cbn [app] in H. destruct H as (sorted & _ & Hp & _ & H).
  apply Permutation_length_1_inv in Hp. subst sorted. eauto.
Qed.

(** ** The result does not depend on the order of the lines *)

(** A converted line is determined by its instant. *)
Lemma convert_instant_inj (w : World) (z : Pytz.DstTzInfo) (l1 l2 : string)
    (x y : datetime) :
  convert w z l1 = Ok x -> convert w z l2 = Ok y ->
  instant x = instant y -> x = y.
Proof.
  intros Hx Hy Hi.
  apply convert_ok in Hx as (_ & _ & Htx & Hwx).
  apply convert_ok in Hy as (_ & _ & Hty & Hwy).
  rewrite Hi in Htx, Hwx. rewrite <- Hwy in Hwx. rewrite <- Hty in Htx.
  destruct x, y. simpl in *. congruence.
Qed.

Lemma chronological_unique (l1 l2 : list datetime) :
  chronological l1 -> chronological l2 -> Permutation l1 l2 ->
  (forall x y, In x l1 -> In y l1 -> instant x = instant y -> x = y) ->
  l1 = l2.
Proof.
  revert l2. induction l1 as [|a l1 IH]; intros l2 H1 H2 Hp Hinj.
  - now apply Permutation_nil in Hp.
  - destruct l2 as [|b l2].
    { apply Permutation_sym, Permutation_nil in Hp. discriminate. }
    inversion H1 as [|? ? H1' Ha]; subst.
    inversion H2 as [|? ? H2' Hb]; subst.
    rewrite Forall_forall in Ha, Hb.
    assert (Hab : a = b).
    { assert (Hbin : In b (a :: l1))
        by (eapply Permutation_in; [apply Permutation_sym, Hp | now left]).
      assert (Hain : In a (b :: l2))
        by (eapply Permutation_in; [exact Hp | now left]).
      apply Hinj; [now left | exact Hbin |].
      destruct Hbin as [->|Hbin]; [reflexivity|].
      destruct Hain as [->|Hain]; [reflexivity|].
      pose proof (Ha _ Hbin). pose proof (Hb _ Hain). lia. }
    subst b. f_equal. apply IH; auto.
    + now apply Permutation_cons_inv in Hp.
    + intros x y Hx Hy. apply Hinj; now right.
Qed.

Lemma sort_order_independent (w : World) (lines lines' : list string)
    (dates : list datetime) :
  Permutation lines lines' ->
  sort (accepted w lines) = Ok dates ->
  sort (accepted w lines') = Ok dates.
Proof.
  intros Hp Hs.
  destruct (sort_aware (accepted w lines) (accepted_aware w lines))
    as (s & Hs1 & Hp1 & Hc1).
  destruct (sort_aware (accepted w lines') (accepted_aware w lines'))
    as (s' & Hs2 & Hp2 & Hc2).
  rewrite Hs in Hs1. injection Hs1 as <-. rewrite Hs2. f_equal.
  symmetry. apply chronological_unique; auto.
  - rewrite <- Hp1, <- Hp2. unfold accepted. now apply Permutation_flat_map.
  - intros x y Hx Hy.
    apply (Permutation_in _ (Permutation_sym Hp1)) in Hx, Hy.
    apply accepted_converted in Hx as (lx & _ & _ & Hx).
    apply accepted_converted in Hy as (ly & _ & _ & Hy).
    now apply (convert_instant_inj w pacific lx ly).
Qed.

(** ** Lines in the strict ISO format parse and convert *)

Lemma digit_char_cases (v : Z) :
  In (Str.digit_char v)
     ["0"; "1"; "2"; "3"; "4"; "5"; "6"; "7"; "8"; "9"]%char
  /\ Z.of_nat (Str.ord (Str.digit_char v)) - 48 = v mod 10.
Proof.
  unfold Str.digit_char.
  pose proof (Z.mod_pos_bound v 10 ltac:(lia)) as H.
  assert (C : v mod 10 = 0 \/ v mod 10 = 1 \/ v mod 10 = 2 \/ v mod 10 = 3
              \/ v mod 10 = 4 \/ v mod 10 = 5 \/ v mod 10 = 6 \/ v mod 10 = 7
              \/ v mod 10 = 8 \/ v mod 10 = 9) by lia.
  destruct C as [C|[C|[C|[C|[C|[C|[C|[C|[C|C]]]]]]]]]; rewrite C;
    (split; [simpl; tauto | reflexivity]).
Qed.

Lemma digit_char_like (v : Z) : digit_like (Str.digit_char v) v.
Proof.
  destruct (digit_char_cases v) as [Hin Hv].
  simpl in Hin.
  destruct Hin as [E|[E|[E|[E|[E|[E|[E|[E|[E|[E|[]]]]]]]]]]];
    rewrite <- E in *; constructor; try reflexivity; exact Hv.
Qed.

Lemma zero_padded_2 (v : Z) :
  Str.zero_padded 2 v
  = String (Str.digit_char (v / 10)) (String (Str.digit_char v) "").
Proof. reflexivity. Qed.

Lemma zero_padded_4 (v : Z) :
  Str.zero_padded 4 v
  = String (Str.digit_char (v / 10 / 10 / 10))
      (String (Str.digit_char (v / 10 / 10))
         (String (Str.digit_char (v / 10)) (String (Str.digit_char v) ""))).
Proof. reflexivity. Qed.

Lemma two_digits (v : Z) :
  0 <= v <= 99 -> 10 * (10 * 0 + (v / 10) mod 10) + v mod 10 = v.
Proof. intros H. Z.to_euclidean_division_equations. lia. Qed.

Lemma four_digits (v : Z) :
  0 <= v <= 9999 ->
  10 * (10 * (10 * (10 * 0 + (v / 10 / 10 / 10) mod 10) + (v / 10 / 10) mod 10)
        + (v / 10) mod 10) + v mod 10 = v.
Proof. intros H. Z.to_euclidean_division_equations. lia. Qed.

Lemma append_assoc (a b c : string) : (a ++ b) ++ c = a ++ b ++ c.
Proof. induction a as [|x a IH]; simpl; congruence. Qed.

Lemma replace_app (c : ascii) (new a b : string) :
  Str.replace c new (a ++ b) = Str.replace c new a ++ Str.replace c new b.
Proof.
  induction a as [|x a IH]; simpl; [reflexivity|].
  destruct (Ascii.eqb x c); rewrite IH; [|reflexivity].
  now rewrite append_assoc.
Qed.

Lemma replace_zero_padded (n : nat) (v : Z) (new : string) :
  Str.replace "Z" new (Str.zero_padded n v) = Str.zero_padded n v.
Proof.
  revert v. induction n as [|n IH]; intros v; simpl; [reflexivity|].
  rewrite replace_app, IH. simpl.
  now rewrite (dl_not_Z _ _ (digit_char_like v)).
Qed.

Lemma replace_iso_offset (o : option (bool * Z * Z)) :
  Str.replace "Z" "+00:00" (iso_offset o) = iso_offset_rewritten o.
Proof.
  destruct o as [[[west h] m]|]; [|reflexivity].
  unfold iso_offset_rewritten, iso_offset.
  rewrite !replace_app, !replace_zero_padded. now destruct west.
Qed.

Lemma replace_iso_strict (c : commit_date) :
  Str.replace "Z" "+00:00" (iso_strict c)
  = Str.zero_padded 4 (cd_year c) ++ "-" ++ Str.zero_padded 2 (cd_month c) ++ "-"
    ++ Str.zero_padded 2 (cd_day c) ++ "T"
    ++ Str.zero_padded 2 (cd_hour c) ++ ":" ++ Str.zero_padded 2 (cd_minute c) ++ ":"
    ++ Str.zero_padded 2 (cd_second c) ++ iso_offset_rewritten (cd_offset c).
Proof.
  unfold iso_strict.
  rewrite !replace_app, !replace_zero_padded, replace_iso_offset. reflexivity.
Qed.

Ltac expose_digits :=
  rewrite ?zero_padded_2, ?zero_padded_4;
  repeat match goal with
  | |- context [Str.digit_char ?v] =>
      let H := fresh "D" in
      pose proof (digit_char_like v) as H;
      generalize dependent (Str.digit_char v); intros ? H
  end.

Ltac use_digits :=
  repeat match goal with
  | D : digit_like ?c _ |- context [Str.isdigit ?c] => rewrite (dl_isdigit _ _ D)
  | D : digit_like ?c _ |- context [Z.of_nat (Str.ord ?c) - 48] =>
      rewrite (dl_value _ _ D)
  | D : digit_like ?c _ |- context [Ascii.eqb ?c "+"] => rewrite (dl_not_plus _ _ D)
  | D : digit_like ?c _ |- context [Ascii.eqb ?c "-"] => rewrite (dl_not_minus _ _ D)
  end.

Ltac literal_chars :=
  change (("-" =? "-")%char) with true;
  change (("+" =? "+")%char) with true;
  change ((":" =? ":")%char) with true;
  change (("-" =? "+")%char) with false;
  change (("+" =? "-")%char) with false;
  change ((":" =? "+")%char) with false;
  change ((":" =? "-")%char) with false.

(** The parser reads back the fields of a line in the strict format. *)
Lemma parse_signed (y mo d h mi s oh om : Z) (sign : ascii) :
  sign = "+"%char \/ sign = "-"%char ->
  0 <= y <= 9999 -> 0 <= mo <= 99 -> 0 <= d <= 99 -> 0 <= h <= 99 ->
  0 <= mi <= 99 -> 0 <= s <= 99 -> 0 <= oh <= 99 -> 0 <= om <= 99 ->
  parse_isoformat
    (Str.zero_padded 4 y ++ "-" ++ Str.zero_padded 2 mo ++ "-"
     ++ Str.zero_padded 2 d ++ "T"
     ++ Str.zero_padded 2 h ++ ":" ++ Str.zero_padded 2 mi ++ ":"
     ++ Str.zero_padded 2 s
     ++ String sign (Str.zero_padded 2 oh ++ ":" ++ Str.zero_padded 2 om))
  = Some (y, mo, d,
          (h, mi, s, 0,
           Some (if Ascii.eqb sign "-"
                 then - (((oh * 60 + om) * 60 + 0) * US_PER_SECOND + 0)
                 else ((oh * 60 + om) * 60 + 0) * US_PER_SECOND + 0))).
Proof.
  intros Hsign Hy Hmo Hd Hh Hmi Hs Hoh Hom.
  expose_digits. cbn [append].
  unfold parse_isoformat.
  cbn [substring String.length Nat.eqb Nat.sub].
  unfold parse_isoformat_date.
  cbn [Str.digits_at substring String.length Nat.eqb Str.parse_digits expect
       Str.char_at String.get option_bind guard].
  use_digits. rewrite four_digits, !two_digits by assumption.
  literal_chars. cbn [option_bind].
  unfold parse_isoformat_time.
  destruct Hsign as [-> | ->];
    cbn [find_sign]; use_digits; literal_chars; cbn [orb];
    cbn [substring String.length Nat.eqb Nat.sub];
    unfold parse_hh_mm_ss_ff;
    cbn [Str.digits_at substring String.length Nat.eqb Str.parse_digits expect
         Str.char_at String.get option_bind guard orb];
    use_digits; rewrite ?two_digits by assumption;
    literal_chars; cbn [option_bind guard]; reflexivity.
Qed.

Lemma parse_iso_strict (c : commit_date) :
  well_formed c ->
  parse_isoformat (Str.replace "Z" "+00:00" (iso_strict c))
  = Some (cd_year c, cd_month c, cd_day c,
          (cd_hour c, cd_minute c, cd_second c, 0, Some (offset_us (cd_offset c)))).
Proof.
  intros (Hy & Hmo & Hd & Hh & Hmi & Hs & Ho).
  assert (Hd' : 0 <= cd_day c <= 99).
  { unfold days_in_month in Hd.
    destruct ((cd_month c =? 2) && is_leap (cd_year c)); [lia|].
    assert (Hm : In (Z.to_nat (cd_month c)) (seq 1 12)) by (apply in_seq; lia).
    simpl in Hm.
    destruct Hm as [E|[E|[E|[E|[E|[E|[E|[E|[E|[E|[E|[E|[]]]]]]]]]]]]];
      rewrite <- E in Hd; simpl in Hd; lia. }
  rewrite replace_iso_strict.
  destruct (cd_offset c) as [[[west oh] om]|]; simpl in Ho.
  - unfold iso_offset_rewritten, iso_offset, offset_us.
    destruct west.
    + rewrite (parse_signed _ _ _ _ _ _ oh om "-") by (auto; lia).
      simpl Ascii.eqb. cbv iota.
      replace (((oh * 60 + om) * 60 + 0) * US_PER_SECOND + 0)
        with ((oh * 60 + om) * 60 * US_PER_SECOND) by ring.
      reflexivity.
    + rewrite (parse_signed _ _ _ _ _ _ oh om "+") by (auto; lia).
      simpl Ascii.eqb. cbv iota.
      replace (((oh * 60 + om) * 60 + 0) * US_PER_SECOND + 0)
        with ((oh * 60 + om) * 60 * US_PER_SECOND) by ring.
      reflexivity.
  - change (iso_offset_rewritten None)
      with (String "+" (Str.zero_padded 2 0 ++ ":" ++ Str.zero_padded 2 0)).
    rewrite (parse_signed _ _ _ _ _ _ 0 0 "+") by (auto; lia).
    reflexivity.
Qed.

Lemma new_datetime_ok (y m d hh mm ss us : Z) (t : option tzinfo) :
  1 <= y <= 9999 -> 1 <= m <= 12 -> 1 <= d <= days_in_month y m ->
  0 <= hh <= 23 -> 0 <= mm <= 59 -> 0 <= ss <= 59 ->
  new_datetime y m d hh mm ss us t
  = Ok (mk_datetime (wall_of_fields y m d hh mm ss us) t).
Proof.
  intros Hy Hm Hd Hh Hmi Hs. unfold new_datetime, check.
  rewrite !(proj2 (andb_true_iff _ _)); [reflexivity|..];
    split; apply Z.leb_le; lia.
Qed.

(** A well-formed line parses to its fields, with its offset. *)
Lemma fromisoformat_iso_strict (c : commit_date) :
  well_formed c ->
  exists t,
    fromisoformat (Str.replace "Z" "+00:00" (iso_strict c))
    = Ok (mk_datetime
            (wall_of_fields (cd_year c) (cd_month c) (cd_day c)
                            (cd_hour c) (cd_minute c) (cd_second c) 0)
            (Some t))
    /\ utcoffset t = offset_us (cd_offset c).
Proof.
  intros Hwf. unfold fromisoformat. rewrite (parse_iso_strict _ Hwf).
  destruct Hwf as (Hy & Hmo & Hd & Hh & Hmi & Hs & Ho).
  assert (Hoff : - US_PER_DAY < offset_us (cd_offset c) < US_PER_DAY).
  { unfold offset_us, US_PER_DAY, US_PER_SECOND.
    destruct (cd_offset c) as [[[west oh] om]|]; [|lia].
    destruct west; lia. }
  unfold timezone.
  destruct (Z.eqb_spec (offset_us (cd_offset c)) 0) as [E|E].
  - exists utc. simpl. rewrite new_datetime_ok by assumption. auto.
  - rewrite (proj2 (andb_true_iff _ _)) by (split; apply Z.ltb_lt; lia).
    eexists. simpl. rewrite new_datetime_ok by assumption.
    split; reflexivity.
Qed.

Lemma ymd2ord_bounds (y m d : Z) :
  1 <= m <= 12 -> 1 <= d <= days_in_month y m ->
  days_before_year y + 1 <= ymd2ord y m d <= days_before_year y + 366.
Proof.
  intros Hm Hd. unfold ymd2ord, days_before_month. unfold days_in_month in Hd.
  assert (Hin : In (Z.to_nat m) (seq 1 12)) by (apply in_seq; lia).
  assert (Hz : m = Z.of_nat (Z.to_nat m)) by lia.
  simpl in Hin.
  destruct Hin as [E|[E|[E|[E|[E|[E|[E|[E|[E|[E|[E|[E|[]]]]]]]]]]]]];
    rewrite <- E in *; rewrite Hz in *; clear Hz;
    simpl in Hd |- *; destruct (is_leap y); simpl in Hd |- *; lia.
Qed.

Lemma days_before_year_bounds (y : Z) :
  2 <= y <= 9998 -> 365 <= days_before_year y <= 3651329.
Proof.
  intros H. unfold days_before_year.
  Z.to_euclidean_division_equations. lia.
Qed.

Lemma pacific_offset_bounds (u : Z) :
  - US_PER_DAY < utcoffset (in_force pacific u) < 0.
Proof.
  pose proof (in_force_pacific u) as H. simpl in H.
  destruct H as [<-|[<-|[<-|[<-|[<-|[]]]]]]; vm_compute; split; reflexivity.
Qed.

Lemma blank_digit_first (c : ascii) (v : Z) (rest : string) :
  digit_like c v -> blank (String c rest) = false.
Proof.
  intros D. unfold blank, Str.strip. simpl.
  rewrite (dl_isspace _ _ D). simpl. now rewrite (dl_isspace _ _ D).
Qed.

Lemma add_timedelta_in_range (x : datetime) (delta : Z) :
  0 <= wall x + delta < MAX_WALL ->
  add_timedelta x delta = Ok (mk_datetime (wall x + delta) (tz x)).
Proof.
  intros H. unfold add_timedelta.
  rewrite (proj2 (andb_true_iff _ _)); [reflexivity|].
  split; [apply Z.leb_le | apply Z.ltb_lt]; lia.
Qed.

Lemma fromutc_in_range (z : Pytz.DstTzInfo) (dt : datetime) :
  0 <= wall dt + utcoffset (in_force z (wall dt)) < MAX_WALL ->
  Pytz.fromutc z dt
  = Ok (mk_datetime (wall dt + utcoffset (in_force z (wall dt)))
                    (Some (in_force z (wall dt)))).
Proof.
  intros H. unfold Pytz.fromutc.
  change (nth _ (Pytz.transition_info z) utc) with (in_force z (wall dt)).
  rewrite add_timedelta_in_range by exact H. reflexivity.
Qed.

Lemma astimezone_in_range (w : World) (z : Pytz.DstTzInfo) (x : datetime)
    (t : tzinfo) :
  tz x = Some t ->
  0 <= wall x - utcoffset t < MAX_WALL ->
  0 <= wall x - utcoffset t + utcoffset (in_force z (wall x - utcoffset t))
    < MAX_WALL ->
  astimezone (local_zone w) x (Pytz.fromutc z)
  = Ok (mk_datetime
          (wall x - utcoffset t + utcoffset (in_force z (wall x - utcoffset t)))
          (Some (in_force z (wall x - utcoffset t)))).
Proof.
  intros Ht H1 H2. unfold astimezone. rewrite Ht. simpl result_bind.
  rewrite add_timedelta_in_range by (fold (wall x - utcoffset t); exact H1).
  simpl result_bind. fold (wall x - utcoffset t).
  now rewrite fromutc_in_range.
Qed.

Lemma strict_line_not_blank (c : commit_date) : blank (iso_strict c) = false.
Proof.
  unfold iso_strict. rewrite zero_padded_4. cbn [append].
  apply (blank_digit_first _ _ _ (digit_char_like _)).
Qed.

(** Every line in the strict format, with fields in range and an instant
    that has a place in the calendar, converts, and its timestamp is the
    instant the line denotes under the rule in force at that instant. *)
Lemma iso_strict_converts (w : World) (c : commit_date) :
  well_formed c -> representable c ->
  convert w pacific (iso_strict c)
  = Ok (mk_datetime
          (commit_instant c + utcoffset (in_force pacific (commit_instant c)))
          (Some (in_force pacific (commit_instant c)))).
Proof.
  intros Hwf [Hu Hp].
  destruct (fromisoformat_iso_strict c Hwf) as (t & Hparse & Ht).
  unfold convert. rewrite Hparse. cbn [result_bind].
  unfold commit_instant in *. rewrite <- Ht in *.
  set (W := wall_of_fields (cd_year c) (cd_month c) (cd_day c)
                           (cd_hour c) (cd_minute c) (cd_second c) 0) in *.
  now rewrite (astimezone_in_range w pacific (mk_datetime W (Some t)) t eq_refl).
Qed.

(** A year from 2 to 9998 leaves room for every offset. *)
Lemma representable_year (c : commit_date) :
  well_formed c -> 2 <= cd_year c <= 9998 -> representable c.
Proof.
  intros (Hy & Hmo & Hd & Hh & Hmi & Hs & Ho) Hyear.
  assert (Hoff : - US_PER_DAY < offset_us (cd_offset c) < US_PER_DAY).
  { unfold offset_us, US_PER_DAY, US_PER_SECOND.
    destruct (cd_offset c) as [[[west oh] om]|]; [|lia].
    destruct west; lia. }
  pose proof (ymd2ord_bounds (cd_year c) (cd_month c) (cd_day c) Hmo Hd) as Ho1.
  pose proof (days_before_year_bounds (cd_year c) Hyear) as Ho2.
  unfold representable, in_calendar, commit_instant.
  set (W := wall_of_fields (cd_year c) (cd_month c) (cd_day c)
                           (cd_hour c) (cd_minute c) (cd_second c) 0).
  assert (HW : 365 * US_PER_DAY <= W < 3651695 * US_PER_DAY).
  { subst W. unfold wall_of_fields, US_PER_DAY, US_PER_SECOND. lia. }
  clearbody W.
  pose proof (pacific_offset_bounds (W - offset_us (cd_offset c))) as Hp.
  assert (HM : MAX_WALL = 3652059 * US_PER_DAY) by reflexivity.
  lia.
Qed.

(** Every line in the strict format, with fields in range and a year
    from 2 to 9998, yields a timestamp, and its timestamp is the instant the
    line denotes. *)
Lemma iso_strict_valid (w : World) (c : commit_date) :
  well_formed c -> 2 <= cd_year c <= 9998 ->
  yields_timestamp w (iso_strict c)
  /\ exists x, convert w pacific (iso_strict c) = Ok x
               /\ instant x = commit_instant c.
Proof.
  intros Hwf Hyear.
  pose proof (iso_strict_converts w c Hwf (representable_year c Hwf Hyear)) as H.
  split.
  - split; [apply strict_line_not_blank | eauto].
  - eexists. split; [exact H|]. unfold instant. cbn [wall tz]. lia.
Qed.

(** At the end of year 9999 a line in the same format is well formed and
    parses, but its instant has no Pacific reading within the calendar:
    the conversion overflows. *)
Lemma year_9999_overflows (w : World) :
  well_formed (mk_commit_date 9999 12 31 23 59 59 (Some (true, 12, 0)))
  /\ iso_strict (mk_commit_date 9999 12 31 23 59 59 (Some (true, 12, 0)))
     = "9999-12-31T23:59:59-12:00"
  /\ convert w pacific "9999-12-31T23:59:59-12:00"
     = Raise (OverflowError "date value out of range").
Proof.
  split; [|split].
  - vm_compute. intuition discriminate.
  - reflexivity.
  - vm_compute. reflexivity.
Qed.

(** ** Warnings and report lines *)

Lemma warnings_shape (w : World) (lines : list string) :
  Forall (fun s => exists l msg, s = parse_warning l msg) (warnings w lines).
Proof.
  unfold warnings. induction lines as [|l rest IH]; simpl; [constructor|].
  apply Forall_app. split; [|exact IH].
  destruct (blank l); [constructor|].
  destruct (convert w pacific l) as [x|[]]; repeat constructor; eauto.
Qed.

Lemma prefix_app (a b : string) : String.prefix a (a ++ b) = true.
Proof.
  induction a as [|c a IH]; simpl.
  - now destruct b.
  - destruct (ascii_dec c c); [exact IH | congruence].
Qed.

Lemma parse_warning_is_warning (l msg : string) :
  is_warning (parse_warning l msg) = true
  /\ is_parse_warning (parse_warning l msg) = true.
Proof.
  split.
  - apply (prefix_app "Warning: " ("Could not parse date '" ++ l ++ "': " ++ msg)).
  - apply (prefix_app "Warning: Could not parse date '" (l ++ "': " ++ msg)).
Qed.

Lemma report_line_not_warning (x : datetime) :
  is_parse_warning (report_line x) = false.
Proof.
  rewrite report_line_formatted. unfold formatted.
  pose proof (weekday_name x) as H.
  destruct H as [<-|[<-|[<-|[<-|[<-|[<-|[<-|[]]]]]]]]; reflexivity.
Qed.

Lemma report_has_no_parse_warning (repo_path : string) (dates : list datetime) :
  filter is_parse_warning (report repo_path dates) = [].
Proof.
  unfold report.
  change (filter is_parse_warning ((newline ++ report_header repo_path) :: rule :: ?l))
    with (filter is_parse_warning l).
  generalize (Str.of_nat (List.length dates)). intros count.
  induction dates as [|x rest IH]; [reflexivity|].
  simpl map. simpl app. simpl filter.
  rewrite report_line_not_warning. exact IH.
Qed.

Lemma not_a_date_refused (w : World) :
  blank "not-a-date" = false
  /\ fromisoformat (Str.replace "Z" "+00:00" "not-a-date")
     = Raise (ValueError "Invalid isoformat string: 'not-a-date'").
Proof. split; vm_compute; reflexivity. Qed.

Lemma convert_refused (w : World) (pst : Pytz.DstTzInfo) (l msg : string) :
  fromisoformat (Str.replace "Z" "+00:00" l) = Raise (ValueError msg) ->
  convert w pst l = Raise (ValueError msg).
Proof. unfold convert. now intros ->. Qed.

(** A line without an offset is not refused: it parses as a naive
    datetime, which the conversion reads in the local zone of the machine
    (here UTC). *)
Lemma line_without_offset :
  exists x,
    convert (demo_world "") pacific "2024-01-15T12:00:00" = Ok x
    /\ report_line x = "Monday, 2024-01-15 04:00:00 PST".
Proof.
  eexists. split; [vm_compute; reflexivity|]. vm_compute. reflexivity.
Qed.

(** Nor is every line without an offset converted: on the first day of
    year 1 the local zone cannot be told, the conversion raises a
    [ValueError], and the line is warned about like a malformed one. *)
Lemma naive_first_day_warned (rest : list string) (parsed_dates : list datetime) :
  convert first_day_world pacific "0001-01-01T12:00:00"
  = Raise (ValueError "year 0 is out of range")
  /\ parse_lines first_day_world pacific ("0001-01-01T12:00:00" :: rest) parsed_dates
     = (Print "Warning: Could not parse date '0001-01-01T12:00:00': year 0 is out of range"
          :: fst (parse_lines first_day_world pacific rest parsed_dates),
        snd (parse_lines first_day_world pacific rest parsed_dates)).
Proof.
  assert (H : convert first_day_world pacific "0001-01-01T12:00:00"
              = Raise (ValueError "year 0 is out of range"))
    by (vm_compute; reflexivity).
  split; [exact H|].
  rewrite parse_lines_cons, H.
  change (blank "0001-01-01T12:00:00") with false. reflexivity.
Qed.

(** ** The year of a report line *)

Lemma year_in_calendar (x : datetime) :
  0 <= wall x < MAX_WALL -> 1 <= year x <= 9999.
Proof.
  intros H. unfold year, toordinal, ord2ymd.
  change MAX_WALL with (3652059 * US_PER_DAY) in H.
  assert (Hd : 0 <= wall x / US_PER_DAY < 3652059).
  { unfold US_PER_DAY, US_PER_SECOND in *. split.
    - apply Z.div_pos; lia.
    - apply Z.div_lt_upper_bound; lia. }
  replace (wall x / US_PER_DAY + 1 - 1) with (wall x / US_PER_DAY) by lia.
  clear H. generalize dependent (wall x / US_PER_DAY). intros n Hn.
  change DI400Y with 146097. change DI100Y with 36524. change DI4Y with 1461.
  cbv zeta.
  destruct ((n mod 146097 mod 36524 mod 1461 / 365 =? 4)
            || (n mod 146097 / 36524 =? 4)) eqn:E.
  - cbn [fst]. apply orb_true_iff in E.
    Z.to_euclidean_division_equations. lia.
  - match goal with
    | |- context [if ?b then _ else _] => destruct b
    end; cbn [fst]; apply orb_false_iff in E; destruct E as [E1 E2];
      apply Z.eqb_neq in E1, E2;
      Z.to_euclidean_division_equations; lia.
Qed.

Lemma of_Z_four_digits (y : Z) :
  1000 <= y <= 9999 -> Str.of_Z y = Str.zero_padded 4 y.
Proof.
  intros H.
  assert (Hall : forallb (fun n => String.eqb (Str.of_Z (1000 + Z.of_nat n))
                                              (Str.zero_padded 4 (1000 + Z.of_nat n)))
                         (seq 0 (Z.to_nat 9000)) = true)
    by (vm_compute; reflexivity).
  rewrite forallb_forall in Hall.
  specialize (Hall (Z.to_nat (y - 1000))).
  replace (1000 + Z.of_nat (Z.to_nat (y - 1000))) with y in Hall by lia.
  apply String.eqb_eq, Hall, in_seq. lia.
Qed.

(** From year 1000 on a report line has its year in four digits. *)
Lemma report_line_stated (x : datetime) :
  1000 <= year x <= 9999 -> report_line x = stated_line x.
Proof.
  intros H. rewrite report_line_formatted. unfold formatted, stated_line.
  now rewrite of_Z_four_digits.
Qed.

(** ** Lines in the strict format *)

Lemma representable_yields (w : World) (l : string) :
  representable_line l -> yields_timestamp w l.
Proof.
  intros (c & Hwf & Hr & ->). split.
  - apply strict_line_not_blank.
  - eexists. now apply iso_strict_converts.
Qed.

Lemma accepted_in (w : World) (lines : list string) (l : string) (x : datetime) :
  In l lines -> blank l = false -> convert w pacific l = Ok x ->
  In x (accepted w lines).
Proof.
  intros Hin Hb Hx. unfold accepted. apply in_flat_map.
  exists l. split; [exact Hin|]. rewrite Hb, Hx. now left.
Qed.

(** ** The operation on any standard output *)

Lemma handler_print_failure (out : Stdout) (e : exn) (text msg : string) :
  failure_message e = Some text ->
  out text = Some msg ->
  get_commit_log_except_on out e = ([], Raise (ValueError msg)).
Proof.
  intros Hmsg Hout.
  pose proof (f_equal (fun o => match o with Some s => s | None => text end)
                      Hmsg) as E.
  unfold get_commit_log_except_on, print.
  destruct e; try discriminate Hmsg;
    cbv beta iota delta [failure_message] in E; rewrite E, Hout; reflexivity.
Qed.

Lemma get_commit_log_on_repository (out : Stdout) (w : World)
    (repo_path : string) :
  is_repository w repo_path ->
  get_commit_log_on out w repo_path =
  ((path_checks repo_path
    ++ fst (try_catch (get_commit_log_try_on out w repo_path)
                      (get_commit_log_except_on out)))%list,
   snd (try_catch (get_commit_log_try_on out w repo_path)
                  (get_commit_log_except_on out))).
Proof.
  intros [H1 H2]. unfold get_commit_log_on, os_path.exists_.
  rewrite bind_ok, H1. cbv beta iota delta [negb].
  rewrite bind_ok, H2. cbv beta iota delta [negb].
  simpl fst. simpl snd.
  destruct (try_catch _ _) as [t r]. reflexivity.
Qed.

(** * The claims *)

(** C1, as stated, fails in two ways.  With N = 0, no output line at
    all, every line is in the strict ISO-8601 format, yet the operation
    returns "no data" and not a list of length 0.  And with the single
    line [9999-12-31T23:59:59-12:00], in the strict format with every field
    in range, the operation returns "no data" too: the instant of the line
    lies past the end of year 9999, the conversion raises an overflow, the
    inner handler does not catch it, and the generic error is printed. *)
Lemma C1_counterexample :
  (is_repository (demo_world "") "/repo"
   /\ run_process (demo_world "") (git_log_argv "/repo") = Exited 0 ""
   /\ Forall strict_line (Str.splitlines "")
   /\ ~ returns_sorted (demo_world "") "/repo" (List.length (Str.splitlines "")))
  /\ (let output := "9999-12-31T23:59:59-12:00" in
      is_repository (demo_world output) "/repo"
      /\ run_process (demo_world output) (git_log_argv "/repo") = Exited 0 output
      /\ Forall strict_line (Str.splitlines output)
      /\ ~ returns_sorted (demo_world output) "/repo"
                          (List.length (Str.splitlines output))
      /\ stdout (fst (get_commit_log (demo_world output) "/repo"))
         = ["Unexpected error: date value out of range"]).
Proof.
  split.
  - split; [split; reflexivity|].
    split; [reflexivity|].
    split; [constructor|].
    intros (t & dates & H & _).
    vm_compute in H. discriminate.
  - cbv zeta.
    split; [split; reflexivity|].
    split; [reflexivity|].
    split; [|split].
    + change (Str.splitlines "9999-12-31T23:59:59-12:00")
        with ["9999-12-31T23:59:59-12:00"].
      constructor; [|constructor].
      exists (mk_commit_date 9999 12 31 23 59 59 (Some (true, 12, 0))).
      split; [|reflexivity].
      vm_compute. intuition discriminate.
    + intros (t & dates & H & _).
      vm_compute in H. discriminate.
    + vm_compute. reflexivity.
Qed.

(** C1 (amended).  When [git] prints N >= 1 lines, each of them in the
    strict ISO-8601 format [git] writes ([YYYY-MM-DDTHH:MM:SS] followed by
    [Z] or a signed [HH:MM], every field in range) and denoting an instant
    that has a place in the calendar of the years 1 to 9999 both in UTC and
    on the Pacific clock, the operation returns a list of exactly N
    timestamps, sorted ascending by instant.  The list holds, for each
    line, a timestamp at the instant the line denotes, and it is the same
    list in whatever order the lines come. *)
Theorem C1_strict_lines_sorted (w : World) (repo_path output : string) :
  is_repository w repo_path ->
  run_process w (git_log_argv repo_path) = Exited 0 output ->
  Forall representable_line (Str.splitlines output) ->
  (1 <= List.length (Str.splitlines output))%nat ->
  returns_sorted w repo_path (List.length (Str.splitlines output))
  /\ exists t dates,
       get_commit_log w repo_path = (t, Ok (Some dates))
       /\ (forall c, well_formed c -> representable c ->
                     In (iso_strict c) (Str.splitlines output) ->
                     exists x, In x dates /\ instant x = commit_instant c)
       /\ forall lines',
            Permutation (Str.splitlines output) lines' ->
            sort (accepted w lines') = Ok dates.
Proof.
  intros Hrepo Hrun Hstrict Hn.
  assert (Hvalid : Forall (yields_timestamp w) (Str.splitlines output)).
  { eapply Forall_impl; [|exact Hstrict]. apply representable_yields. }
  assert (Htol : Forall (tolerated w) (Str.splitlines output)).
  { eapply Forall_impl; [|exact Hvalid]. apply valid_tolerated. }
  destruct (accepted_valid _ _ Hvalid) as [Hlen _].
  pose proof (get_commit_log_tolerated _ _ _ Hrepo Hrun Htol) as H.
  cbv zeta in H.
  destruct (accepted w (Str.splitlines output)) as [|x rest] eqn:A.
  - simpl in Hlen. lia.
  - destruct H as (sorted & Hs & Hp & Hc & H).
    split.
    + eexists; exists sorted. split; [exact H|]. split; [|exact Hc].
      rewrite <- Hlen. symmetry. now apply Permutation_length.
    + eexists; exists sorted. split; [exact H|]. split.
      * intros c Hwf Hr Hin.
        pose proof (iso_strict_converts w c Hwf Hr) as Hx.
        eexists. split.
        -- eapply Permutation_in; [exact Hp|]. rewrite <- A.
           eapply accepted_in; [exact Hin | apply strict_line_not_blank | exact Hx].
        -- unfold instant. cbn [wall tz]. lia.
      * intros lines' Hperm. rewrite <- A in Hs.
        now apply (sort_order_independent w (Str.splitlines output)).
Qed.

Lemma C1_strict_lines_sorted_witness :
  let output := unlines ["2024-07-15T12:00:00Z"; "2023-03-01T08:30:00+01:00";
                         "2024-01-15T12:00:00-05:00"] in
  returns_sorted (demo_world output) "/repo" 3
  /\ exists t dates,
       get_commit_log (demo_world output) "/repo" = (t, Ok (Some dates))
       /\ (forall c, well_formed c -> representable c ->
                     In (iso_strict c) (Str.splitlines output) ->
                     exists x, In x dates /\ instant x = commit_instant c)
       /\ forall lines',
            Permutation (Str.splitlines output) lines' ->
            sort (accepted (demo_world output) lines') = Ok dates.
Proof.
  intros output.
  apply (C1_strict_lines_sorted (demo_world output) "/repo" output).
  - split; reflexivity.
  - reflexivity.
  - let l := eval vm_compute in (Str.splitlines output) in
    change (Str.splitlines output) with l.
    apply Forall_cons.
    { exists (mk_commit_date 2024 7 15 12 0 0 None).
      split; [vm_compute; intuition discriminate|].
      split; [vm_compute; intuition discriminate | reflexivity]. }
    apply Forall_cons.
    { exists (mk_commit_date 2023 3 1 8 30 0 (Some (false, 1, 0))).
      split; [vm_compute; intuition discriminate|].
      split; [vm_compute; intuition discriminate | reflexivity]. }
    apply Forall_cons.
    { exists (mk_commit_date 2024 1 15 12 0 0 (Some (true, 5, 0))).
      split; [vm_compute; intuition discriminate|].
      split; [vm_compute; intuition discriminate | reflexivity]. }
    apply Forall_nil.
  - vm_compute. lia.
Defined.




(** C3. A non-blank line that the parser refuses costs one warning, which
    quotes the line and the parser's error; the line adds no timestamp and
    the loop goes on with the remaining lines.  In particular, with one
    valid line and the line [not-a-date], in either order, the result is
    the one timestamp of the valid line, and exactly one parse warning is
    printed (in front of the report). *)
Theorem C3_malformed_line_skipped (w : World) :
  (forall l msg rest parsed_dates,
     blank l = false ->
     fromisoformat (Str.replace "Z" "+00:00" l) = Raise (ValueError msg) ->
     parse_lines w pacific (l :: rest) parsed_dates
     = (Print ("Warning: Could not parse date '" ++ l ++ "': " ++ msg)
          :: fst (parse_lines w pacific rest parsed_dates),
        snd (parse_lines w pacific rest parsed_dates)))
  /\ (forall repo_path output good,
        is_repository w repo_path ->
        run_process w (git_log_argv repo_path) = Exited 0 output ->
        yields_timestamp w good ->
        Str.splitlines output = [good; "not-a-date"]
        \/ Str.splitlines output = ["not-a-date"; good] ->
        exists t x,
          get_commit_log w repo_path = (t, Ok (Some [x]))
          /\ convert w pacific good = Ok x
          /\ stdout t
             = parse_warning "not-a-date" "Invalid isoformat string: 'not-a-date'"
               :: report repo_path [x]
          /\ List.length (filter is_parse_warning (stdout t)) = 1%nat).
Proof.
  split.
  - intros l msg rest acc Hb Hparse.
    rewrite parse_lines_cons, Hb, (convert_refused _ _ _ _ Hparse). reflexivity.
  - intros repo_path output good Hrepo Hrun [Hgb [x Hgood]] Hlines.
    destruct (not_a_date_refused w) as [Hnb Hbad].
    apply (convert_refused w pacific) in Hbad.
    assert (Htol : Forall (tolerated w) (Str.splitlines output)).
    { assert (Hg : tolerated w good) by (right; left; eauto).
      assert (Hn : tolerated w "not-a-date") by (right; right; eauto).
      destruct Hlines as [-> | ->];
        repeat (apply Forall_cons; [assumption|]); apply Forall_nil. }
    assert (Hacc : accepted w (Str.splitlines output) = [x]).
    { unfold accepted.
      destruct Hlines as [-> | ->]; cbn [flat_map];
        rewrite Hgb, Hnb, Hgood, Hbad; reflexivity. }
    assert (Hwarn : warnings w (Str.splitlines output)
                    = [parse_warning "not-a-date" "Invalid isoformat string: 'not-a-date'"]).
    { unfold warnings.
      destruct Hlines as [-> | ->]; cbn [flat_map];
        rewrite Hgb, Hnb, Hgood, Hbad; reflexivity. }
    pose proof (get_commit_log_tolerated _ _ _ Hrepo Hrun Htol) as H.
    cbv zeta in H. rewrite Hacc, Hwarn in H.
    destruct H as (sorted & _ & Hp & _ & H).
    apply Permutation_length_1_inv in Hp. subst sorted.
    eexists. exists x. split; [exact H|]. split; [exact Hgood|].
    assert (Hout : stdout ((path_checks repo_path
                     ++ Spawn (git_log_argv repo_path)
                        :: map Print
                             [parse_warning "not-a-date"
                                "Invalid isoformat string: 'not-a-date'"])
                    ++ map Print (report repo_path [x]))
                   = parse_warning "not-a-date" "Invalid isoformat string: 'not-a-date'"
                     :: report repo_path [x]).
    { rewrite stdout_app, stdout_prints. reflexivity. }
    rewrite Hout. split; [reflexivity|].
    change (filter is_parse_warning (?a :: ?l))
      with (if is_parse_warning a then a :: filter is_parse_warning l
            else filter is_parse_warning l).
    rewrite report_has_no_parse_warning. reflexivity.
Qed.

Lemma C3_malformed_line_skipped_witness :
  let good := "2024-01-15T12:00:00-05:00" in
  let output := unlines [good; "not-a-date"] in
  let w := demo_world output in
  parse_lines w pacific ["not-a-date"; good] []
  = (Print ("Warning: Could not parse date '" ++ "not-a-date" ++ "': "
            ++ "Invalid isoformat string: 'not-a-date'")
       :: fst (parse_lines w pacific [good] []),
     snd (parse_lines w pacific [good] []))
  /\ exists t x,
       get_commit_log w "/repo" = (t, Ok (Some [x]))
       /\ convert w pacific good = Ok x
       /\ stdout t
          = parse_warning "not-a-date" "Invalid isoformat string: 'not-a-date'"
            :: report "/repo" [x]
       /\ List.length (filter is_parse_warning (stdout t)) = 1%nat.
Proof.
  intros good output w. split.
  - apply (proj1 (C3_malformed_line_skipped w)).
    + vm_compute. reflexivity.
    + vm_compute. reflexivity.
  - apply (proj2 (C3_malformed_line_skipped w) "/repo" output good).
    + split; reflexivity.
    + reflexivity.
    + split; [vm_compute; reflexivity | eexists; vm_compute; reflexivity].
    + left. vm_compute. reflexivity.
Defined.

(** C4. Path validation.  For a path that does not exist the operation
    prints exactly one message, the not-found one, and returns "no data";
    for a path that exists but has no [.git] entry it prints exactly one
    message, the not-a-repository one, and returns "no data".  In both
    cases no subprocess is launched and the call returns normally. *)
Theorem C4_path_validation (w : World) (repo_path : string) :
  (fs_exists w repo_path = false ->
   exists t, get_commit_log w repo_path = (t, Ok None)
             /\ stdout t = [not_found_message repo_path]
             /\ spawned t = [])
  /\ (fs_exists w repo_path = true ->
      fs_exists w (os_path.join repo_path ".git") = false ->
      exists t, get_commit_log w repo_path = (t, Ok None)
                /\ stdout t = [not_a_repository_message repo_path]
                /\ spawned t = []).
Proof.
  split.
  - intros H. rewrite (get_commit_log_missing _ _ H).
    eexists. split; [reflexivity|]. split; reflexivity.
  - intros H1 H2. rewrite (get_commit_log_not_repository _ _ H1 H2).
    eexists. split; [reflexivity|]. split; reflexivity.
Qed.

Lemma C4_path_validation_witness :
  (exists t, get_commit_log (demo_world "") "/nowhere" = (t, Ok None)
             /\ stdout t = [not_found_message "/nowhere"]
             /\ spawned t = [])
  /\ (exists t, get_commit_log (demo_world "") "/repo/.git" = (t, Ok None)
                /\ stdout t = [not_a_repository_message "/repo/.git"]
                /\ spawned t = []).
Proof.
  split.
  - apply (proj1 (C4_path_validation (demo_world "") "/nowhere")). reflexivity.
  - apply (proj2 (C4_path_validation (demo_world "") "/repo/.git")); reflexivity.
Defined.

(** C5. When [git] exits with a non-zero status, the operation prints the
    tool-failure message, which carries the captured combined output of the
    subprocess, and returns "no data". *)
Theorem C5_tool_failure (w : World) (repo_path : string) (status : Z)
    (output : string) :
  is_repository w repo_path ->
  run_process w (git_log_argv repo_path) = Exited status output ->
  status <> 0 ->
  get_commit_log w repo_path
  = ((path_checks repo_path
      ++ [Spawn (git_log_argv repo_path);
          Print ("Error running git command: " ++ output)])%list,
     Ok None).
Proof.
  intros Hrepo Hrun Hstatus.
  apply (get_commit_log_handled w repo_path [Spawn (git_log_argv repo_path)]
           (CalledProcessError status output)); auto.
  apply get_commit_log_try_launch_failure. rewrite Hrun. simpl.
  destruct (Z.eqb_spec status 0); congruence.
Qed.

Lemma C5_tool_failure_witness :
  get_commit_log broken_git_world "/repo"
  = ((path_checks "/repo"
      ++ [Spawn (git_log_argv "/repo");
          Print ("Error running git command: " ++ "fatal: bad revision")])%list,
     Ok None).
Proof.
  apply (C5_tool_failure broken_git_world "/repo" 128 "fatal: bad revision").
  - split; reflexivity.
  - reflexivity.
  - discriminate.
Defined.

(** C6. When the loop ends with no timestamp recovered (no line at all,
    or none that parsed), the operation prints the parse warnings and then
    the empty-history warning, returns "no data", and prints nothing else:
    every printed text is a warning, so no header, commit line or count. *)
Theorem C6_empty_history (w : World) (repo_path output : string) :
  is_repository w repo_path ->
  run_process w (git_log_argv repo_path) = Exited 0 output ->
  snd (parse_lines w pacific (Str.splitlines output) []) = Ok [] ->
  exists t,
    get_commit_log w repo_path = (t, Ok None)
    /\ stdout t = (warnings w (Str.splitlines output)
                   ++ [no_dates_warning repo_path])%list
    /\ Forall (fun text => is_warning text = true) (stdout t).
Proof.
  intros Hrepo Hrun Hloop.
  destruct (parse_lines w pacific (Str.splitlines output) []) as [t0 r] eqn:P.
  simpl in Hloop. subst r.
  pose proof (parse_lines_returns _ _ _ _ _ P) as Htol.
  destruct (sort_parsed _ _ _ _ P) as (Hacc & _ & _).
  pose proof (get_commit_log_tolerated _ _ _ Hrepo Hrun Htol) as H.
  cbv zeta in H. rewrite <- Hacc in H.
  eexists. split; [exact H|].
  assert (Hout : stdout ((path_checks repo_path
                          ++ Spawn (git_log_argv repo_path)
                             :: map Print (warnings w (Str.splitlines output)))
                         ++ [Print (no_dates_warning repo_path)])
                 = (warnings w (Str.splitlines output)
                    ++ [no_dates_warning repo_path])%list).
  { rewrite stdout_app. simpl. now rewrite stdout_prints. }
  rewrite Hout. split; [reflexivity|].
  apply Forall_app. split.
  - eapply Forall_impl; [|apply warnings_shape].
    intros s (l & msg & ->). apply parse_warning_is_warning.
  - repeat constructor.
Qed.

Lemma C6_empty_history_witness :
  let output := unlines ["not-a-date"; ""; "2024-13-01T00:00:00Z"] in
  exists t,
    get_commit_log (demo_world output) "/repo" = (t, Ok None)
    /\ stdout t = (warnings (demo_world output) (Str.splitlines output)
                   ++ [no_dates_warning "/repo"])%list
    /\ Forall (fun text => is_warning text = true) (stdout t).
Proof.
  intros output.
  apply (C6_empty_history (demo_world output) "/repo" output).
  - split; reflexivity.
  - reflexivity.
  - vm_compute. reflexivity.
Defined.

(** C7. The entry point: with any number of arguments other than one
    ([sys.argv] of a length other than 2) it prints the usage text on
    standard output and exits with status 1, and nothing else happens, so
    the inspector, whose first act is a path query, was not called; with
    exactly one argument it calls the inspector on it and the process ends
    with status 0, whatever the inspector found. *)
Theorem C7_entry_point (w : World) (argv : list string) :
  (List.length argv <> 2%nat -> run_script w argv = ([Print usage], 1))
  /\ (forall prog repo_path,
        argv = [prog; repo_path] ->
        run_script w argv = (fst (get_commit_log w repo_path), 0))
  /\ (forall repo_path, exists rest,
        fst (get_commit_log w repo_path) = PathExists repo_path :: rest).
Proof.
  split; [|split].
  - intros H. unfold run_script, run_script_on, main_on.
    destruct (Nat.eqb_spec (List.length argv) 2); [contradiction|]. reflexivity.
  - intros prog repo_path ->. unfold run_script, run_script_on, main_on.
    change (get_commit_log_on accepting) with get_commit_log.
    cbn [List.length Nat.eqb negb nth].
    destruct (get_commit_log_total w repo_path) as (t & r & ->). simpl.
    now rewrite app_nil_r.
  - intros repo_path.
    destruct (is_repository_dec w repo_path) as [H|[[H1 H2]|H]].
    + rewrite (get_commit_log_missing _ _ H). simpl. eauto.
    + rewrite (get_commit_log_not_repository _ _ H1 H2). simpl. eauto.
    + rewrite (get_commit_log_repository _ _ H). simpl. eauto.
Qed.

Lemma C7_entry_point_witness :
  run_script (demo_world "") ["git_chron_job.py"] = ([Print usage], 1)
  /\ run_script (demo_world "") ["git_chron_job.py"; "/repo"; "extra"]
     = ([Print usage], 1)
  /\ run_script (demo_world "") ["git_chron_job.py"; "/repo"]
     = (fst (get_commit_log (demo_world "") "/repo"), 0).
Proof.
  split; [|split].
  - apply (proj1 (C7_entry_point (demo_world "") ["git_chron_job.py"])).
    simpl. lia.
  - apply (proj1 (C7_entry_point (demo_world "")
                    ["git_chron_job.py"; "/repo"; "extra"])).
    simpl. lia.
  - apply (proj1 (proj2 (C7_entry_point (demo_world "")
                           ["git_chron_job.py"; "/repo"]))
             "git_chron_job.py" "/repo").
    reflexivity.
Defined.

(** C8, as stated, fails in two ways.  The report as described, without
    the empty line that the program prints in front of the header, is not
    what reaches standard output.  And a commit line does not always show
    the year in four digits: the year of a timestamp before the year 1000
    is printed as it is, so that the line [0999-06-15T12:00:00+00:00] is
    reported with the date [999-06-15]. *)
Lemma C8_report_counterexample :
  (exists t dates,
     get_commit_log (demo_world "2024-01-15T12:00:00-05:00") "/repo"
     = (t, Ok (Some dates))
     /\ stdout t <> stated_report "/repo" dates
     /\ stdout_text (stdout t) <> stdout_text (stated_report "/repo" dates))
  /\ (exists t x,
        get_commit_log (demo_world "0999-06-15T12:00:00+00:00") "/repo"
        = (t, Ok (Some [x]))
        /\ In "Saturday, 999-06-15 04:07:00 LMT" (stdout t)
        /\ stated_line x = "Saturday, 0999-06-15 04:07:00 LMT"
        /\ ~ In (stated_line x) (stdout t)).
Proof.
  split.
  - eexists. eexists. split; [vm_compute; reflexivity|].
    split; intros H; vm_compute in H; discriminate H.
  - eexists. eexists. split; [vm_compute; reflexivity|].
    split; [vm_compute; tauto|].
    split; [vm_compute; reflexivity|].
    vm_compute. intuition discriminate.
Qed.

(** C8 (amended).  On success standard output holds the parse warnings,
    if any, and then the report, which is exactly: an empty line, the
    header line naming the path, a rule of 60 dashes, one line per
    timestamp in the returned order, written as full weekday name, comma,
    date, time and zone abbreviation, the rule again, and the count of the
    timestamps.  The date is year, month and day, the year written as a
    plain number: with four digits, as YYYY-MM-DD, for every timestamp from
    the year 1000 on. *)
Theorem C8_report_format (w : World) (repo_path : string) (t : list event)
    (dates : list datetime) :
  get_commit_log w repo_path = (t, Ok (Some dates)) ->
  (exists ws, Forall (fun text => is_parse_warning text = true) ws
              /\ stdout t = (ws ++ report repo_path dates)%list)
  /\ stdout_text (report repo_path dates)
     = newline ++ stdout_text
                    (("Commit dates and times (PST) for repository at '"
                      ++ repo_path ++ "':")
                     :: rule
                     :: List.app (map formatted dates)
                          [rule; "Total commits: " ++ Str.of_nat (List.length dates)])
  /\ rule = "------------------------------------------------------------"
  /\ Forall (fun x => In (nth (Z.to_nat (weekday x)) DAY_NAMES "") DAY_NAMES
                      /\ In (abbreviation x) (map tzname pacific_rules)
                      /\ 1 <= year x <= 9999
                      /\ (1000 <= year x -> formatted x = stated_line x)) dates.
Proof.
  intros H.
  destruct (get_commit_log_some _ _ _ _ H)
    as (output & _ & _ & _ & _ & _ & Hp & _ & ->).
  split; [|split; [|split]].
  - exists (warnings w (Str.splitlines output)). split.
    + eapply Forall_impl; [|apply warnings_shape].
      intros s (l & msg & ->). apply parse_warning_is_warning.
    + rewrite stdout_app.
      change (stdout (path_checks repo_path)) with (@nil string).
      change (stdout (Spawn ?a :: ?l)) with (stdout l).
      now rewrite stdout_app, !stdout_prints.
  - rewrite stdout_text_report. unfold report_header.
    do 5 f_equal. apply map_ext. apply report_line_formatted.
  - apply rule_is_60_dashes.
  - eapply Permutation_Forall; [exact Hp|].
    apply Forall_forall. intros x Hx. split; [apply weekday_name|].
    apply accepted_converted in Hx as (l & _ & _ & Hx).
    assert (Hwall : 0 <= wall x < MAX_WALL).
    { unfold convert in Hx.
      destruct (fromisoformat _) as [y|e]; simpl in Hx; [|discriminate].
      now apply astimezone_ok in Hx as (off & _ & _ & _ & _ & Hr). }
    apply convert_ok in Hx as (_ & _ & Htz & _).
    pose proof (year_in_calendar x Hwall) as Hy.
    split; [|split; [exact Hy|]].
    + unfold abbreviation. rewrite Htz. apply in_map, in_force_pacific.
    + intros H1000. rewrite <- report_line_formatted.
      apply report_line_stated. lia.
Qed.

Lemma C8_report_format_witness :
  let dates := [mk_datetime (Pytz.d 2024 1 15 9 0 0) (Some Pytz.PST)] in
  let t := (path_checks "/repo" ++ Spawn (git_log_argv "/repo")
            :: map Print (report "/repo" dates))%list in
  get_commit_log (demo_world "2024-01-15T12:00:00-05:00") "/repo"
  = (t, Ok (Some dates))
  /\ stdout t = report "/repo" dates
  /\ stdout_text (report "/repo" dates)
     = newline ++ stdout_text
                    (("Commit dates and times (PST) for repository at '"
                      ++ "/repo" ++ "':")
                     :: rule
                     :: List.app (map formatted dates)
                          [rule; "Total commits: " ++ Str.of_nat (List.length dates)])
  /\ map formatted dates = ["Monday, 2024-01-15 09:00:00 PST"]
  /\ map stated_line dates = ["Monday, 2024-01-15 09:00:00 PST"].
Proof.
  intros dates t.
  assert (H : get_commit_log (demo_world "2024-01-15T12:00:00-05:00") "/repo"
              = (t, Ok (Some dates))) by (vm_compute; reflexivity).
  split; [exact H|].
  split; [vm_compute; reflexivity|].
  split; [|split; vm_compute; reflexivity].
  exact (proj1 (proj2 (C8_report_format _ _ _ _ H))).
Defined.

(** On a standard output that can encode every text, no exception
    leaves the operation.  Every call returns normally; whenever the body
    of the [try] raises, on a failed tool or on anything else, the handlers
    print one message for it and the call returns "no data"; and every
    "no data" result comes with a printed diagnostic as its last output.
    The entry point itself ends either normally or with the exit request
    of the usage error. *)
Lemma no_exception_on_accepting_stdout (w : World) (repo_path : string) :
  (exists t r, get_commit_log w repo_path = (t, Ok r))
  /\ (forall t e,
        is_repository w repo_path ->
        get_commit_log_try w repo_path = (t, Raise e) ->
        exists text,
          failure_message e = Some text
          /\ get_commit_log w repo_path
             = ((path_checks repo_path ++ t ++ [Print text])%list, Ok None))
  /\ (forall t,
        get_commit_log w repo_path = (t, Ok None) ->
        exists before text,
          stdout t = (before ++ [text])%list /\ diagnostic repo_path text)
  /\ (forall argv, exists t,
        main w argv = (t, Ok tt) \/ main w argv = (t, Raise (SystemExit 1))).
Proof.
  split; [apply get_commit_log_total|].
  split.
  { intros t e Hrepo Htry.
    destruct (get_commit_log_try_raises _ _ _ _ Htry) as [text Hm].
    exists text. split; [exact Hm|].
    now apply get_commit_log_handled with (e := e). }
  split; [apply get_commit_log_none|].
  intros argv. unfold main, main_on.
  change (get_commit_log_on accepting) with get_commit_log.
  destruct (List.length argv =? 2)%nat; simpl negb; cbv iota.
  - destruct (get_commit_log_total w (nth 1 argv "")) as (t & r & ->).
    exists (t ++ [])%list. left. reflexivity.
  - exists [Print usage]. right. reflexivity.
Qed.

(** C9 does not hold of the program.  The messages of the two path checks
    are printed outside the [try], and the messages of the handlers are
    printed by the handlers themselves: when standard output cannot encode
    such a message, [print] raises [UnicodeEncodeError] where nothing
    catches it.  For a path that does not exist, or is not a repository,
    and whose message cannot be encoded, the exception leaves
    [get_commit_log] and [main], nothing is printed, and the process ends
    with status 1.  Likewise an exception raised in the [try] leaves the
    operation when the message the handler prints for it cannot be
    encoded. *)
Theorem C9_print_failure_escapes (out : Stdout) (w : World)
    (repo_path msg : string) :
  (fs_exists w repo_path = false ->
   out (not_found_message repo_path) = Some msg ->
   get_commit_log_on out w repo_path
   = ([PathExists repo_path], Raise (ValueError msg))
   /\ forall prog,
        run_script_on out w [prog; repo_path] = ([PathExists repo_path], 1))
  /\ (fs_exists w repo_path = true ->
      fs_exists w (os_path.join repo_path ".git") = false ->
      out (not_a_repository_message repo_path) = Some msg ->
      get_commit_log_on out w repo_path
      = (path_checks repo_path, Raise (ValueError msg))
      /\ forall prog,
           run_script_on out w [prog; repo_path] = (path_checks repo_path, 1))
  /\ (forall t e text,
        is_repository w repo_path ->
        get_commit_log_try_on out w repo_path = (t, Raise e) ->
        failure_message e = Some text ->
        out text = Some msg ->
        get_commit_log_on out w repo_path
        = ((path_checks repo_path ++ t)%list, Raise (ValueError msg))).
Proof.
  split; [|split].
  - intros Hfs Hout.
    assert (H : get_commit_log_on out w repo_path
                = ([PathExists repo_path], Raise (ValueError msg))).
    { unfold get_commit_log_on, os_path.exists_.
      rewrite bind_ok, Hfs. cbv beta iota delta [negb].
      unfold print. fold (not_found_message repo_path). rewrite Hout.
      reflexivity. }
    split; [exact H|].
    intros prog. unfold run_script_on, main_on.
    cbn [List.length Nat.eqb negb nth]. cbv zeta. now rewrite H.
  - intros Hfs Hgit Hout.
    assert (H : get_commit_log_on out w repo_path
                = (path_checks repo_path, Raise (ValueError msg))).
    { unfold get_commit_log_on, os_path.exists_.
      rewrite bind_ok, Hfs. cbv beta iota delta [negb].
      rewrite bind_ok, Hgit. cbv beta iota delta [negb].
      unfold print. fold (not_a_repository_message repo_path). rewrite Hout.
      reflexivity. }
    split; [exact H|].
    intros prog. unfold run_script_on, main_on.
    cbn [List.length Nat.eqb negb nth]. cbv zeta. now rewrite H.
  - intros t e text Hrepo Htry Hmsg Hout.
    rewrite (get_commit_log_on_repository _ _ _ Hrepo), Htry.
    unfold try_catch. rewrite (handler_print_failure _ _ _ _ Hmsg Hout).
    cbn [fst snd]. now rewrite app_nil_r.
Qed.

Lemma C9_print_failure_escapes_witness :
  let msg := "'ascii' codec can't encode character '\xe9' in position 17: ordinal not in range(128)" in
  (get_commit_log_on ascii_stdout (demo_world "") accented_path
   = ([PathExists accented_path], Raise (ValueError msg))
   /\ forall prog,
        run_script_on ascii_stdout (demo_world "") [prog; accented_path]
        = ([PathExists accented_path], 1))
  /\ stdout [PathExists accented_path] = [].
Proof.
  intros msg. split; [|reflexivity].
  apply (proj1 (C9_print_failure_escapes ascii_stdout (demo_world "")
                  accented_path msg)).
  - vm_compute. reflexivity.
  - vm_compute. reflexivity.
Defined.

(** C10. The operation never returns an empty list: its result is either
    "no data" or a list with at least one timestamp. *)
Theorem C10_never_empty_list (w : World) (repo_path : string) :
  exists t,
    get_commit_log w repo_path = (t, Ok None)
    \/ exists x rest, get_commit_log w repo_path = (t, Ok (Some (x :: rest))).
Proof.
  destruct (get_commit_log_total w repo_path) as (t & [dates|] & H).
  - exists t. right.
    destruct (get_commit_log_some _ _ _ _ H) as (output & _ & _ & _ & Hne & _ & Hp & _).
    destruct dates as [|x rest]; [|eauto].
    apply Permutation_sym, Permutation_nil in Hp. contradiction.
  - exists t. now left.
Qed.

(** * Further properties of the program *)

(** ** The loop *)

Lemma bind_ret_l {A B} (a : A) (k : A -> M B) : bind (ret a) k = k a.
Proof. unfold ret. simpl. now destruct (k a). Qed.

Lemma parse_lines_app (w : World) (pst : Pytz.DstTzInfo)
    (lines1 lines2 : list string) (parsed_dates : list datetime) :
  parse_lines w pst (lines1 ++ lines2) parsed_dates
  = (parsed <- parse_lines w pst lines1 parsed_dates ;;
     parse_lines w pst lines2 parsed).
Proof.
  revert parsed_dates.
  induction lines1 as [|l rest IH]; intros acc.
  - change (parse_lines w pst [] acc) with (@ret (list datetime) acc).
    now rewrite bind_ret_l.
  - change ((l :: rest) ++ lines2)%list with (l :: (rest ++ lines2))%list.
    rewrite !parse_lines_cons.
    destruct (blank l); [apply IH|].
    destruct (convert w pst l) as [x|e]; [apply IH|].
    destruct e; try reflexivity.
    rewrite IH.
    destruct (parse_lines w pst rest acc) as [t [a|e]]; simpl.
    + now destruct (parse_lines w pst lines2 a).
    + reflexivity.
Qed.

(** X2. Blank lines count for nothing: the loop does exactly the same,
    prints and result, on the lines with the blank ones taken out. *)
Theorem X2_blank_lines_ignored (w : World) (pst : Pytz.DstTzInfo)
    (lines : list string) (parsed_dates : list datetime) :
  parse_lines w pst (filter nonblank lines) parsed_dates
  = parse_lines w pst lines parsed_dates.
Proof.
  revert parsed_dates. unfold nonblank.
  induction lines as [|l rest IH]; intros acc; [reflexivity|].
  simpl filter. rewrite (parse_lines_cons w pst l rest).
  destruct (blank l) eqn:B; simpl negb; cbv iota; [apply IH|].
  rewrite parse_lines_cons, B.
  destruct (convert w pst l) as [x|e]; [apply IH|].
  destruct e; try reflexivity. now rewrite IH.
Qed.

(** ** Conversions that do not fit the calendar *)

(** X3. A line that parses but whose conversion overflows ends the whole
    operation: after the warnings for the lines before it, the only other
    print is the generic error, the result is "no data", and neither the
    lines after it nor the timestamps already collected are reported. *)
Theorem X3_overflow_aborts (w : World) (repo_path output : string)
    (before after : list string) (l msg : string) :
  is_repository w repo_path ->
  run_process w (git_log_argv repo_path) = Exited 0 output ->
  Str.splitlines output = (before ++ l :: after)%list ->
  Forall (tolerated w) before ->
  blank l = false ->
  convert w pacific l = Raise (OverflowError msg) ->
  get_commit_log w repo_path
  = ((path_checks repo_path
      ++ Spawn (git_log_argv repo_path)
         :: map Print (warnings w before)
      ++ [Print ("Unexpected error: " ++ msg)])%list,
     Ok None).
Proof.
  intros Hrepo Hrun Hlines Hbefore Hb Hconv.
  apply (get_commit_log_handled w repo_path
           (Spawn (git_log_argv repo_path) :: map Print (warnings w before))
           (OverflowError msg)); [exact Hrepo| |reflexivity].
  rewrite (get_commit_log_try_exit0 _ _ _ Hrun), Hlines.
  rewrite parse_lines_app, (parse_lines_tolerated _ _ _ Hbefore).
  rewrite bind_ok. rewrite parse_lines_cons, Hb, Hconv. simpl.
  now rewrite app_nil_r.
Qed.

Lemma X3_overflow_aborts_witness :
  let output := unlines ["2024-01-15T12:00:00-05:00"; "not-a-date";
                         "9999-12-31T23:59:59-12:00"; "2024-07-15T12:00:00Z"] in
  let w := demo_world output in
  get_commit_log w "/repo"
  = ((path_checks "/repo"
      ++ Spawn (git_log_argv "/repo")
         :: map Print (warnings w ["2024-01-15T12:00:00-05:00"; "not-a-date"])
      ++ [Print ("Unexpected error: " ++ "date value out of range")])%list,
     Ok None).
Proof.
  intros output w.
  apply (X3_overflow_aborts w "/repo" output
           ["2024-01-15T12:00:00-05:00"; "not-a-date"]
           ["2024-07-15T12:00:00Z"] "9999-12-31T23:59:59-12:00").
  - split; reflexivity.
  - reflexivity.
  - vm_compute. reflexivity.
  - apply Forall_cons; [right; left; eexists; vm_compute; reflexivity|].
    apply Forall_cons; [right; right; eexists; vm_compute; reflexivity|].
    apply Forall_nil.
  - vm_compute. reflexivity.
  - vm_compute. reflexivity.
Defined.

(** X4. The conversion of a line with an offset overflows exactly when
    its UTC instant lies past the end of year 9999 or its Pacific wall
    clock would fall before year 1; every other such line converts. *)
Theorem X4_overflow_exactly (w : World) (l : string) (x : datetime) (t : tzinfo) :
  fromisoformat (Str.replace "Z" "+00:00" l) = Ok x ->
  tz x = Some t ->
  let u := wall x - utcoffset t in
  (MAX_WALL <= u \/ u + utcoffset (in_force pacific u) < 0 ->
   convert w pacific l = Raise (OverflowError "date value out of range"))
  /\ (u < MAX_WALL -> 0 <= u + utcoffset (in_force pacific u) ->
      convert w pacific l
      = Ok (mk_datetime (u + utcoffset (in_force pacific u))
                        (Some (in_force pacific u)))).
Proof.
  intros Hparse Htz u.
  pose proof (pacific_offset_bounds u) as Hp.
  unfold convert. rewrite Hparse. simpl result_bind. split.
  - intros Hout. unfold astimezone. rewrite Htz. simpl result_bind.
    unfold add_timedelta at 1. fold (wall x - utcoffset t). fold u.
    destruct (Z.leb_spec 0 u) as [H0|H0]; [|reflexivity].
    destruct (Z.ltb_spec u MAX_WALL) as [H1|H1]; [|reflexivity].
    simpl result_bind. unfold Pytz.fromutc. cbn [replace_tzinfo wall tz].
    change (nth _ (Pytz.transition_info pacific) utc) with (in_force pacific u).
    unfold add_timedelta. cbn [replace_tzinfo wall tz].
    destruct (Z.leb_spec 0 (u + utcoffset (in_force pacific u))) as [H2|H2];
      [lia | reflexivity].
  - intros H1 H2. apply (astimezone_in_range w pacific x t Htz); fold u; lia.
Qed.

Lemma X4_overflow_exactly_witness :
  convert (demo_world "") pacific "9999-12-31T23:59:59-12:00"
  = Raise (OverflowError "date value out of range")
  /\ convert (demo_world "") pacific "0001-01-01T00:00:00+00:00"
     = Raise (OverflowError "date value out of range")
  /\ convert (demo_world "") pacific "9999-12-31T23:59:59Z"
     = Ok (mk_datetime (Pytz.d 9999 12 31 15 59 59) (Some Pytz.PST)).
Proof.
  split; [|split].
  - apply (proj1 (X4_overflow_exactly (demo_world "") "9999-12-31T23:59:59-12:00"
                    (mk_datetime (Pytz.d 9999 12 31 23 59 59)
                                 (Some (mk_tzinfo (-12 * 3600 * US_PER_SECOND) 0 "UTC-12:00")))
                    _ eq_refl eq_refl)).
    left. vm_compute. discriminate.
  - apply (proj1 (X4_overflow_exactly (demo_world "") "0001-01-01T00:00:00+00:00"
                    (mk_datetime (Pytz.d 1 1 1 0 0 0) (Some utc))
                    _ eq_refl eq_refl)).
    right. vm_compute. reflexivity.
  - apply (proj2 (X4_overflow_exactly (demo_world "") "9999-12-31T23:59:59Z"
                    (mk_datetime (Pytz.d 9999 12 31 23 59 59) (Some utc))
                    _ eq_refl eq_refl)).
    + vm_compute. reflexivity.
    + vm_compute. discriminate.
Defined.

(** ** A [git] that cannot be run *)

(** X5. When [git] cannot be started, or its output cannot be decoded,
    the operation prints the generic error with the reason and returns
    "no data".  A [ValueError] from the subprocess call is not taken for a
    parse failure: no parse warning is printed for it. *)
Theorem X5_launch_failure (w : World) (repo_path msg : string) :
  is_repository w repo_path ->
  run_process w (git_log_argv repo_path) = LaunchError msg
  \/ run_process w (git_log_argv repo_path) = DecodeError msg ->
  get_commit_log w repo_path
  = ((path_checks repo_path
      ++ [Spawn (git_log_argv repo_path);
          Print ("Unexpected error: " ++ msg)])%list,
     Ok None).
Proof.
  intros Hrepo [Hrun|Hrun].
  - apply (get_commit_log_handled w repo_path [Spawn (git_log_argv repo_path)]
             (OSError msg)); [exact Hrepo| |reflexivity].
    apply get_commit_log_try_launch_failure. now rewrite Hrun.
  - apply (get_commit_log_handled w repo_path [Spawn (git_log_argv repo_path)]
             (ValueError msg)); [exact Hrepo| |reflexivity].
    apply get_commit_log_try_launch_failure. now rewrite Hrun.
Qed.

Lemma X5_launch_failure_witness :
  get_commit_log no_git_world "/repo"
  = ((path_checks "/repo"
      ++ [Spawn (git_log_argv "/repo");
          Print ("Unexpected error: "
                 ++ "[Errno 2] No such file or directory: 'git'")])%list,
     Ok None).
Proof.
  apply (X5_launch_failure no_git_world "/repo").
  - split; reflexivity.
  - left. reflexivity.
Defined.

(** ** Every line is accounted for *)

Lemma lines_accounted (w : World) (lines : list string) :
  Forall (tolerated w) lines ->
  List.length lines
  = (List.length (accepted w lines) + List.length (warnings w lines)
     + List.length (filter blank lines))%nat.
Proof.
  unfold accepted, warnings.
  induction 1 as [|l rest Hl Hrest IH]; [reflexivity|].
  cbn [flat_map filter List.length]. rewrite !length_app.
  destruct (blank l) eqn:B; cbn [List.length].
  - lia.
  - destruct Hl as [Hb|[[x Hx]|[msg Hm]]]; [congruence| |].
    + rewrite Hx. cbn [List.length]. lia.
    + rewrite Hm. cbn [List.length]. lia.
Qed.

Lemma filter_parse_warnings (w : World) (lines : list string) :
  filter is_parse_warning (warnings w lines) = warnings w lines.
Proof.
  pose proof (warnings_shape w lines) as H.
  induction H as [|s ws (l & msg & ->) Hws IH]; [reflexivity|].
  cbn [filter].
  rewrite (proj2 (parse_warning_is_warning l msg)). now rewrite IH.
Qed.

Lemma filter_app_parse_warning (a b : list string) :
  filter is_parse_warning (a ++ b)
  = (filter is_parse_warning a ++ filter is_parse_warning b)%list.
Proof. apply filter_app. Qed.

Lemma stdout_success (repo_path : string) (argv : list string)
    (ws printed : list string) :
  stdout (path_checks repo_path ++ Spawn argv :: map Print ws ++ map Print printed)
  = (ws ++ printed)%list.
Proof.
  rewrite stdout_app.
  change (stdout (path_checks repo_path)) with (@nil string).
  change (stdout (Spawn argv :: ?l)) with (stdout l).
  now rewrite stdout_app, !stdout_prints.
Qed.

(** X6. On success no output line is lost: the number of lines [git]
    printed is the number of timestamps returned, plus the number of parse
    warnings printed, plus the number of blank lines. *)
Theorem X6_lines_accounted (w : World) (repo_path : string) (t : list event)
    (dates : list datetime) :
  get_commit_log w repo_path = (t, Ok (Some dates)) ->
  exists output,
    run_process w (git_log_argv repo_path) = Exited 0 output
    /\ List.length (Str.splitlines output)
       = (List.length dates
          + List.length (filter is_parse_warning (stdout t))
          + List.length (filter blank (Str.splitlines output)))%nat.
Proof.
  intros H.
  destruct (get_commit_log_some _ _ _ _ H)
    as (output & _ & Hrun & Htol & _ & _ & Hp & _ & ->).
  exists output. split; [exact Hrun|].
  rewrite stdout_success, filter_app_parse_warning, filter_parse_warnings,
    report_has_no_parse_warning, app_nil_r.
  rewrite <- (Permutation_length Hp).
  now apply lines_accounted.
Qed.

Lemma X6_lines_accounted_witness :
  let output := unlines ["2024-07-15T12:00:00Z"; ""; "not-a-date";
                         "2024-01-15T12:00:00-05:00"; "2024-02-30T00:00:00Z"] in
  exists t dates,
    get_commit_log (demo_world output) "/repo" = (t, Ok (Some dates))
    /\ List.length dates = 2%nat
    /\ List.length (filter is_parse_warning (stdout t)) = 2%nat
    /\ exists output',
         run_process (demo_world output) (git_log_argv "/repo") = Exited 0 output'
         /\ List.length (Str.splitlines output')
            = (List.length dates
               + List.length (filter is_parse_warning (stdout t))
               + List.length (filter blank (Str.splitlines output')))%nat.
Proof.
  intros output.
  assert (H : exists t dates,
             get_commit_log (demo_world output) "/repo" = (t, Ok (Some dates))
             /\ List.length dates = 2%nat
             /\ List.length (filter is_parse_warning (stdout t)) = 2%nat).
  { eexists. eexists. split; [vm_compute; reflexivity|].
    split; vm_compute; reflexivity. }
  destruct H as (t & dates & H & H1 & H2).
  exists t, dates. split; [exact H|]. split; [exact H1|]. split; [exact H2|].
  exact (X6_lines_accounted (demo_world output) "/repo" t dates H).
Defined.

(** ** Subprocesses *)

Lemma spawned_try (w : World) (repo_path : string) :
  spawned (fst (try_catch (get_commit_log_try w repo_path) get_commit_log_except))
  = [git_log_argv repo_path].
Proof.
  pose proof (get_commit_log_try_outcome w repo_path) as O.
  destruct (get_commit_log_try w repo_path) as [t [r|e]] eqn:T.
  - change (spawned t = [git_log_argv repo_path]).
    inversion O as [| |output Hrun Htol Hacc|output sorted Hrun Htol Hne Hs Hp Hc];
      subst;
      change (spawned (Spawn ?a :: ?l)) with (a :: spawned l);
      rewrite spawned_app, ?spawned_prints; cbn [spawned app];
      rewrite ?spawned_prints; reflexivity.
  - destruct (get_commit_log_try_raises _ _ _ _ T) as [text Hm].
    assert (Hh : get_commit_log_except e = ([Print text], Ok None)).
    { destruct e; simpl in Hm; try discriminate; injection Hm as <-; reflexivity. }
    change (spawned (t ++ fst (get_commit_log_except e))%list
            = [git_log_argv repo_path]) || (simpl; idtac).
    rewrite Hh. simpl fst. rewrite spawned_app.
    inversion O as [e' L|output e' ws Hrun Hws He| |]; subst;
      change (spawned (Spawn ?a :: ?l)) with (a :: spawned l).
    + reflexivity.
    + now rewrite spawned_prints.
Qed.

(** X7. The operation launches [git] exactly once, as
    [git -C <path> log --pretty=format:%cd --date=iso-strict], when both
    path checks pass, whatever happens afterwards, and launches nothing
    otherwise. *)
Theorem X7_one_subprocess (w : World) (repo_path : string) :
  spawned (fst (get_commit_log w repo_path))
  = if fs_exists w repo_path && fs_exists w (os_path.join repo_path ".git")
    then [["git"; "-C"; repo_path; "log"; "--pretty=format:%cd";
           "--date=iso-strict"]]
    else [].
Proof.
  destruct (is_repository_dec w repo_path) as [H|[[H1 H2]|H]].
  - rewrite (get_commit_log_missing _ _ H), H. reflexivity.
  - rewrite (get_commit_log_not_repository _ _ H1 H2), H1, H2. reflexivity.
  - rewrite (get_commit_log_repository _ _ H).
    destruct H as [H1 H2]. rewrite H1, H2.
    cbn [fst path_checks app spawned andb]. apply spawned_try.
Qed.

(** ** No report without data *)

Lemma diagnostic_is_diagnostic_text (repo_path text : string) :
  diagnostic repo_path text -> is_diagnostic_text text = true.
Proof.
  unfold is_diagnostic_text.
  intros [->|[->|[[output ->]|[->|[msg ->]]]]]; try reflexivity.
  rewrite (prefix_app "Unexpected error: " msg). now rewrite !orb_true_r.
Qed.

Lemma prefix_weaken (a b s : string) :
  String.prefix (a ++ b) s = true -> String.prefix a s = true.
Proof.
  revert s. induction a as [|c a IH]; intros s.
  - intros _. now destruct s.
  - intros H. destruct s as [|c' s]; [discriminate H|].
    change ((if ascii_dec c c' then String.prefix (a ++ b) s else false) = true) in H.
    change ((if ascii_dec c c' then String.prefix a s else false) = true).
    destruct (ascii_dec c c'); [now apply IH | discriminate H].
Qed.

Lemma parse_warning_is_diagnostic_text (text : string) :
  is_parse_warning text = true -> is_diagnostic_text text = true.
Proof.
  unfold is_parse_warning, is_diagnostic_text. intros H.
  now rewrite (prefix_weaken "Warning: " "Could not parse date '" text H).
Qed.

Lemma report_text_not_diagnostic (repo_path text : string) :
  report_text repo_path text -> is_diagnostic_text text = false.
Proof.
  intros [->|[->|[[x ->]|[n ->]]]]; try reflexivity.
  rewrite report_line_formatted. unfold formatted.
  pose proof (weekday_name x) as H.
  destruct H as [<-|[<-|[<-|[<-|[<-|[<-|[<-|[]]]]]]]]; reflexivity.
Qed.

(** A "no data" call, taken apart with the shape of all it printed. *)
Lemma get_commit_log_none_prints (w : World) (repo_path : string)
    (t : list event) :
  get_commit_log w repo_path = (t, Ok None) ->
  exists ws text,
    stdout t = (ws ++ [text])%list
    /\ Forall (fun s => is_parse_warning s = true) ws
    /\ diagnostic repo_path text.
Proof.
  unfold diagnostic.
  destruct (is_repository_dec w repo_path) as [H|[[H1 H2]|H]].
  - rewrite (get_commit_log_missing _ _ H). intros [= <-].
    exists [], (not_found_message repo_path).
    split; [reflexivity|]. split; [constructor | now left].
  - rewrite (get_commit_log_not_repository _ _ H1 H2). intros [= <-].
    exists [], (not_a_repository_message repo_path).
    split; [reflexivity|]. split; [constructor | right; now left].
  - pose proof (get_commit_log_try_outcome w repo_path) as O.
    destruct (get_commit_log_try w repo_path) as [t' [r|e]] eqn:T.
    + rewrite (get_commit_log_returned _ _ _ _ H T). intros [= <- ->].
      inversion O as [| |output Hrun Htol Hacc|]; subst.
      exists (warnings w (Str.splitlines output)), (no_dates_warning repo_path).
      split; [|split; [|do 3 right; now left]].
      * simpl. now rewrite stdout_app, stdout_prints.
      * eapply Forall_impl; [|apply warnings_shape].
        intros s (l & msg & ->). apply parse_warning_is_warning.
    + destruct (get_commit_log_try_raises _ _ _ _ T) as [text Hm].
      rewrite (get_commit_log_handled _ _ _ _ _ H T Hm). intros [= <-].
      assert (Hd : (exists output, text = "Error running git command: " ++ output)
                   \/ (exists msg, text = "Unexpected error: " ++ msg)).
      { destruct e; simpl in Hm; try discriminate; injection Hm as <-;
          [left; eexists; reflexivity | right; eexists; reflexivity ..]. }
      inversion O as [e' L|output e' ws Hrun Hws He| |]; subst.
      * exists [], text. split; [reflexivity|]. split; [constructor|].
        destruct Hd as [Hd|Hd]; [right; right; now left | do 4 right; exact Hd].
      * exists ws, text. split; [|split].
        -- simpl. now rewrite stdout_app, stdout_prints.
        -- eapply Forall_impl; [|exact Hws].
           intros s (l & m & _ & ->). apply parse_warning_is_warning.
        -- destruct Hd as [Hd|Hd]; [right; right; now left | do 4 right; exact Hd].
Qed.

(** X8. There is never a partial report.  When the operation returns
    "no data", whatever the reason, all it printed is parse warnings and
    then one final diagnostic; no header, rule, commit line or count line
    is among the printed texts. *)
Theorem X8_no_partial_report (w : World) (repo_path : string) (t : list event) :
  get_commit_log w repo_path = (t, Ok None) ->
  (exists ws text,
     stdout t = (ws ++ [text])%list
     /\ Forall (fun s => is_parse_warning s = true) ws
     /\ diagnostic repo_path text)
  /\ forall text, In text (stdout t) -> ~ report_text repo_path text.
Proof.
  intros H.
  destruct (get_commit_log_none_prints _ _ _ H) as (ws & text & Hout & Hws & Hd).
  split; [eauto|].
  intros s Hin Hrep. apply report_text_not_diagnostic in Hrep.
  rewrite Hout in Hin. apply in_app_or in Hin as [Hin|[<-|[]]].
  - rewrite Forall_forall in Hws.
    apply Hws, parse_warning_is_diagnostic_text in Hin. congruence.
  - apply diagnostic_is_diagnostic_text in Hd. congruence.
Qed.

Lemma X8_no_partial_report_witness :
  let output := unlines ["2024-01-15T12:00:00-05:00"; "not-a-date";
                         "9999-12-31T23:59:59-12:00"; "2024-07-15T12:00:00Z"] in
  let t := (path_checks "/repo" ++ Spawn (git_log_argv "/repo")
            :: [Print (parse_warning "not-a-date"
                         "Invalid isoformat string: 'not-a-date'");
                Print "Unexpected error: date value out of range"])%list in
  get_commit_log (demo_world output) "/repo" = (t, Ok None)
  /\ forall text, In text (stdout t) -> ~ report_text "/repo" text.
Proof.
  intros output t.
  assert (H : get_commit_log (demo_world output) "/repo" = (t, Ok None))
    by (vm_compute; reflexivity).
  split; [exact H|].
  exact (proj2 (X8_no_partial_report (demo_world output) "/repo" t H)).
Defined.

(** ** The instant of a line *)

(** X9. Conversion keeps the instant.  When a line parses, the UTC instant
    of the timestamp made from it is the parsed wall-clock time minus the
    offset written in the line; for a line that has no offset it is the
    wall-clock time minus the local offset of the machine, so that the
    result depends on where the program runs. *)
Theorem X9_instant_preserved (w : World) (l : string) (x r : datetime) :
  fromisoformat (Str.replace "Z" "+00:00" l) = Ok x ->
  convert w pacific l = Ok r ->
  exists off,
    match tz x with
    | Some t => off = utcoffset t
    | None => local_offset w (wall x) = Some off
    end
    /\ instant r = wall x - off.
Proof.
  intros Hparse Hconv. unfold convert in Hconv. rewrite Hparse in Hconv.
  simpl in Hconv.
  apply astimezone_ok in Hconv as (off & Hoff & Htz & Hw & _).
  exists off. unfold source_offset in Hoff. split.
  - destruct (tz x) as [t|]; [now injection Hoff as <- | exact Hoff].
  - unfold instant. rewrite Htz. lia.
Qed.

Lemma X9_instant_preserved_witness :
  let utc_machine := demo_world "" in
  let tokyo_machine :=
    mk_world (fs_exists utc_machine) (run_process utc_machine)
             (fun _ => Some (9 * 3600 * US_PER_SECOND))
             (local_failure utc_machine) in
  let l := "2024-01-15T12:00:00" in
  let x := mk_datetime (Pytz.d 2024 1 15 12 0 0) None in
  (exists off, local_offset utc_machine (wall x) = Some off
     /\ instant (mk_datetime (Pytz.d 2024 1 15 4 0 0) (Some Pytz.PST))
        = wall x - off)
  /\ (exists off, local_offset tokyo_machine (wall x) = Some off
        /\ instant (mk_datetime (Pytz.d 2024 1 14 19 0 0) (Some Pytz.PST))
           = wall x - off).
Proof.
  intros utc_machine tokyo_machine l x. split.
  - apply (X9_instant_preserved utc_machine l x); vm_compute; reflexivity.
  - apply (X9_instant_preserved tokyo_machine l x); vm_compute; reflexivity.
Defined.

(** X10. Every line in the format [git log --date=iso-strict] writes
    ([YYYY-MM-DDTHH:MM:SS] followed by [Z] or [+HH:MM] or [-HH:MM]), with
    its fields in range and a year from 2 to 9998, is taken by the loop as a
    timestamp, without a warning, and the instant of that timestamp is the
    one the line denotes ([Z] meaning UTC). *)
Theorem X10_strict_lines_accepted (w : World) (c : commit_date) :
  well_formed c -> 2 <= cd_year c <= 9998 ->
  exists x,
    instant x = commit_instant c
    /\ forall rest parsed_dates,
         parse_lines w pacific (iso_strict c :: rest) parsed_dates
         = parse_lines w pacific rest (parsed_dates ++ [x]).
Proof.
  intros Hwf Hyear.
  destruct (iso_strict_valid w c Hwf Hyear) as [[Hb _] (x & Hx & Hi)].
  exists x. split; [exact Hi|].
  intros rest acc. now rewrite parse_lines_cons, Hb, Hx.
Qed.

Lemma X10_strict_lines_accepted_witness :
  let c := mk_commit_date 2024 7 15 12 0 0 None in
  iso_strict c = "2024-07-15T12:00:00Z"
  /\ exists x,
       instant x = commit_instant c
       /\ forall rest parsed_dates,
            parse_lines (demo_world "") pacific (iso_strict c :: rest) parsed_dates
            = parse_lines (demo_world "") pacific rest (parsed_dates ++ [x]).
Proof.
  intros c. split; [reflexivity|].
  apply (X10_strict_lines_accepted (demo_world "") c).
  - vm_compute. intuition discriminate.
  - vm_compute. intuition discriminate.
Defined.

(** X11. The offset a commit was written with does not survive: two lines
    in the strict format that denote the same instant, whatever their
    offsets, give the same timestamp. *)
Theorem X11_same_instant_same_timestamp (w : World) (c1 c2 : commit_date) :
  well_formed c1 -> 2 <= cd_year c1 <= 9998 ->
  well_formed c2 -> 2 <= cd_year c2 <= 9998 ->
  commit_instant c1 = commit_instant c2 ->
  convert w pacific (iso_strict c1) = convert w pacific (iso_strict c2).
Proof.
  intros Hwf1 Hy1 Hwf2 Hy2 Hi.
  destruct (iso_strict_valid w c1 Hwf1 Hy1) as [_ (x1 & Hx1 & Hi1)].
  destruct (iso_strict_valid w c2 Hwf2 Hy2) as [_ (x2 & Hx2 & Hi2)].
  rewrite Hx1, Hx2. f_equal.
  apply (convert_instant_inj w pacific _ _ _ _ Hx1 Hx2). congruence.
Qed.

Lemma X11_same_instant_same_timestamp_witness :
  convert (demo_world "") pacific "2024-01-15T12:00:00-05:00"
  = convert (demo_world "") pacific "2024-01-15T17:00:00Z".
Proof.
  apply (X11_same_instant_same_timestamp (demo_world "")
           (mk_commit_date 2024 1 15 12 0 0 (Some (true, 5, 0)))
           (mk_commit_date 2024 1 15 17 0 0 None)).
  - vm_compute. intuition discriminate.
  - vm_compute. intuition discriminate.
  - vm_compute. intuition discriminate.
  - vm_compute. intuition discriminate.
  - vm_compute. reflexivity.
Defined.

(** ** Partial success *)

Lemma accepted_exists_valid (w : World) (lines : list string) :
  Exists (yields_timestamp w) lines -> accepted w lines <> [].
Proof.
  unfold accepted.
  induction 1 as [l rest [Hb [x Hx]]|l rest _ IH]; cbn [flat_map].
  - rewrite Hb, Hx. discriminate.
  - intros H. apply app_eq_nil in H as [_ H]. now apply IH.
Qed.

(** X12. Partial success.  When [git] succeeds and no conversion
    overflows, one line that yields a timestamp is enough for a report, however many other
    lines are blank or malformed: the operation returns the timestamps of
    exactly the lines that parsed, earliest first, and standard output is
    one warning per malformed line, in the order of the lines, followed by
    the report of the returned list. *)
Theorem X12_partial_success (w : World) (repo_path output : string) :
  is_repository w repo_path ->
  run_process w (git_log_argv repo_path) = Exited 0 output ->
  Forall (tolerated w) (Str.splitlines output) ->
  Exists (yields_timestamp w) (Str.splitlines output) ->
  exists t dates,
    get_commit_log w repo_path = (t, Ok (Some dates))
    /\ Permutation (accepted w (Str.splitlines output)) dates
    /\ chronological dates
    /\ stdout t = (warnings w (Str.splitlines output)
                   ++ report repo_path dates)%list.
Proof.
  intros Hrepo Hrun Htol Hex.
  pose proof (get_commit_log_tolerated _ _ _ Hrepo Hrun Htol) as H.
  cbv zeta in H. apply accepted_exists_valid in Hex.
  destruct (accepted w (Str.splitlines output)) as [|x rest] eqn:A;
    [contradiction|].
  destruct H as (sorted & _ & Hp & Hc & H).
  eexists. exists sorted. split; [exact H|].
  split; [exact Hp|]. split; [exact Hc|].
  rewrite stdout_app.
  change (stdout (path_checks repo_path ++ Spawn ?a :: ?l)) with (stdout l).
  now rewrite !stdout_prints.
Qed.

Lemma X12_partial_success_witness :
  let output := unlines ["2024-07-15T12:00:00Z"; ""; "not-a-date";
                         "2024-01-15T12:00:00-05:00"] in
  exists t dates,
    get_commit_log (demo_world output) "/repo" = (t, Ok (Some dates))
    /\ Permutation (accepted (demo_world output) (Str.splitlines output)) dates
    /\ chronological dates
    /\ stdout t = (warnings (demo_world output) (Str.splitlines output)
                   ++ report "/repo" dates)%list.
Proof.
  intros output.
  apply (X12_partial_success (demo_world output) "/repo" output).
  - split; reflexivity.
  - reflexivity.
  - let l := eval vm_compute in (Str.splitlines output) in
    change (Str.splitlines output) with l.
    apply Forall_cons; [right; left; eexists; vm_compute; reflexivity|].
    apply Forall_cons; [left; vm_compute; reflexivity|].
    apply Forall_cons; [right; right; eexists; vm_compute; reflexivity|].
    apply Forall_cons; [right; left; eexists; vm_compute; reflexivity|].
    apply Forall_nil.
  - let l := eval vm_compute in (Str.splitlines output) in
    change (Str.splitlines output) with l.
    apply Exists_cons_hd.
    split; [vm_compute; reflexivity | eexists; vm_compute; reflexivity].
Defined.
